(** * mm_dlink_heap: a boundary-tag allocator with an intrusive free list

    Shallow embedding of [src/mm_dlink_heap.c] and the properties its
    specification states about it.

    The arena is an array of [HeadFoot] units.  Pointers are byte addresses
    ([Z]); values of type [size_t] are 64-bit and their wrap-around is written
    out with [wrap]; the bit-field [size_of_blk] is 31 bits wide and every
    store to it is truncated with [trunc31].  The C code is stateful: it is
    embedded in a state monad whose result records a fault (a dereference
    outside the committed arena, which is undefined behaviour in C) together
    with the state reached when it happened. *)

From Stdlib Require Import ZArith List Bool Lia.
Import ListNotations.
Open Scope Z_scope.

(** ** Platform constants (LP64) *)

(** [size_t] is 64 bits wide. *)
Definition wrap (z : Z) : Z := z mod 2 ^ 64.

(** [size_of_blk : 4 * sizeof(size_t) - 1], that is 31 bits. *)
Definition trunc31 (z : Z) : Z := z mod 2 ^ 31.

(** Two pointers and one [size_t] storage unit holding both bit-fields. *)
Definition sizeof_HeadFoot : Z := 24.
Definition sizeof_max_align_t : Z := 32.
(** [sysconf(_SC_PAGESIZE)] of the host. *)
Definition PAGESIZE : Z := 4096.

Definition NULL : Z := 0.
Definition ENOMEM : Z := 12.
Definition EFAULT : Z := 14.

(** [static const size_t blocks = 4;] *)
Definition blocks : Z := 4.

(** ** Data model *)

(** [union HeadFoot]: the two link pointers, the block size and the
    allocation bit. *)
Record HeadFoot : Type := mkHF {
  previous_free : Z;
  next_free : Z;
  size_of_blk : Z;
  alloc_or_not : bool
}.

Definition with_prev (h : HeadFoot) (p : Z) : HeadFoot :=
  mkHF p (next_free h) (size_of_blk h) (alloc_or_not h).
Definition with_next (h : HeadFoot) (p : Z) : HeadFoot :=
  mkHF (previous_free h) p (size_of_blk h) (alloc_or_not h).
Definition with_size (h : HeadFoot) (s : Z) : HeadFoot :=
  mkHF (previous_free h) (next_free h) (trunc31 s) (alloc_or_not h).
Definition with_alloc (h : HeadFoot) (a : bool) : HeadFoot :=
  mkHF (previous_free h) (next_free h) (size_of_blk h) a.

(** The allocator's world: the arena provider's three addresses, the
    contents of the backing store (indexed by the byte address at which a
    unit starts), the anchor [freelist] and [errno]. *)
Record state : Type := mkState {
  mem_start_brk : Z;
  mem_max_addr : Z;
  mem_brk : Z;
  cells : Z -> HeadFoot;
  freelist : Z;
  errno : Z
}.

(** The store after the unit at [p] has been rewritten by [f]. *)
Definition upd (m : Z -> HeadFoot) (p : Z) (f : HeadFoot -> HeadFoot)
  : Z -> HeadFoot :=
  fun q => if q =? p then f (m q) else m q.

Definition set_cells (s : state) (m : Z -> HeadFoot) : state :=
  mkState (mem_start_brk s) (mem_max_addr s) (mem_brk s) m (freelist s) (errno s).
Definition set_anchor (s : state) (f : Z) : state :=
  mkState (mem_start_brk s) (mem_max_addr s) (mem_brk s) (cells s) f (errno s).
Definition set_brk (s : state) (b : Z) : state :=
  mkState (mem_start_brk s) (mem_max_addr s) b (cells s) (freelist s) (errno s).
Definition set_err (s : state) (e : Z) : state :=
  mkState (mem_start_brk s) (mem_max_addr s) (mem_brk s) (cells s) (freelist s) e.

(** ** The monad *)

Inductive outcome (A : Type) : Type :=
| Done (a : A) (s : state)
| Fault (s : state)
| Spin.
Arguments Done {A} a s.
Arguments Fault {A} s.
Arguments Spin {A}.

Definition M (A : Type) : Type := state -> outcome A.

Definition ret {A} (a : A) : M A := fun s => Done a s.
Definition bind {A B} (m : M A) (k : A -> M B) : M B :=
  fun s => match m s with
           | Done a s' => k a s'
           | Fault s' => Fault s'
           | Spin => Spin
           end.
Definition spin {A} : M A := fun _ => Spin.

Notation "x <- m ;; k" := (bind m (fun x => k))
  (at level 61, m at next level, right associativity).
Notation "m ;;; k" := (bind m (fun _ => k))
  (at level 61, right associativity).

(** A [HeadFoot *] may be dereferenced when it lies on the unit grid of the
    committed arena. *)
Definition valid (s : state) (p : Z) : bool :=
  (mem_start_brk s <=? p) && (p + sizeof_HeadFoot <=? mem_brk s)
  && ((p - mem_start_brk s) mod sizeof_HeadFoot =? 0).

Definition load (p : Z) : M HeadFoot :=
  fun s => if valid s p then Done (cells s p) s else Fault s.

Definition modify (p : Z) (f : HeadFoot -> HeadFoot) : M unit :=
  fun s => if valid s p
           then Done tt (set_cells s (upd (cells s) p f))
           else Fault s.

Definition set_size (p v : Z) : M unit := modify p (fun h => with_size h v).
Definition set_alloc (p : Z) (a : bool) : M unit := modify p (fun h => with_alloc h a).
Definition set_next (p q : Z) : M unit := modify p (fun h => with_next h q).
Definition set_prev (p q : Z) : M unit := modify p (fun h => with_prev h q).

Definition get_freelist : M Z := fun s => Done (freelist s) s.
Definition set_freelist (f : Z) : M unit := fun s => Done tt (set_anchor s f).
Definition set_errno (e : Z) : M unit := fun s => Done tt (set_err s e).

(** [p + k] on a [HeadFoot *]. *)
Definition padd (p k : Z) : Z := p + k * sizeof_HeadFoot.

(** ** The arena provider *)

(** Modelled from the spec: [mem_init] of memlib, which is not part of the
    sources; it prepares an empty arena. *)
Definition mem_init : M unit := fun s => Done tt (set_brk s (mem_start_brk s)).

(** Modelled from the spec: [mem_deinit] of memlib; it releases the arena. *)
Definition mem_deinit : M unit := fun s => Done tt (set_brk s (mem_start_brk s)).

(** Modelled from the spec: [mem_reset_brk] of memlib; it rewinds the break
    to the start of the arena, the contents stay as they are. *)
Definition mem_reset_brk : M unit :=
  fun s => Done tt (set_brk s (mem_start_brk s)).

(** The failure value of [mem_sbrk], [(void * ) -1]. *)
Definition SBRK_FAILED : Z := 2 ^ 64 - 1.

(** Modelled from the spec: [mem_sbrk] of memlib; it extends the arena by
    [incr] bytes and returns the address of the new region, or the failure
    value when the provider's capacity does not allow it. *)
Definition mem_sbrk (incr : Z) : M Z :=
  fun s => if mem_brk s + incr <=? mem_max_addr s
           then Done (mem_brk s) (set_brk s (mem_brk s + incr))
           else Done SBRK_FAILED s.

(** Modelled from the spec: [mem_heap_lo] and [mem_heap_hi] of memlib, the
    inclusive bounds of the committed arena. *)
Definition mem_heap_lo : M Z := fun s => Done (mem_start_brk s) s.
Definition mem_heap_hi : M Z := fun s => Done (mem_brk s - 1) s.

(** ** The allocator *)

(** [restart] (lines 124-140). *)
Definition restart : M unit :=
  r <- mem_sbrk (wrap ((blocks + 1) * sizeof_HeadFoot)) ;;
  if r =? NULL then ret tt else
  lo <- mem_heap_lo ;;
  set_freelist lo ;;;
  f <- get_freelist ;;
  set_size (padd f (blocks - 1)) blocks ;;;
  set_size f blocks ;;;
  set_alloc (padd f (blocks - 1)) true ;;;
  set_alloc f true ;;;
  set_next f f ;;;
  set_prev f f ;;;
  let lastblck := padd f blocks in
  set_alloc lastblck true ;;;
  set_size lastblck 1.

(** [mm_init] (lines 90-95). *)
Definition mm_init : M unit :=
  f <- get_freelist ;;
  if f =? NULL then mem_init ;;; restart else ret tt.

(** [mm_reset] (lines 101-108). *)
Definition mm_reset : M unit :=
  f <- get_freelist ;;
  if f =? NULL then mm_init else mem_reset_brk ;;; restart.

(** [mm_deinit] (lines 114-117). *)
Definition mm_deinit : M unit :=
  mem_deinit ;;; set_freelist NULL.

(** [takefromlist] (lines 148-154). *)
Definition takefromlist (head : Z) : M unit :=
  h <- load head ;;
  let after := next_free h in
  let before := previous_free h in
  set_next before after ;;;
  set_prev after before.

(** [conv_bytes] (lines 163-166). *)
Definition conv_bytes (headchunk : Z) : Z := wrap (headchunk * sizeof_HeadFoot).

(** [headchunksize] (lines 212-216). *)
Definition headchunksize (bytechunks : Z) : Z :=
  wrap (bytechunks + sizeof_HeadFoot - 1) / sizeof_HeadFoot.

(** [returnfreeblocktolist] (lines 179-203). *)
Definition returnfreeblocktolist (blockval : Z) : M unit :=
  h <- load blockval ;;
  let headch := size_of_blk h in
  set_alloc (padd blockval (wrap (headch - 1))) false ;;;
  set_alloc blockval false ;;;
  pf <- load (padd blockval (-1)) ;;
  bh <- (if negb (alloc_or_not pf) then
           let blockval := padd blockval (- size_of_blk pf) in
           h' <- load blockval ;;
           let headch := wrap (headch + size_of_blk h') in
           set_size (padd blockval (wrap (headch - 1))) headch ;;;
           set_size blockval headch ;;;
           ret (blockval, headch)
         else
           f <- get_freelist ;;
           fh <- load f ;;
           let after := next_free fh in
           set_prev blockval f ;;;
           set_next blockval after ;;;
           set_prev after blockval ;;;
           set_next f blockval ;;;
           ret (blockval, headch)) ;;
  let blockval := fst bh in
  let headch := snd bh in
  set_freelist blockval ;;;
  nx <- load (padd blockval headch) ;;
  if negb (alloc_or_not nx) then
    takefromlist (padd blockval headch) ;;;
    nx' <- load (padd blockval headch) ;;
    let headch := wrap (headch + size_of_blk nx') in
    set_size (padd blockval (wrap (headch - 1))) headch ;;;
    set_size blockval headch
  else ret tt.

(** [increaseheapsize] (lines 224-244). *)
Definition increaseheapsize (heads : Z) : M Z :=
  let allocations := headchunksize (wrap PAGESIZE) in
  let heads := if heads <? allocations then allocations else heads in
  let bytecounts := conv_bytes heads in
  incr <- mem_sbrk bytecounts ;;
  if incr =? SBRK_FAILED then ret NULL else
  let blck := padd incr (-1) in
  set_size (padd blck (wrap (heads - 1))) heads ;;;
  set_size blck heads ;;;
  set_alloc (padd blck (wrap (heads - 1))) false ;;;
  set_alloc blck false ;;;
  set_alloc (padd blck heads) true ;;;
  set_size (padd blck heads) 1 ;;;
  returnfreeblocktolist blck ;;;
  get_freelist.

(** The body run for the block that passes the fit test: lines 256-281 of
    [pick_free_block_from_list_first_fit], repeated verbatim as lines 328-353
    of [pick_free_block_from_list_best_fit]. *)
Definition place (headc blck : Z) : M Z :=
  b <- load blck ;;
  if wrap (headc + blocks) >? size_of_blk b then
    f <- get_freelist ;;
    (if blck =? f then set_freelist (previous_free b) else ret tt) ;;;
    takefromlist blck ;;;
    b' <- load blck ;;
    let alc := size_of_blk b' in
    set_alloc (padd blck (wrap (alc - 1))) true ;;;
    set_alloc blck true ;;;
    ret blck
  else
    let alc := wrap (size_of_blk b - headc) in
    set_size blck (wrap (size_of_blk b - headc)) ;;;
    b' <- load blck ;;
    set_size (padd blck (wrap (alc - 1))) (size_of_blk b') ;;;
    set_size (padd blck (wrap (alc + headc - 1))) headc ;;;
    set_size (padd blck alc) headc ;;;
    set_alloc (padd blck (wrap (alc + headc - 1))) true ;;;
    set_alloc (padd blck alc) true ;;;
    ret (padd blck alc).

(** The [while (true)] loop of lines 254-290 (and of lines 326-362). *)
Fixpoint fit_loop (fuel : nat) (headc blck : Z) : M Z :=
  match fuel with
  | O => spin
  | S fuel' =>
      b <- load blck ;;
      if (headc <=? size_of_blk b) && negb (alloc_or_not b) then
        place headc blck
      else
        let blck := next_free b in
        f <- get_freelist ;;
        if blck =? f then
          blck <- increaseheapsize headc ;;
          if blck =? NULL then ret NULL else fit_loop fuel' headc blck
        else fit_loop fuel' headc blck
  end.

(** [pick_free_block_from_list_first_fit] (lines 252-291). *)
Definition pick_free_block_from_list_first_fit (fuel : nat) (headc : Z) : M Z :=
  blck <- get_freelist ;;
  fit_loop fuel headc blck.

(** The [do ... while (temp != freelist)] scan of lines 306-314; it returns
    the final [temp] and [best_fit]. *)
Fixpoint best_scan (fuel : nat) (headc temp best_fit : Z) : M (Z * Z) :=
  match fuel with
  | O => spin
  | S fuel' =>
      t <- load temp ;;
      best_fit <- (if (headc <=? size_of_blk t) && negb (alloc_or_not t) then
                     bf <- load best_fit ;;
                     if size_of_blk t <? size_of_blk bf then ret temp
                     else ret best_fit
                   else ret best_fit) ;;
      let temp := next_free t in
      f <- get_freelist ;;
      if temp =? f then ret (temp, best_fit)
      else best_scan fuel' headc temp best_fit
  end.

(** [pick_free_block_from_list_best_fit] (lines 298-363). *)
Definition pick_free_block_from_list_best_fit (fuel : nat) (headc : Z) : M Z :=
  f <- get_freelist ;;
  let temp := f in
  let best_fit := f in
  let val := f in
  tb <- (if negb (f =? NULL) then best_scan fuel headc temp best_fit
         else ret (temp, best_fit)) ;;
  let temp := fst tb in
  let best_fit := snd tb in
  if (best_fit =? val) && (temp =? NULL) then ret NULL
  else fit_loop fuel headc best_fit.

(** [mm_malloc] (lines 372-388). *)
Definition mm_malloc (fuel : nat) (bytechunks : Z) : M Z :=
  f <- get_freelist ;;
  (if f =? NULL then mm_init else ret tt) ;;;
  let chunks := headchunksize bytechunks in
  let chunks := wrap (chunks + 2) in
  let chunks := if blocks >? chunks then blocks else chunks in
  headptr <- pick_free_block_from_list_first_fit fuel chunks ;;
  if headptr =? NULL then
    set_errno ENOMEM ;;; ret NULL
  else ret (padd headptr 1).

(** The [for] loop of lines 415-417: [blck_list] follows [proceed] while
    [proceed <= allocated]. *)
Fixpoint block_walk (fuel : nat) (allocated blck_list proceed : Z) : M Z :=
  match fuel with
  | O => spin
  | S fuel' =>
      if proceed <=? allocated then
        b <- load proceed ;;
        block_walk fuel' allocated proceed (padd proceed (size_of_blk b))
      else ret blck_list
  end.

(** The guarded block of lines 402-413.  In C, [==] binds tighter than [&],
    so the guard is [allocated & ((sizeof(max_align_t) - 1) == 0)]. *)
Definition fast_path (allocated : Z) : M (option Z) :=
  if negb (Z.land allocated (Z.b2z (sizeof_max_align_t - 1 =? 0)) =? 0) then
    let blck_list := padd allocated (-1) in
    c <- load blck_list ;;
    if alloc_or_not c then
      let headvals := size_of_blk c in
      if blocks <=? headvals then
        ft <- load (padd blck_list (wrap (headvals - 1))) ;;
        if (size_of_blk c =? size_of_blk ft)
           || Bool.eqb (alloc_or_not c) (alloc_or_not ft)
        then ret (Some blck_list) else ret None
      else ret None
    else ret None
  else ret None.

(** [allocatedblock] (lines 397-425). *)
Definition allocatedblock (fuel : nat) (allocated : Z) : M Z :=
  lo <- mem_heap_lo ;;
  hi <- mem_heap_hi ;;
  if (allocated <=? lo) || (allocated >=? hi) || (allocated =? NULL) then ret NULL
  else
    fp <- fast_path allocated ;;
    match fp with
    | Some blck_list => ret blck_list
    | None =>
        blck_list <- mem_heap_lo ;;
        b0 <- load blck_list ;;
        blck_list <- block_walk fuel allocated blck_list
                       (padd blck_list (size_of_blk b0)) ;;
        b <- load blck_list ;;
        if alloc_or_not b then ret blck_list else ret NULL
    end.

(** [mm_free] (lines 471-480). *)
Definition mm_free (fuel : nat) (alloc : Z) : M unit :=
  if negb (alloc =? NULL) then
    heaf <- allocatedblock fuel alloc ;;
    if heaf =? NULL then set_errno EFAULT
    else returnfreeblocktolist heaf
  else ret tt.

(** ** Resizing, and the caller's own stores *)

Section Realloc.

(** The store is kept unit by unit.  A unit-sized read at an address that
    lies [o] bytes ([0 < o < 24]) into unit [a] takes the tail of [a] and
    the head of the unit [b] that follows; how the bytes combine is left to
    [splice]. *)
Variable splice : Z -> HeadFoot -> HeadFoot -> HeadFoot.

Definition peek (s : state) (p : Z) : HeadFoot :=
  let o := (p - mem_start_brk s) mod sizeof_HeadFoot in
  if o =? 0 then cells s p
  else splice o (cells s (p - o)) (cells s (p - o + sizeof_HeadFoot)).

Definition in_arena (s : state) (p n : Z) : bool :=
  (mem_start_brk s <=? p) && (p + n <=? mem_brk s).

(** [memcpy(dst, src, n)] as [mm_realloc] uses it: [dst] is a payload
    address on the unit grid and [n] a whole number of units.  Both ranges
    must lie in the committed arena and must not overlap. *)
Definition memcpy (dst src n : Z) : M unit :=
  fun s =>
    if n =? 0 then Done tt s
    else if in_arena s src n && in_arena s dst n
            && ((src + n <=? dst) || (dst + n <=? src))
            && ((dst - mem_start_brk s) mod sizeof_HeadFoot =? 0)
            && (n mod sizeof_HeadFoot =? 0)
    then Done tt
           (set_cells s
              (fun q =>
                 if (dst <=? q) && (q <? dst + n)
                    && ((q - dst) mod sizeof_HeadFoot =? 0)
                 then peek s (src + (q - dst))
                 else cells s q))
    else Fault s.

(** [mm_realloc] (lines 436-462). *)
Definition mm_realloc (fuel : nat) (allocatedptr bytechunks : Z) : M Z :=
  if allocatedptr =? NULL then mm_malloc fuel bytechunks
  else
    blockv <- allocatedblock fuel allocatedptr ;;
    if blockv =? NULL then
      set_errno EFAULT ;;; ret NULL
    else
      let hchunks := headchunksize bytechunks in
      let hchunks := wrap (hchunks + 2) in
      bv <- load blockv ;;
      let insize := size_of_blk bv in
      if insize >=? hchunks then ret allocatedptr
      else
        reblockptr <- pick_free_block_from_list_first_fit fuel hchunks ;;
        if reblockptr =? NULL then ret NULL
        else
          let copysize := wrap (insize - 2) in
          let newloc := padd reblockptr 1 in
          let copybytes := conv_bytes copysize in
          memcpy newloc allocatedptr copybytes ;;;
          returnfreeblocktolist blockv ;;;
          ret newloc.

End Realloc.

(** What the caller does with a payload it was handed: it stores bytes of its
    own choosing, which overlay all four fields of a unit. *)
Definition caller_store (p : Z) (h : HeadFoot) : M unit :=
  modify p (fun _ => mkHF (wrap (previous_free h)) (wrap (next_free h))
                          (trunc31 (size_of_blk h)) (alloc_or_not h)).

(** [caller_fill p k h] stores [h] into the [k] units from [p] on. *)
Fixpoint caller_fill (p : Z) (k : nat) (h : HeadFoot) : M unit :=
  match k with
  | O => ret tt
  | S k' => caller_store p h ;;; caller_fill (padd p 1) k' h
  end.

(** ** Concrete arenas *)

Definition zeroHF : HeadFoot := mkHF 0 0 0 false.

(** An arena that has not been initialised: page-aligned base, [cap] bytes of
    capacity, backing store [m]. *)
Definition pristine (cap : Z) (m : Z -> HeadFoot) : state :=
  mkState 65536 (65536 + cap) 65536 m NULL 0.

(** The value an outcome returned. *)
Definition value_of {A} (o : outcome A) : option A :=
  match o with Done a _ => Some a | _ => None end.

(** ** Heap invariants used by the theorems *)

(** The fit test of line 255. *)
Definition fits (s : state) (headc x : Z) : bool :=
  (headc <=? size_of_blk (cells s x)) && negb (alloc_or_not (cells s x)).

(** The size in units [mm_malloc] asks placement for (lines 376-380). *)
Definition request_units (bytechunks : Z) : Z :=
  let chunks := wrap (headchunksize bytechunks + 2) in
  if blocks >? chunks then blocks else chunks.

(** The number of units [increaseheapsize] asks the provider for
    (lines 226-229). *)
Definition grow_units (heads : Z) : Z :=
  let allocations := headchunksize (wrap PAGESIZE) in
  if heads <? allocations then allocations else heads.

(** The provider refuses the growth a request of [heads] units needs. *)
Definition refused (s : state) (heads : Z) : bool :=
  negb (mem_brk s + conv_bytes (grow_units heads) <=? mem_max_addr s).

(** [chain s first l]: following [next_free] from the head of [l] visits [l]
    in order and then comes back to [first]; [previous_free] leads the other
    way round. *)
Fixpoint chain (s : state) (first : Z) (l : list Z) : Prop :=
  match l with
  | [] => False
  | x :: t =>
      match t with
      | [] => next_free (cells s x) = first
              /\ previous_free (cells s first) = x
      | y :: _ => next_free (cells s x) = y
                  /\ previous_free (cells s y) = x
                  /\ chain s first t
      end
  end.

(** A member of the free list lies on the grid below the trailing sentinel;
    when its header says free, its block ends below the trailing sentinel. *)
Definition node_ok (s : state) (x : Z) : Prop :=
  valid s x = true
  /\ x + 24 <= mem_brk s - 24
  /\ (alloc_or_not (cells s x) = false ->
      1 <= size_of_blk (cells s x)
      /\ x + 24 * size_of_blk (cells s x) <= mem_brk s - 24).

(** The block that ends right below the trailing sentinel: when its footer
    says free, the footer's size leads to its header, which agrees on the
    size, says free too and is on the free list. *)
Definition last_ok (s : state) (l : list Z) : Prop :=
  let e := cells s (mem_brk s - 48) in
  alloc_or_not e = false ->
  let b := mem_brk s - 24 - 24 * size_of_blk e in
  1 <= size_of_blk e
  /\ In b l
  /\ size_of_blk (cells s b) = size_of_blk e
  /\ alloc_or_not (cells s b) = false.

(** What the theorems about placement assume of the heap at entry: the
    provider's addresses are sane and every block size fits the 31-bit size
    field; the arena is bootstrapped; [l] is the free list, a circular doubly
    linked list through the anchor. *)
Record heap_ok (s : state) (l : list Z) : Prop := {
  ok_base : 0 < mem_start_brk s;
  ok_max : mem_max_addr s < 2 ^ 64 - 1;
  ok_cap : mem_max_addr s - mem_start_brk s <= 24 * (2 ^ 31 - 1);
  ok_brk : mem_brk s <= mem_max_addr s;
  ok_grid : (mem_brk s - mem_start_brk s) mod 24 = 0;
  ok_boot : mem_start_brk s + 5 * 24 <= mem_brk s;
  ok_anchor : hd_error l = Some (freelist s);
  ok_nodup : NoDup l;
  ok_chain : chain s (freelist s) l;
  ok_nodes : Forall (node_ok s) l;
  ok_last : last_ok s l
}.

(** What [fit_loop] does once the walk has come round to the anchor. *)
Definition grow_and_retry (fuel : nat) (headc : Z) : M Z :=
  blck <- increaseheapsize headc ;;
  if blck =? NULL then ret NULL else fit_loop fuel headc blck.

(** ** Concrete heaps and call sequences *)

Definition FUEL : nat := 64.

Definition after {A} (m : M A) (s : state) : state :=
  match m s with Done _ s' => s' | Fault s' => s' | Spin => s end.

(** A freshly initialised arena with 1 MiB of capacity over a backing store
    with contents [m0]. *)
Definition boot (m0 : Z -> HeadFoot) : state :=
  after mm_init (pristine 1048576 m0).
Definition fresh : state := boot (fun _ => zeroHF).

(** The bytes 0xFF all over a unit. *)
Definition all_ones : HeadFoot := mkHF (2 ^ 64 - 1) (2 ^ 64 - 1) (2 ^ 31 - 1) true.

(** [a = malloc(64); b = malloc(64); free(a); c = malloc(64)]. *)
Definition reuse_calls : M (Z * Z * Z) :=
  a <- mm_malloc FUEL 64 ;;
  b <- mm_malloc FUEL 64 ;;
  mm_free FUEL a ;;;
  c <- mm_malloc FUEL 64 ;;
  ret (a, b, c).

(** [p = malloc(2400); memset(p, 0xFF, 2400); free(p); q = malloc(1)]. *)
Definition stale_calls : M (Z * Z) :=
  p <- mm_malloc FUEL 2400 ;;
  caller_fill p 100 all_ones ;;;
  mm_free FUEL p ;;;
  q <- mm_malloc FUEL 1 ;;
  ret (p, q).

(** The same, followed by [free(q)]. *)
Definition stale_then_free_calls : M (Z * Z) :=
  pq <- stale_calls ;;
  mm_free FUEL (snd pq) ;;;
  ret pq.

(** [p = malloc(2400); mm_reset(); q = malloc(2376)]: public calls only. *)
Definition reset_calls : M (Z * Z) :=
  p <- mm_malloc FUEL 2400 ;;
  mm_reset ;;;
  q <- mm_malloc FUEL 2376 ;;
  ret (p, q).

(** The same, followed by [free(q)]. *)
Definition reset_then_free_calls : M (Z * Z) :=
  pq <- reset_calls ;;
  mm_free FUEL (snd pq) ;;;
  ret pq.

(** Three free blocks of 30, 25 and 10 units kept apart by allocated blocks,
    released in that order, and a free remainder of 94 units. *)
Definition scattered_calls : M (Z * Z * Z) :=
  a <- mm_malloc FUEL 672 ;;
  _ <- mm_malloc FUEL 48 ;;
  b <- mm_malloc FUEL 552 ;;
  _ <- mm_malloc FUEL 48 ;;
  c <- mm_malloc FUEL 192 ;;
  _ <- mm_malloc FUEL 48 ;;
  mm_free FUEL a ;;;
  mm_free FUEL b ;;;
  mm_free FUEL c ;;;
  ret (a, b, c).
Definition scattered : state := after scattered_calls fresh.
(** Its free list, from the anchor on: the 10-unit block, the leading
    sentinel, the remainder, the 30-unit block, the 25-unit block. *)
Definition scattered_list : list Z := [67984; 65536; 65632; 69016; 68320].

(** [p = malloc(2400)], after which the caller writes into its payload two
    units that look like the header and the footer of an allocated 4-unit
    block. *)
Definition decoy_calls : M Z :=
  p <- mm_malloc FUEL 2400 ;;
  caller_store (padd p 25) (mkHF 0 0 4 true) ;;;
  caller_store (padd p 28) (mkHF 0 0 4 true) ;;;
  ret p.
Definition decoy : state := after decoy_calls fresh.

(** [a = malloc(64); b = malloc(64); free(a)]: the anchor is a free block of
    5 units between [b] and the trailing sentinel. *)
Definition five_calls : M (Z * Z) :=
  a <- mm_malloc FUEL 64 ;;
  b <- mm_malloc FUEL 64 ;;
  mm_free FUEL a ;;;
  ret (a, b).
Definition five : state := after five_calls fresh.
Definition five_list : list Z := [69616; 65536; 65632].

(** An arena whose provider has room for the bootstrap and one page only,
    after [malloc(64)]. *)
Definition tight : state :=
  after (mm_malloc FUEL 64) (after mm_init (pristine 4224 (fun _ => zeroHF))).
Definition tight_list : list Z := [65632; 65536].

(** The blocks of the arena, by their headers: from [b], follow
    [block + block.size] while inside the committed arena. *)
Fixpoint arena_blocks (fuel : nat) (s : state) (b : Z) : list Z :=
  match fuel with
  | O => []
  | S fuel' =>
      if valid s b
      then b :: arena_blocks fuel' s (padd b (size_of_blk (cells s b)))
      else []
  end.

(** Header and footer of the block at [b] carry the same size and the same
    allocation bit. *)
Definition tags_agree (s : state) (b : Z) : bool :=
  let h := cells s b in
  let f := cells s (padd b (size_of_blk h - 1)) in
  (size_of_blk h =? size_of_blk f)
  && Bool.eqb (alloc_or_not h) (alloc_or_not f).

(** A free block at [b] has allocated physical neighbours on both sides. *)
Definition neighbours_allocated (s : state) (b : Z) : bool :=
  alloc_or_not (cells s b)
  || (alloc_or_not (cells s (padd b (-1)))
      && alloc_or_not (cells s (padd b (size_of_blk (cells s b))))).

(** ** The claims of the specification, as propositions *)

(** The block an allocation is served from, as a property of its header
    [p] in the final state [s']: marked allocated, at least [r] units and
    fewer than [r + 4]. *)
Definition served (r p : Z) (s' : state) : Prop :=
  0 < p
  /\ alloc_or_not (cells s' p) = true
  /\ r <= size_of_blk (cells s' p) < r + 4.

(** What the specification says [mm_malloc(n)] does on the heap [s] with
    free list [l]: null and [ENOMEM] when no member of the free list fits
    and the provider refuses the growth, and otherwise the payload pointer
    of an allocated block that is large enough. *)
Definition malloc_claim (fuel : nat) (s : state) (l : list Z) (n : Z) : Prop :=
  let r := request_units n in
  (existsb (fits s r) l = false -> refused s r = true ->
   mm_malloc fuel n s = Done NULL (set_err s ENOMEM))
  /\ (existsb (fits s r) l = true \/ refused s r = false ->
      exists p s',
        mm_malloc fuel n s = Done p s'
        /\ p <> NULL
        /\ alloc_or_not (cells s' (padd p (-1))) = true
        /\ r <= size_of_blk (cells s' (padd p (-1)))).

(** What the specification says [mm_malloc(0)] returns when memory is
    available: the payload pointer of an allocated block of 4 units. *)
Definition malloc_zero_claim (fuel : nat) (s : state) (l : list Z) : Prop :=
  existsb (fits s blocks) l = true \/ refused s blocks = false ->
  exists p s',
    mm_malloc fuel 0 s = Done p s'
    /\ p <> NULL
    /\ alloc_or_not (cells s' (padd p (-1))) = true
    /\ size_of_blk (cells s' (padd p (-1))) = 4.

(** An outcome that is a fault. *)
Definition faulted {A} (o : outcome A) : bool :=
  match o with Fault _ => true | _ => false end.

(** ** Definitions for the further properties *)

(** What the provider must offer for a bootstrap: a non-null base, room for
    the five bootstrap units, and addresses and sizes that fit a pointer and
    the size field. *)
Definition provider_ok (s : state) : Prop :=
  0 < mem_start_brk s
  /\ mem_start_brk s + 120 <= mem_max_addr s
  /\ mem_max_addr s < 2 ^ 64 - 1
  /\ mem_max_addr s - mem_start_brk s <= 24 * (2 ^ 31 - 1).

(** From [s] to [s'] the provider's base and limit are the same and the
    break has not moved down. *)
Definition arena_le (s s' : state) : Prop :=
  mem_start_brk s' = mem_start_brk s
  /\ mem_max_addr s' = mem_max_addr s
  /\ mem_brk s <= mem_brk s'.

(** From [s] to [s'] the provider's three addresses and [errno] are the
    same. *)
Definition arena_eq (s s' : state) : Prop :=
  mem_start_brk s' = mem_start_brk s
  /\ mem_max_addr s' = mem_max_addr s
  /\ mem_brk s' = mem_brk s
  /\ errno s' = errno s.

(** Every run of [m] that returns relates the state before to the state
    after by [R]. *)
Definition respects (R : state -> state -> Prop) {A} (m : M A) : Prop :=
  forall s a s', m s = Done a s' -> R s s'.

(** The choice the scan of the best fit makes at one member. *)
Definition choose (s : state) (headc best_fit temp : Z) : Z :=
  if fits s headc temp
     && (size_of_blk (cells s temp) <? size_of_blk (cells s best_fit))
  then temp else best_fit.

(** [tiles s b l]: [l] lists the headers of consecutive blocks from [b] on,
    each on the grid of the committed arena and of at least one unit, each
    followed at [block + block.size] by the next. *)
Fixpoint tiles (s : state) (b : Z) (l : list Z) : Prop :=
  match l with
  | [] => True
  | x :: t =>
      x = b /\ valid s b = true /\ 1 <= size_of_blk (cells s b)
      /\ tiles s (padd b (size_of_blk (cells s b))) t
  end.

(** The last step of [returnfreeblocktolist] (lines 196-201) on its own: the
    merge with the upper neighbour of the block [blockval] of [headch]
    units. *)
Definition merge_upper (blockval headch : Z) : M unit :=
  nx <- load (padd blockval headch) ;;
  if negb (alloc_or_not nx) then
    takefromlist (padd blockval headch) ;;;
    nx' <- load (padd blockval headch) ;;
    let headch := wrap (headch + size_of_blk nx') in
    set_size (padd blockval (wrap (headch - 1))) headch ;;;
    set_size blockval headch
  else ret tt.

(** Four blocks of four units, each carved below the one before from the
    top of the first page. *)
Definition quad_calls : M (Z * Z * Z * Z) :=
  x <- mm_malloc FUEL 48 ;;
  y <- mm_malloc FUEL 48 ;;
  z <- mm_malloc FUEL 48 ;;
  w <- mm_malloc FUEL 48 ;;
  ret (x, y, z, w).

Definition quad : state := after quad_calls fresh.

(** The third block (header 69448) released. *)
Definition quad_low : state := after (mm_free FUEL 69472) quad.

(** The first block (header 69640) released. *)
Definition quad_high : state := after (mm_free FUEL 69664) quad.

(** The first and the third block released. *)
Definition quad_both : state := after (mm_free FUEL 69472) quad_high.

(** [tiling s b l e]: the blocks with the headers [l], each of at least one
    unit, lie one after the other from [b] on and end at [e]. *)
Fixpoint tiling (s : state) (b : Z) (l : list Z) (e : Z) : Prop :=
  match l with
  | [] => b = e
  | x :: t =>
      x = b /\ 1 <= size_of_blk (cells s b)
      /\ tiling s (padd b (size_of_blk (cells s b))) t e
  end.

(** The last unit of the block at [x], its footer. *)
Definition foot (s : state) (x : Z) : Z :=
  padd x (size_of_blk (cells s x) - 1).

(** The footer of a block repeats its size, and says free only when the
    header does. *)
Definition footer_ok (s : state) (x : Z) : Prop :=
  size_of_blk (cells s (foot s x)) = size_of_blk (cells s x)
  /\ (alloc_or_not (cells s (foot s x)) = false ->
      alloc_or_not (cells s x) = false).

(** The arena: sane provider addresses, the leading sentinel of four units
    marked allocated at both ends, the blocks [T] up to the trailing
    sentinel, which is marked allocated. *)
Record arena_wf (s : state) (T : list Z) : Prop := {
  aw_base : 0 < mem_start_brk s;
  aw_max : mem_max_addr s < 2 ^ 64 - 1;
  aw_cap : mem_max_addr s - mem_start_brk s <= 24 * (2 ^ 31 - 1);
  aw_brk : mem_brk s <= mem_max_addr s;
  aw_lead_size : size_of_blk (cells s (mem_start_brk s)) = blocks;
  aw_lead_head : alloc_or_not (cells s (mem_start_brk s)) = true;
  aw_lead_foot : alloc_or_not (cells s (padd (mem_start_brk s) 3)) = true;
  aw_tiles : tiling s (padd (mem_start_brk s) 4) T (mem_brk s - 24);
  aw_trail : alloc_or_not (cells s (mem_brk s - 24)) = true;
  aw_feet : Forall (footer_ok s) T
}.

(** The free list [L]: circular and doubly linked from the anchor, without
    repetition. *)
Record list_wf (s : state) (L : list Z) : Prop := {
  lw_anchor : hd_error L = Some (freelist s);
  lw_nodup : NoDup L;
  lw_chain : chain s (freelist s) L
}.

(** The members of the free list are the leading sentinel and the blocks
    whose header says free, the block [b] left out. *)
Definition listed (s : state) (T L : list Z) (b : Z) : Prop :=
  forall x,
    In x L <->
    x = mem_start_brk s
    \/ (In x T /\ x <> b /\ alloc_or_not (cells s x) = false).

(** A well-formed heap: the arena is tiled by the blocks [T], and the free
    list [L] holds the leading sentinel and exactly the blocks of [T] whose
    header says free. *)
Record heap_wf (s : state) (T L : list Z) : Prop := {
  wf_arena : arena_wf s T;
  wf_list : list_wf s L;
  wf_members :
    forall x,
      In x L <->
      x = mem_start_brk s \/ (In x T /\ alloc_or_not (cells s x) = false)
}.

(** From [s] to [s'] every block of [T] other than [b] whose header says
    allocated is still a block, of [T'], and none of its units has
    changed. *)
Definition live_kept (s s' : state) (T T' : list Z) (b : Z) : Prop :=
  forall x,
    In x T -> x <> b -> alloc_or_not (cells s x) = true ->
    In x T'
    /\ forall q, x <= q < x + 24 * size_of_blk (cells s x) ->
                 cells s' q = cells s q.

(** Placement cannot serve [r] units: no member of the free list [L] fits
    and the provider refuses the growth. *)
Definition no_room (s : state) (L : list Z) (r : Z) : bool :=
  negb (existsb (fits s r) L) && refused s r.

(** * Proofs *)

(** ** Basic facts *)

Lemma wrap_small z : 0 <= z < 2 ^ 64 -> wrap z = z.
Proof. intros; unfold wrap; apply Z.mod_small; assumption. Qed.

Lemma trunc31_small z : 0 <= z < 2 ^ 31 -> trunc31 z = z.
Proof. intros; unfold trunc31; apply Z.mod_small; assumption. Qed.

Lemma valid_iff s p :
  valid s p = true <->
  mem_start_brk s <= p /\ p + 24 <= mem_brk s /\ (p - mem_start_brk s) mod 24 = 0.
Proof.
  unfold valid, sizeof_HeadFoot.
  rewrite !andb_true_iff, !Z.leb_le, Z.eqb_eq. tauto.
Qed.

Lemma valid_padd s p k :
  valid s p = true ->
  mem_start_brk s <= p + 24 * k -> p + 24 * k + 24 <= mem_brk s ->
  valid s (padd p k) = true.
Proof.
  rewrite !valid_iff. unfold padd, sizeof_HeadFoot. intros (_ & _ & Hm) Hl Hu.
  repeat split; try lia.
  replace (p + k * 24 - mem_start_brk s) with (p - mem_start_brk s + k * 24) by lia.
  rewrite Z.mod_add by lia. assumption.
Qed.

Lemma load_ok s p : valid s p = true -> load p s = Done (cells s p) s.
Proof. intros H; unfold load; rewrite H; reflexivity. Qed.

Lemma modify_ok s p f :
  valid s p = true ->
  modify p f s = Done tt (set_cells s (upd (cells s) p f)).
Proof. intros H; unfold modify; rewrite H; reflexivity. Qed.

Lemma upd_same m p f : upd m p f p = f (m p).
Proof. unfold upd; rewrite Z.eqb_refl; reflexivity. Qed.

Lemma upd_other m p f q : q <> p -> upd m p f q = m q.
Proof. intros H; unfold upd. destruct (Z.eqb_spec q p); [contradiction | reflexivity]. Qed.

Lemma set_cells_twice s m m' : set_cells (set_cells s m) m' = set_cells s m'.
Proof. reflexivity. Qed.
Lemma set_anchor_twice s f f' : set_anchor (set_anchor s f) f' = set_anchor s f'.
Proof. reflexivity. Qed.
Lemma set_anchor_set_cells s m f :
  set_anchor (set_cells s m) f = set_cells (set_anchor s f) m.
Proof. reflexivity. Qed.

Ltac stateful :=
  cbn [cells set_cells set_anchor set_brk set_err freelist errno
       mem_brk mem_start_brk mem_max_addr fst snd
       previous_free next_free size_of_blk alloc_or_not
       with_prev with_next with_size with_alloc];
  rewrite ?set_cells_twice, ?set_anchor_set_cells, ?set_anchor_twice.

Lemma valid_set_cells s m p : valid (set_cells s m) p = valid s p.
Proof. reflexivity. Qed.
Lemma valid_set_anchor s f p : valid (set_anchor s f) p = valid s p.
Proof. reflexivity. Qed.

(** One step of a monadic computation whose next action is a load or a
    store at an address known to be valid. *)
Ltac run_load :=
  match goal with
  | |- context [load ?p ?s] =>
      rewrite (load_ok s p) by (rewrite ?valid_set_cells, ?valid_set_anchor; assumption)
  end.
Ltac run_store :=
  match goal with
  | |- context [modify ?p ?f ?s] =>
      rewrite (modify_ok s p f) by (rewrite ?valid_set_cells, ?valid_set_anchor; assumption)
  end.

(** Reading one field of a unit after a store to one field of a unit. *)
Section FieldFacts.
Variables (m : Z -> HeadFoot) (p q v : Z) (a : bool).

Lemma size_upd_size :
  size_of_blk (upd m p (fun h => with_size h v) q)
  = if q =? p then trunc31 v else size_of_blk (m q).
Proof. unfold upd; destruct (q =? p); reflexivity. Qed.
Lemma size_upd_alloc :
  size_of_blk (upd m p (fun h => with_alloc h a) q) = size_of_blk (m q).
Proof. unfold upd; destruct (Z.eqb_spec q p); subst; reflexivity. Qed.
Lemma size_upd_next :
  size_of_blk (upd m p (fun h => with_next h v) q) = size_of_blk (m q).
Proof. unfold upd; destruct (Z.eqb_spec q p); subst; reflexivity. Qed.
Lemma size_upd_prev :
  size_of_blk (upd m p (fun h => with_prev h v) q) = size_of_blk (m q).
Proof. unfold upd; destruct (Z.eqb_spec q p); subst; reflexivity. Qed.

Lemma alloc_upd_alloc :
  alloc_or_not (upd m p (fun h => with_alloc h a) q)
  = if q =? p then a else alloc_or_not (m q).
Proof. unfold upd; destruct (q =? p); reflexivity. Qed.
Lemma alloc_upd_size :
  alloc_or_not (upd m p (fun h => with_size h v) q) = alloc_or_not (m q).
Proof. unfold upd; destruct (Z.eqb_spec q p); subst; reflexivity. Qed.
Lemma alloc_upd_next :
  alloc_or_not (upd m p (fun h => with_next h v) q) = alloc_or_not (m q).
Proof. unfold upd; destruct (Z.eqb_spec q p); subst; reflexivity. Qed.
Lemma alloc_upd_prev :
  alloc_or_not (upd m p (fun h => with_prev h v) q) = alloc_or_not (m q).
Proof. unfold upd; destruct (Z.eqb_spec q p); subst; reflexivity. Qed.

Lemma next_upd_next :
  next_free (upd m p (fun h => with_next h v) q)
  = if q =? p then v else next_free (m q).
Proof. unfold upd; destruct (q =? p); reflexivity. Qed.
Lemma next_upd_prev :
  next_free (upd m p (fun h => with_prev h v) q) = next_free (m q).
Proof. unfold upd; destruct (Z.eqb_spec q p); subst; reflexivity. Qed.
Lemma next_upd_size :
  next_free (upd m p (fun h => with_size h v) q) = next_free (m q).
Proof. unfold upd; destruct (Z.eqb_spec q p); subst; reflexivity. Qed.
Lemma next_upd_alloc :
  next_free (upd m p (fun h => with_alloc h a) q) = next_free (m q).
Proof. unfold upd; destruct (Z.eqb_spec q p); subst; reflexivity. Qed.

Lemma prev_upd_prev :
  previous_free (upd m p (fun h => with_prev h v) q)
  = if q =? p then v else previous_free (m q).
Proof. unfold upd; destruct (q =? p); reflexivity. Qed.
Lemma prev_upd_next :
  previous_free (upd m p (fun h => with_next h v) q) = previous_free (m q).
Proof. unfold upd; destruct (Z.eqb_spec q p); subst; reflexivity. Qed.
Lemma prev_upd_size :
  previous_free (upd m p (fun h => with_size h v) q) = previous_free (m q).
Proof. unfold upd; destruct (Z.eqb_spec q p); subst; reflexivity. Qed.
Lemma prev_upd_alloc :
  previous_free (upd m p (fun h => with_alloc h a) q) = previous_free (m q).
Proof. unfold upd; destruct (Z.eqb_spec q p); subst; reflexivity. Qed.
End FieldFacts.

Create Rewrite HintDb fields.
#[local] Hint Rewrite size_upd_size size_upd_alloc size_upd_next size_upd_prev
  alloc_upd_alloc alloc_upd_size alloc_upd_next alloc_upd_prev
  next_upd_next next_upd_prev next_upd_size next_upd_alloc
  prev_upd_prev prev_upd_next prev_upd_size prev_upd_alloc : fields.

(** Settle the address comparisons left by [fields] with linear arithmetic. *)
Ltac addr_eqs :=
  repeat match goal with
         | |- context [?x =? ?y] =>
             first [ rewrite (proj2 (Z.eqb_eq x y)) by lia
                   | rewrite (proj2 (Z.eqb_neq x y)) by lia ]
         end.

Lemma takefromlist_ok s head :
  valid s head = true ->
  valid s (previous_free (cells s head)) = true ->
  valid s (next_free (cells s head)) = true ->
  exists m,
    takefromlist head s = Done tt (set_cells s m) /\
    forall q, size_of_blk (m q) = size_of_blk (cells s q) /\
              alloc_or_not (m q) = alloc_or_not (cells s q).
Proof.
  intros Hh Hp Hn. unfold takefromlist, bind, set_next, set_prev.
  run_load. run_store. stateful. run_store. stateful.
  eexists. split; [reflexivity |].
  intros q. autorewrite with fields. split; reflexivity.
Qed.

Ltac valid_mid Hb Hf :=
  apply valid_padd; [exact Hb | |];
  apply valid_iff in Hb; apply valid_iff in Hf;
  unfold padd, sizeof_HeadFoot in *; lia.

(** The split branch of [place]. *)
Lemma place_split s r b :
  let sz := size_of_blk (cells s b) in
  valid s b = true ->
  valid s (padd b (sz - 1)) = true ->
  1 <= r -> r + 4 <= sz -> sz < 2 ^ 31 ->
  exists m,
    place r b s = Done (padd b (sz - r)) (set_cells s m)
    /\ size_of_blk (m b) = sz - r
    /\ alloc_or_not (m b) = alloc_or_not (cells s b)
    /\ size_of_blk (m (padd b (sz - r - 1))) = sz - r
    /\ size_of_blk (m (padd b (sz - r))) = r
    /\ alloc_or_not (m (padd b (sz - r))) = true
    /\ size_of_blk (m (padd b (sz - 1))) = r
    /\ alloc_or_not (m (padd b (sz - 1))) = true
    /\ (forall q, next_free (m q) = next_free (cells s q)
                  /\ previous_free (m q) = previous_free (cells s q))
    /\ (forall q, q < b \/ b + 24 * sz <= q -> m q = cells s q).
Proof.
  intros sz Hb Hf Hr Hs H31.
  assert (Hw : wrap (r + blocks) = r + 4)
    by (unfold blocks; apply wrap_small; lia).
  assert (Ha : wrap (sz - r) = sz - r) by (apply wrap_small; lia).
  assert (Ht : trunc31 (sz - r) = sz - r) by (apply trunc31_small; lia).
  assert (Hr31 : trunc31 r = r) by (apply trunc31_small; lia).
  assert (Ha1 : wrap (sz - r - 1) = sz - r - 1) by (apply wrap_small; lia).
  assert (Ha2 : wrap (sz - r + r - 1) = sz - 1)
    by (replace (sz - r + r - 1) with (sz - 1) by lia; apply wrap_small; lia).
  assert (V1 : valid s (padd b (sz - r - 1)) = true) by valid_mid Hb Hf.
  assert (V2 : valid s (padd b (sz - r)) = true) by valid_mid Hb Hf.
  unfold place, bind, set_size, set_alloc.
  run_load. fold sz. rewrite Hw.
  destruct (Z.gtb_spec (r + 4) sz) as [Hgt | _]; [lia |].
  rewrite Ha.
  run_store. stateful. run_load. stateful.
  rewrite upd_same. stateful. rewrite Ht, Ha1, Ha2.
  do 5 (run_store; stateful).
  unfold ret. eexists. split; [reflexivity |].
  unfold padd, sizeof_HeadFoot in *.
  repeat split; autorewrite with fields; addr_eqs; try rewrite ?Ht, ?Hr31; auto.
  - match goal with |- (if ?c then _ else _) = _ => destruct c; reflexivity end.
  - match goal with |- (if ?c then _ else _) = _ => destruct c; reflexivity end.
  - intros q Hq. unfold upd. addr_eqs. reflexivity.
Qed.

(** The branch of [place] that hands out the whole block. *)
Lemma place_whole s r b :
  let sz := size_of_blk (cells s b) in
  valid s b = true ->
  valid s (padd b (sz - 1)) = true ->
  valid s (previous_free (cells s b)) = true ->
  valid s (next_free (cells s b)) = true ->
  0 <= r -> 1 <= sz -> sz < r + 4 -> sz < 2 ^ 31 -> r < 2 ^ 63 ->
  exists m,
    place r b s
    = Done b (set_cells
                (set_anchor s (if b =? freelist s
                               then previous_free (cells s b) else freelist s))
                m)
    /\ alloc_or_not (m b) = true
    /\ alloc_or_not (m (padd b (sz - 1))) = true
    /\ (forall q, size_of_blk (m q) = size_of_blk (cells s q))
    /\ (forall q, q <> b -> q <> padd b (sz - 1) ->
                  alloc_or_not (m q) = alloc_or_not (cells s q)).
Proof.
  intros sz Hb Hf Hp Hn Hr Hs Hlt H31 H63.
  assert (Hw : wrap (r + blocks) = r + 4)
    by (unfold blocks; apply wrap_small; lia).
  assert (Ha : wrap (sz - 1) = sz - 1) by (apply wrap_small; lia).
  unfold place, bind, get_freelist.
  run_load. fold sz. rewrite Hw.
  destruct (Z.gtb_spec (r + 4) sz) as [_ | Hle]; [| lia].
  set (f := if b =? freelist s then previous_free (cells s b) else freelist s).
  assert (Hfl : (if b =? freelist s
                 then set_freelist (previous_free (cells s b)) else ret tt) s
                = Done tt (set_anchor s f)).
  { unfold f, set_freelist, ret, set_anchor.
    destruct (b =? freelist s); [reflexivity |]. destruct s; reflexivity. }
  rewrite Hfl.
  destruct (takefromlist_ok (set_anchor s f) b) as (m1 & Ht & Htags);
    try assumption.
  rewrite Ht. unfold set_alloc.
  run_load. stateful.
  destruct (Htags b) as [Hsz _]. cbn [cells set_cells set_anchor] in Hsz. rewrite Hsz. fold sz. rewrite Ha.
  do 2 (run_store; stateful).
  unfold ret. eexists. split; [reflexivity |].
  repeat split; intros; autorewrite with fields; addr_eqs;
    try apply Htags; try reflexivity.
  match goal with |- (if ?c then _ else _) = _ => destruct c; reflexivity end.
Qed.

(** ** Walking the free list *)

Lemma chain_next_in s f l x :
  chain s f l -> In x l ->
  In (next_free (cells s x)) l \/ next_free (cells s x) = f.
Proof.
  induction l as [| a t IH]; [intros [] |].
  destruct t as [| y t'].
  - intros [Hn _] [-> | []]. right. assumption.
  - intros (Hn & _ & Hc) [-> | Hin].
    + left. right. left. symmetry. assumption.
    + destruct (IH Hc Hin) as [H | H];
        [left; right; assumption | right; assumption].
Qed.

Lemma chain_prev_inner s f l x :
  chain s f l -> In x l ->
  hd_error l = Some x \/ In (previous_free (cells s x)) l.
Proof.
  induction l as [| a t IH]; [intros [] |].
  destruct t as [| y t'].
  - intros _ [-> | []]. left. reflexivity.
  - intros (_ & Hp & Hc) [-> | Hin]; [left; reflexivity |].
    right. destruct (IH Hc Hin) as [H | H].
    + injection H as <-. rewrite Hp. left. reflexivity.
    + right. assumption.
Qed.

Lemma chain_prev_first s f l : chain s f l -> In (previous_free (cells s f)) l.
Proof.
  induction l as [| a t IH]; [intros [] |].
  destruct t as [| y t'].
  - intros [_ Hp]. left. symmetry. assumption.
  - intros (_ & _ & Hc). right. apply IH. assumption.
Qed.

Lemma chain_prev_in s l x :
  chain s (freelist s) l -> hd_error l = Some (freelist s) -> In x l ->
  In (previous_free (cells s x)) l.
Proof.
  intros Hc Hh Hin.
  destruct (chain_prev_inner _ _ _ _ Hc Hin) as [H | H]; [| assumption].
  rewrite Hh in H. injection H as <-. apply chain_prev_first. assumption.
Qed.

(** First fit: the loop hands the first member of the list that passes the
    fit test to [place]; when none passes, it grows the arena. *)
Lemma fit_loop_walk s r k :
  forall t x,
    chain s (freelist s) (x :: t) ->
    ~ In (freelist s) t ->
    Forall (fun y => valid s y = true) (x :: t) ->
    fit_loop (length (x :: t) + k) r x s
    = match find (fits s r) (x :: t) with
      | Some y => place r y s
      | None => grow_and_retry k r s
      end.
Proof.
  induction t as [| y t IH]; intros x Hc Hnf Hv.
  - destruct Hc as [Hn _]. pose proof (Forall_inv Hv) as Hx.
    cbn [length Nat.add fit_loop find]. unfold bind at 1.
    rewrite (load_ok _ _ Hx). fold (fits s r x).
    destruct (fits s r x); [reflexivity |].
    unfold bind at 1, get_freelist. rewrite Hn, Z.eqb_refl. reflexivity.
  - destruct Hc as (Hn & _ & Hc).
    pose proof (Forall_inv Hv) as Hx. pose proof (Forall_inv_tail Hv) as Hv'.
    change (length (x :: y :: t) + k)%nat with (S (length (y :: t) + k)).
    cbn [fit_loop find]. unfold bind at 1.
    rewrite (load_ok _ _ Hx). fold (fits s r x).
    destruct (fits s r x); [reflexivity |].
    unfold bind at 1, get_freelist. rewrite Hn.
    destruct (Z.eqb_spec y (freelist s)) as [-> | _];
      [exfalso; apply Hnf; left; reflexivity |].
    apply IH; [assumption | | assumption].
    intros H. apply Hnf. right. assumption.
Qed.

(** ** Growing the arena *)

Lemma allocations_eq : headchunksize (wrap PAGESIZE) = 171.
Proof. reflexivity. Qed.

Lemma grow_units_cases r :
  (r < 171 /\ grow_units r = 171) \/ (171 <= r /\ grow_units r = r).
Proof.
  unfold grow_units. rewrite allocations_eq.
  destruct (Z.ltb_spec r 171); [left | right]; split; auto.
Qed.

Lemma increaseheapsize_eq heads :
  increaseheapsize heads
  = (let heads := grow_units heads in
     incr <- mem_sbrk (conv_bytes heads) ;;
     if incr =? SBRK_FAILED then ret NULL else
     let blck := padd incr (-1) in
     set_size (padd blck (wrap (heads - 1))) heads ;;;
     set_size blck heads ;;;
     set_alloc (padd blck (wrap (heads - 1))) false ;;;
     set_alloc blck false ;;;
     set_alloc (padd blck heads) true ;;;
     set_size (padd blck heads) 1 ;;;
     returnfreeblocktolist blck ;;;
     get_freelist).
Proof. reflexivity. Qed.

Lemma grow_refused s r :
  refused s r = true -> increaseheapsize r s = Done NULL s.
Proof.
  unfold refused. intros H. apply negb_true_iff in H.
  rewrite increaseheapsize_eq. cbv zeta. unfold bind at 1, mem_sbrk.
  rewrite H. reflexivity.
Qed.

(** ** Returning a block to the free list *)

(** No free neighbour on either side: the block is linked in behind the
    anchor and becomes the anchor. *)
Lemma returnfreeblocktolist_insert s b :
  let h := size_of_blk (cells s b) in
  let f := freelist s in
  valid s b = true -> 1 <= h < 2 ^ 31 ->
  valid s (padd b (h - 1)) = true ->
  valid s (padd b (-1)) = true ->
  alloc_or_not (cells s (padd b (-1))) = true ->
  valid s f = true ->
  valid s (next_free (cells s f)) = true ->
  valid s (padd b h) = true ->
  alloc_or_not (cells s (padd b h)) = true ->
  exists m,
    returnfreeblocktolist b s = Done tt (set_cells (set_anchor s b) m)
    /\ (forall q, size_of_blk (m q) = size_of_blk (cells s q))
    /\ alloc_or_not (m b) = false
    /\ valid s (previous_free (m b)) = true
    /\ valid s (next_free (m b)) = true.
Proof.
  intros h f Vb Hh Vf Vp Ap Vfl Vnx Vn An.
  assert (Hw : wrap (h - 1) = h - 1) by (apply wrap_small; lia).
  unfold returnfreeblocktolist, set_alloc, set_prev, set_next.
  unfold bind at 1. run_load. fold h. rewrite Hw.
  unfold bind at 1. run_store. stateful.
  unfold bind at 1. run_store. stateful.
  unfold bind at 1. run_load. stateful.
  autorewrite with fields.
  replace (padd b (-1) =? b) with false
    by (symmetry; apply Z.eqb_neq; unfold padd, sizeof_HeadFoot; lia).
  replace (padd b (-1) =? padd b (h - 1)) with false
    by (symmetry; apply Z.eqb_neq; unfold padd, sizeof_HeadFoot; lia).
  rewrite Ap. cbn [negb].
  unfold bind at 1. unfold bind at 1. unfold get_freelist at 1. stateful. fold f.
  unfold bind at 1. run_load. stateful. autorewrite with fields.
  do 4 (unfold bind at 1; run_store; stateful).
  unfold ret at 1. stateful.
  unfold bind at 1. unfold set_freelist at 1. stateful.
  unfold bind at 1. run_load. stateful. autorewrite with fields.
  replace (padd b h =? b) with false
    by (symmetry; apply Z.eqb_neq; unfold padd, sizeof_HeadFoot; lia).
  replace (padd b h =? padd b (h - 1)) with false
    by (symmetry; apply Z.eqb_neq; unfold padd, sizeof_HeadFoot; lia).
  rewrite An. cbn [negb]. unfold ret.
  eexists. split; [reflexivity |].
  split; [| split; [| split]]; intros; autorewrite with fields.
  - reflexivity.
  - rewrite Z.eqb_refl. reflexivity.
  - rewrite Z.eqb_refl.
    destruct (b =? next_free (cells s f)); assumption.
  - rewrite Z.eqb_refl. destruct (b =? f); assumption.
Qed.

(** The block below is free (its footer and header agree on the size): the
    released block is added to it, and the merged block becomes the
    anchor.  The free list itself is not rewritten. *)
Lemma returnfreeblocktolist_merge_low s b :
  let h := size_of_blk (cells s b) in
  let sp := size_of_blk (cells s (padd b (-1))) in
  let low := padd b (- sp) in
  valid s b = true -> 1 <= h ->
  valid s (padd b (h - 1)) = true ->
  valid s (padd b (-1)) = true ->
  alloc_or_not (cells s (padd b (-1))) = false ->
  1 <= sp -> valid s low = true ->
  size_of_blk (cells s low) = sp ->
  h + sp < 2 ^ 31 ->
  valid s (padd b h) = true ->
  alloc_or_not (cells s (padd b h)) = true ->
  exists m,
    returnfreeblocktolist b s = Done tt (set_cells (set_anchor s low) m)
    /\ size_of_blk (m low) = h + sp
    /\ alloc_or_not (m low) = alloc_or_not (cells s low)
    /\ (forall q, next_free (m q) = next_free (cells s q)
                  /\ previous_free (m q) = previous_free (cells s q)).
Proof.
  intros h sp low Vb Hh Vf Vp Ap Hsp Vl Hsl H31 Vn An.
  assert (Hw : wrap (h - 1) = h - 1) by (apply wrap_small; lia).
  assert (Hw2 : wrap (h + sp) = h + sp) by (apply wrap_small; lia).
  assert (Hw3 : wrap (h + sp - 1) = h + sp - 1) by (apply wrap_small; lia).
  assert (Ht : trunc31 (h + sp) = h + sp) by (apply trunc31_small; lia).
  assert (E1 : padd low (h + sp - 1) = padd b (h - 1))
    by (unfold low, padd, sizeof_HeadFoot; lia).
  assert (E2 : padd low (h + sp) = padd b h)
    by (unfold low, padd, sizeof_HeadFoot; lia).
  assert (N1 : (padd b (-1) =? b) = false)
    by (apply Z.eqb_neq; unfold padd, sizeof_HeadFoot; lia).
  assert (N2 : (padd b (-1) =? padd b (h - 1)) = false)
    by (apply Z.eqb_neq; unfold padd, sizeof_HeadFoot; lia).
  assert (N3 : (low =? b) = false)
    by (apply Z.eqb_neq; unfold low, padd, sizeof_HeadFoot; lia).
  assert (N4 : (low =? padd b (h - 1)) = false)
    by (apply Z.eqb_neq; unfold low, padd, sizeof_HeadFoot; lia).
  assert (N5 : (padd b h =? b) = false)
    by (apply Z.eqb_neq; unfold padd, sizeof_HeadFoot; lia).
  assert (N6 : (padd b h =? padd b (h - 1)) = false)
    by (apply Z.eqb_neq; unfold padd, sizeof_HeadFoot; lia).
  unfold returnfreeblocktolist, set_alloc, set_size.
  unfold bind at 1. run_load. fold h. rewrite Hw.
  unfold bind at 1. run_store. stateful.
  unfold bind at 1. run_store. stateful.
  unfold bind at 1. run_load. stateful.
  autorewrite with fields. rewrite N1, N2, Ap. cbn [negb]. fold sp. fold low.
  unfold bind at 1. unfold bind at 1. run_load. stateful.
  autorewrite with fields. rewrite Hsl, Hw2, Hw3, E1.
  do 2 (unfold bind at 1; run_store; stateful).
  unfold ret at 1. stateful.
  unfold bind at 1. unfold set_freelist at 1. stateful.
  rewrite E2.
  unfold bind at 1. run_load. stateful. autorewrite with fields.
  rewrite N5, N6, An. cbn [negb]. unfold ret.
  eexists. split; [reflexivity |].
  split; [| split]; intros; autorewrite with fields.
  - rewrite Z.eqb_refl. assumption.
  - rewrite N3, N4. reflexivity.
  - split; reflexivity.
Qed.

Lemma valid_set_brk s b p :
  valid s p = true -> mem_brk s <= b -> valid (set_brk s b) p = true.
Proof.
  rewrite !valid_iff. cbn [mem_brk mem_start_brk set_brk]. intros (? & ? & ?) ?.
  repeat split; try assumption. lia.
Qed.

Lemma heap_ok_member_valid s l x : heap_ok s l -> In x l -> valid s x = true.
Proof.
  intros Hok Hin. pose proof (ok_nodes _ _ Hok) as Hn.
  rewrite Forall_forall in Hn. apply (Hn x Hin).
Qed.

Lemma heap_ok_anchor_in s l : heap_ok s l -> In (freelist s) l.
Proof.
  intros Hok. pose proof (ok_anchor _ _ Hok) as Ha.
  destruct l as [| a t]; [discriminate |]. injection Ha as ->. left. reflexivity.
Qed.

Lemma heap_ok_next_valid s l x :
  heap_ok s l -> In x l -> valid s (next_free (cells s x)) = true.
Proof.
  intros Hok Hin.
  destruct (chain_next_in _ _ _ _ (ok_chain _ _ Hok) Hin) as [H | H].
  - eapply heap_ok_member_valid; eassumption.
  - rewrite H. eapply heap_ok_member_valid; [eassumption |].
    apply heap_ok_anchor_in. assumption.
Qed.

Lemma heap_ok_prev_valid s l x :
  heap_ok s l -> In x l -> valid s (previous_free (cells s x)) = true.
Proof.
  intros Hok Hin. eapply heap_ok_member_valid; [eassumption |].
  apply chain_prev_in; [apply (ok_chain _ _ Hok) | apply (ok_anchor _ _ Hok) | assumption].
Qed.

(** The provider grants the growth: the new units become a free block, merged
    with the last block of the old arena when that one is free, and the
    anchor ends on a block that placement can use. *)
Lemma grow_granted s l r :
  heap_ok s l -> 1 <= r -> grow_units r * 24 < 2 ^ 64 -> refused s r = false ->
  exists s',
    increaseheapsize r s = Done (freelist s') s'
    /\ mem_start_brk s' = mem_start_brk s
    /\ valid s' (freelist s') = true
    /\ alloc_or_not (cells s' (freelist s')) = false
    /\ grow_units r <= size_of_blk (cells s' (freelist s')) < 2 ^ 31
    /\ valid s' (padd (freelist s') (size_of_blk (cells s' (freelist s')) - 1)) = true
    /\ valid s' (previous_free (cells s' (freelist s'))) = true
    /\ valid s' (next_free (cells s' (freelist s'))) = true.
Proof.
  intros Hok Hr Hnw Hg.
  pose proof (heap_ok_anchor_in _ _ Hok) as Hfin.
  pose proof (heap_ok_member_valid _ _ _ Hok Hfin) as Vfl.
  pose proof (heap_ok_next_valid _ _ _ Hok Hfin) as Vfn.
  pose proof (fun x H => heap_ok_member_valid s l x Hok H) as Vmem.
  pose proof (fun x H => heap_ok_next_valid s l x Hok H) as Vnext.
  pose proof (fun x H => heap_ok_prev_valid s l x Hok H) as Vprev.
  destruct Hok as [Hbase Hmax Hcap Hbrk Hgrid Hboot Hanchor Hnodup Hchain Hnodes Hlast].
  set (h := grow_units r) in *.
  assert (Hh : 171 <= h /\ r <= h) by (subst h; destruct (grow_units_cases r); lia).
  assert (Hcb : conv_bytes h = 24 * h).
  { unfold conv_bytes, sizeof_HeadFoot. rewrite wrap_small by lia. lia. }
  unfold refused in Hg. apply negb_false_iff in Hg. fold h in Hg. rewrite Hcb in Hg.
  apply Z.leb_le in Hg.
  set (lo := mem_start_brk s) in *. set (B := mem_brk s) in *.
  assert (H31 : h < 2 ^ 31) by lia.
  assert (Hw1 : wrap (h - 1) = h - 1) by (apply wrap_small; lia).
  assert (Ht1 : trunc31 h = h) by (apply trunc31_small; lia).
  rewrite increaseheapsize_eq. cbv zeta. fold h. rewrite Hcb.
  unfold bind at 1, mem_sbrk. fold B.
  destruct (Z.leb_spec (B + 24 * h) (mem_max_addr s)) as [_ | ?]; [| lia].
  destruct (Z.eqb_spec B SBRK_FAILED) as [E | _];
    [unfold SBRK_FAILED in E; lia |].
  set (s0 := set_brk s (B + 24 * h)).
  assert (Vmono : forall p, valid s p = true -> valid s0 p = true)
    by (intros p Hp; apply valid_set_brk; [assumption | fold B; lia]).
  set (t := padd B (-1)).
  rewrite Hw1.
  assert (Vt : valid s0 t = true).
  { apply valid_iff. subst s0 t. stateful. unfold padd, sizeof_HeadFoot. fold lo B.
    Z.div_mod_to_equations. lia. }
  assert (Vf : valid s0 (padd t (h - 1)) = true).
  { apply valid_iff. subst s0 t. stateful. unfold padd, sizeof_HeadFoot. fold lo B.
    Z.div_mod_to_equations. lia. }
  assert (Vn : valid s0 (padd t h) = true).
  { apply valid_iff. subst s0 t. stateful. unfold padd, sizeof_HeadFoot. fold lo B.
    Z.div_mod_to_equations. lia. }
  assert (Vp : valid s0 (padd t (-1)) = true).
  { apply valid_iff. subst s0 t. stateful. unfold padd, sizeof_HeadFoot. fold lo B.
    Z.div_mod_to_equations. lia. }
  unfold set_size, set_alloc.
  do 6 (unfold bind at 1; run_store; stateful).
  match goal with |- context [set_cells s0 ?m] => set (m1 := m) end.
  set (s1 := set_cells s0 m1).
  assert (Tsz : forall q, q < t -> size_of_blk (m1 q) = size_of_blk (cells s q)).
  { intros q Hq. subst m1. autorewrite with fields.
    unfold padd, sizeof_HeadFoot in *. addr_eqs. reflexivity. }
  assert (Tal : forall q, q < t -> alloc_or_not (m1 q) = alloc_or_not (cells s q)).
  { intros q Hq. subst m1. autorewrite with fields.
    unfold padd, sizeof_HeadFoot in *. addr_eqs. reflexivity. }
  assert (Tnx : forall q, next_free (m1 q) = next_free (cells s q)).
  { intros q. subst m1. autorewrite with fields. reflexivity. }
  assert (Tpv : forall q, previous_free (m1 q) = previous_free (cells s q)).
  { intros q. subst m1. autorewrite with fields. reflexivity. }
  assert (Hst : size_of_blk (m1 t) = h).
  { subst m1. autorewrite with fields.
    unfold padd, sizeof_HeadFoot in *. addr_eqs. assumption. }
  assert (Hat : alloc_or_not (m1 (padd t h)) = true).
  { subst m1. autorewrite with fields.
    unfold padd, sizeof_HeadFoot in *. addr_eqs. reflexivity. }
  clearbody m1.
  assert (Hpt : padd t (-1) < t) by (unfold padd, sizeof_HeadFoot; lia).
  destruct (alloc_or_not (cells s (padd t (-1)))) eqn:Ae.
  - (* the last block of the old arena is allocated *)
    assert (F0 : freelist s1 = freelist s) by reflexivity.
    assert (C1 : cells s1 = m1) by reflexivity.
    assert (V1 : forall p, valid s1 p = valid s0 p) by reflexivity.
    destruct (returnfreeblocktolist_insert s1 t) as (m & Hrun & Hsz & Hal & Hpv & Hnx);
      rewrite ?F0, ?C1, ?V1, ?Hst, ?Tnx; try assumption; try lia; auto.
    { rewrite Tal by assumption. assumption. }
    revert Hrun Hsz Hal Hpv Hnx. rewrite ?F0, ?C1, ?V1, ?Hst, ?Tnx.
    intros Hrun Hsz Hal Hpv Hnx.
    unfold bind at 1. rewrite Hrun. unfold get_freelist. stateful.
    exists (set_cells (set_anchor s1 t) m). split; [reflexivity |]. stateful.
    rewrite Hsz, Hst. change (valid (set_cells (set_anchor s1 t) m)) with (valid s0).
    repeat split; try assumption; lia.
  - (* the last block of the old arena is free *)
    unfold last_ok in Hlast. cbv zeta in Hlast. fold B in Hlast.
    replace (B - 48) with (padd t (-1)) in Hlast
      by (unfold t, padd, sizeof_HeadFoot; lia).
    specialize (Hlast Ae). destruct Hlast as (Hsp & Hin & Hsl & Hfl).
    set (sp := size_of_blk (cells s (padd t (-1)))) in *.
    replace (B - 24 - 24 * sp) with (padd t (- sp)) in *
      by (unfold t, padd, sizeof_HeadFoot; lia).
    set (low := padd t (- sp)) in *.
    pose proof (Vmem _ Hin) as Vlow.
    assert (Hlt : low < t) by (unfold low, padd, sizeof_HeadFoot; lia).
    assert (Hsum : h + sp < 2 ^ 31).
    { apply valid_iff in Vlow. fold lo in Vlow.
      unfold low, t, padd, sizeof_HeadFoot in Vlow. lia. }
    assert (C1 : cells s1 = m1) by reflexivity.
    assert (V1 : forall p, valid s1 p = valid s0 p) by reflexivity.
    destruct (returnfreeblocktolist_merge_low s1 t) as (m & Hrun & Hsz & Hal & Hlk);
      rewrite ?C1, ?V1, ?Hst, ?(Tsz _ Hpt), ?(Tal _ Hpt); fold sp; fold low;
      rewrite ?(Tsz _ Hlt); try assumption; try lia; auto.
    revert Hrun Hsz Hal Hlk.
    rewrite ?C1, ?V1, ?Hst, ?(Tsz _ Hpt), ?(Tal _ Hpt). fold sp. fold low.
    rewrite ?(Tal _ Hlt). intros Hrun Hsz Hal Hlk.
    unfold bind at 1. rewrite Hrun. unfold get_freelist. stateful.
    exists (set_cells (set_anchor s1 low) m). split; [reflexivity |]. stateful.
    rewrite Hsz. destruct (Hlk low) as [Hn Hp]. rewrite Hn, Hp, Tnx, Tpv, Hal.
    change (valid (set_cells (set_anchor s1 low) m)) with (valid s0).
    replace (padd low (h + sp - 1)) with (padd t (h - 1))
      by (unfold low, padd, sizeof_HeadFoot; lia).
    repeat split; auto; lia.
Qed.

(** ** Placement *)

(** [place] on a free block that fits: it returns the header of an allocated
    block carved from it, of the requested size when the block is split and
    of the block's size when it is taken whole. *)
Lemma place_ok s r b :
  let sz := size_of_blk (cells s b) in
  0 < mem_start_brk s ->
  valid s b = true ->
  1 <= r <= sz -> sz < 2 ^ 31 ->
  valid s (padd b (sz - 1)) = true ->
  valid s (previous_free (cells s b)) = true ->
  valid s (next_free (cells s b)) = true ->
  exists p s',
    place r b s = Done p s'
    /\ 0 < p
    /\ alloc_or_not (cells s' p) = true
    /\ size_of_blk (cells s' p) = (if r + 4 <=? sz then r else sz).
Proof.
  intros sz Hlo Vb Hr H31 Vf Vp Vn.
  assert (Hb : 0 < b) by (apply valid_iff in Vb; lia).
  destruct (Z.leb_spec (r + 4) sz) as [Hs | Hs].
  - destruct (place_split s r b) as (m & Hrun & _ & _ & _ & Hsz & Hal & _);
      try assumption; try lia.
    fold sz in Hrun, Hsz, Hal.
    exists (padd b (sz - r)), (set_cells s m). split; [exact Hrun |].
    split; [unfold padd, sizeof_HeadFoot; lia |]. split; assumption.
  - destruct (place_whole s r b) as (m & Hrun & Hal & _ & Hsz & _);
      try assumption; try lia.
    fold sz in Hrun.
    eexists b, _. split; [exact Hrun |].
    split; [assumption |]. split; [exact Hal | apply Hsz].
Qed.

Lemma find_fits_some s r l y :
  find (fits s r) l = Some y ->
  In y l /\ r <= size_of_blk (cells s y) /\ alloc_or_not (cells s y) = false.
Proof.
  intros H. apply find_some in H. destruct H as [Hin Hf].
  unfold fits in Hf. apply andb_true_iff in Hf. destruct Hf as [H1 H2].
  apply Z.leb_le in H1. apply negb_true_iff in H2. auto.
Qed.

(** A member of the free list that passes the fit test can be placed. *)
Lemma member_place_ok s l r y :
  heap_ok s l -> 1 <= r -> In y l ->
  r <= size_of_blk (cells s y) -> alloc_or_not (cells s y) = false ->
  exists p s',
    place r y s = Done p s'
    /\ 0 < p
    /\ alloc_or_not (cells s' p) = true
    /\ size_of_blk (cells s' p)
       = (if r + 4 <=? size_of_blk (cells s y) then r else size_of_blk (cells s y)).
Proof.
  intros Hok Hr Hin Hfit Hfree.
  pose proof (heap_ok_member_valid _ _ _ Hok Hin) as Vy.
  pose proof (heap_ok_next_valid _ _ _ Hok Hin) as Vn.
  pose proof (heap_ok_prev_valid _ _ _ Hok Hin) as Vp.
  pose proof (ok_nodes _ _ Hok) as Hn. rewrite Forall_forall in Hn.
  destruct (Hn y Hin) as (_ & _ & Hblk). destruct (Hblk Hfree) as [H1 Hend].
  pose proof (ok_cap _ _ Hok). pose proof (ok_brk _ _ Hok).
  pose proof (ok_base _ _ Hok).
  assert (Vy' := Vy). apply valid_iff in Vy'.
  apply place_ok; try assumption; try lia.
  apply valid_padd; [assumption | lia | lia].
Qed.

Lemma first_fit_found s l r fuel y :
  heap_ok s l -> (length l <= fuel)%nat ->
  find (fits s r) l = Some y ->
  pick_free_block_from_list_first_fit fuel r s = place r y s.
Proof.
  intros Hok Hfuel Hfind.
  pose proof (ok_anchor _ _ Hok) as Ha. pose proof (ok_nodup _ _ Hok) as Hnd.
  pose proof (ok_chain _ _ Hok) as Hc.
  assert (Hv : Forall (fun y => valid s y = true) l).
  { apply Forall_forall. intros x Hx. eapply heap_ok_member_valid; eassumption. }
  destruct l as [| f t]; [discriminate |]. injection Ha as ->.
  unfold pick_free_block_from_list_first_fit, bind, get_freelist.
  replace fuel with (length (freelist s :: t) + (fuel - length (freelist s :: t)))%nat
    by lia.
  rewrite fit_loop_walk; try assumption.
  - rewrite Hfind. reflexivity.
  - inversion Hnd; assumption.
Qed.

Lemma first_fit_none s l r fuel :
  heap_ok s l -> (length l <= fuel)%nat ->
  find (fits s r) l = None ->
  pick_free_block_from_list_first_fit fuel r s
  = grow_and_retry (fuel - length l) r s.
Proof.
  intros Hok Hfuel Hfind.
  pose proof (ok_anchor _ _ Hok) as Ha. pose proof (ok_nodup _ _ Hok) as Hnd.
  pose proof (ok_chain _ _ Hok) as Hc.
  assert (Hv : Forall (fun y => valid s y = true) l).
  { apply Forall_forall. intros x Hx. eapply heap_ok_member_valid; eassumption. }
  destruct l as [| f t]; [discriminate |]. injection Ha as ->.
  unfold pick_free_block_from_list_first_fit, bind, get_freelist.
  replace fuel with (length (freelist s :: t) + (fuel - length (freelist s :: t)))%nat
    at 1 by lia.
  rewrite fit_loop_walk; try assumption.
  - rewrite Hfind. reflexivity.
  - inversion Hnd; assumption.
Qed.

(** After a growth that the provider grants, the retry places the request
    in the block the anchor ends on. *)
Lemma grow_and_retry_ok s l r k :
  heap_ok s l -> 1 <= r -> grow_units r * 24 < 2 ^ 64 -> refused s r = false ->
  exists p s',
    grow_and_retry (S k) r s = Done p s'
    /\ served r p s'
    /\ (r + 4 <= grow_units r -> size_of_blk (cells s' p) = r).
Proof.
  intros Hok Hr Hnw Hg.
  destruct (grow_granted s l r Hok Hr Hnw Hg)
    as (s1 & Hrun & Hlo & Vb & Hfree & Hsz & Vf & Vp & Vn).
  pose proof (ok_base _ _ Hok) as Hbase.
  assert (Hr' : r <= grow_units r) by (destruct (grow_units_cases r); lia).
  destruct (place_ok s1 r (freelist s1)) as (p & s' & Hpl & Hp & Hal & Hps);
    try assumption; try lia.
  exists p, s'. unfold grow_and_retry, bind. rewrite Hrun.
  assert (Hnz : (freelist s1 =? NULL) = false).
  { apply Z.eqb_neq. apply valid_iff in Vb. unfold NULL. lia. }
  rewrite Hnz. cbn [fit_loop]. unfold bind at 1. rewrite (load_ok _ _ Vb).
  rewrite Hfree. cbn [negb]. rewrite andb_true_r.
  destruct (Z.leb_spec r (size_of_blk (cells s1 (freelist s1)))) as [_ | ?]; [| lia].
  split; [exact Hpl |]. unfold served. rewrite Hps.
  destruct (Z.leb_spec (r + 4) (size_of_blk (cells s1 (freelist s1))));
    repeat split; try assumption; try lia.
Qed.

Lemma request_units_min n : 4 <= request_units n < 2 ^ 64.
Proof.
  unfold request_units, blocks.
  pose proof (Z.mod_pos_bound (headchunksize n + 2) (2 ^ 64) ltac:(lia)) as Hb.
  fold (wrap (headchunksize n + 2)) in Hb.
  destruct (Z.gtb_spec 4 (wrap (headchunksize n + 2))); lia.
Qed.

Lemma mm_malloc_eq s l fuel n :
  heap_ok s l ->
  mm_malloc fuel n s
  = (headptr <- pick_free_block_from_list_first_fit fuel (request_units n) ;;
     if headptr =? NULL then set_errno ENOMEM ;;; ret NULL
     else ret (padd headptr 1)) s.
Proof.
  intros Hok.
  pose proof (heap_ok_member_valid _ _ _ Hok (heap_ok_anchor_in _ _ Hok)) as V.
  pose proof (ok_base _ _ Hok).
  unfold mm_malloc. unfold bind at 1, get_freelist.
  assert (Hnz : (freelist s =? NULL) = false).
  { apply Z.eqb_neq. apply valid_iff in V. unfold NULL. lia. }
  rewrite Hnz. unfold bind at 1, ret at 1. reflexivity.
Qed.

(** What [mm_malloc] does on a heap that satisfies the invariants. *)
Lemma mm_malloc_outcome s l fuel n :
  let r := request_units n in
  heap_ok s l -> (length l + 1 <= fuel)%nat ->
  match find (fits s r) l with
  | Some y =>
      exists p s',
        mm_malloc fuel n s = Done (padd p 1) s' /\ served r p s'
        /\ size_of_blk (cells s' p)
           = (if r + 4 <=? size_of_blk (cells s y) then r
              else size_of_blk (cells s y))
  | None =>
      if refused s r
      then mm_malloc fuel n s = Done NULL (set_err s ENOMEM)
      else grow_units r * 24 < 2 ^ 64 ->
           exists p s',
             mm_malloc fuel n s = Done (padd p 1) s' /\ served r p s'
             /\ (r + 4 <= grow_units r -> size_of_blk (cells s' p) = r)
  end.
Proof.
  intros r Hok Hfuel. pose proof (request_units_min n) as Hr. fold r in Hr.
  rewrite (mm_malloc_eq s l) by assumption. fold r.
  destruct (find (fits s r) l) as [y |] eqn:Hfind.
  - destruct (find_fits_some _ _ _ _ Hfind) as (Hin & Hfit & Hfree).
    destruct (member_place_ok s l r y) as (p & s' & Hpl & Hp & Hal & Hsz);
      try assumption; try lia.
    exists p, s'. unfold bind.
    rewrite (first_fit_found s l r fuel y) by (try assumption; lia).
    rewrite Hpl.
    assert (Hnz : (p =? NULL) = false) by (apply Z.eqb_neq; unfold NULL; lia).
    rewrite Hnz. split; [reflexivity |]. split; [| assumption].
    unfold served. rewrite Hsz.
    destruct (Z.leb_spec (r + 4) (size_of_blk (cells s y)));
      repeat split; try assumption; lia.
  - destruct (refused s r) eqn:Hg.
    + unfold bind at 1.
      rewrite (first_fit_none s l r fuel) by (try assumption; lia).
      replace (fuel - length l)%nat with (S (fuel - length l - 1)) by lia.
      unfold grow_and_retry, bind at 1. rewrite (grow_refused _ _ Hg).
      reflexivity.
    + intros Hnw.
      destruct (grow_and_retry_ok s l r (fuel - length l - 1))
        as (p & s' & Hrun & Hsv & Hsz); try assumption; try lia.
      exists p, s'. unfold bind at 1.
      rewrite (first_fit_none s l r fuel) by (try assumption; lia).
      replace (fuel - length l)%nat with (S (fuel - length l - 1)) by lia.
      rewrite Hrun.
      assert (Hnz : (p =? NULL) = false).
      { apply Z.eqb_neq. destruct Hsv. unfold NULL. lia. }
      rewrite Hnz. repeat split; try apply Hsv. assumption.
Qed.


(** ** Identification *)

(** The guard of the fast path is constantly false: [allocatedblock] always
    takes the walk from the bottom of the arena. *)
Lemma fast_path_never allocated s : fast_path allocated s = Done None s.
Proof.
  unfold fast_path.
  change (Z.b2z (sizeof_max_align_t - 1 =? 0)) with 0.
  rewrite Z.land_0_r. reflexivity.
Qed.

Lemma block_walk_pure fuel allocated :
  forall blck_list proceed s b s',
    block_walk fuel allocated blck_list proceed s = Done b s' -> s' = s.
Proof.
  induction fuel as [| fuel IH]; intros bl pr s b s' H; [discriminate |].
  cbn [block_walk] in H. destruct (pr <=? allocated).
  - unfold bind, load in H. destruct (valid s pr); [| discriminate].
    eapply IH. eassumption.
  - injection H as _ <-. reflexivity.
Qed.

Lemma allocatedblock_pure fuel allocated s b s' :
  allocatedblock fuel allocated s = Done b s' ->
  s' = s /\ (b <> NULL -> valid s b = true /\ alloc_or_not (cells s b) = true).
Proof.
  unfold allocatedblock. unfold bind at 1, mem_heap_lo at 1.
  unfold bind at 1, mem_heap_hi.
  destruct ((allocated <=? mem_start_brk s) || (allocated >=? mem_brk s - 1)
            || (allocated =? NULL)).
  - intros H. injection H as <- <-. split; [reflexivity | intros C; contradiction].
  - unfold bind at 1. rewrite fast_path_never.
    unfold bind at 1, mem_heap_lo. unfold bind at 1, load at 1.
    destruct (valid s (mem_start_brk s)); [| discriminate].
    unfold bind at 1.
    destruct (block_walk fuel allocated (mem_start_brk s)
                (padd (mem_start_brk s) (size_of_blk (cells s (mem_start_brk s)))) s)
      as [bl s1 | s1 |] eqn:Hw; try discriminate.
    apply block_walk_pure in Hw. subst s1.
    unfold bind, load. destruct (valid s bl) eqn:V; [| discriminate].
    destruct (alloc_or_not (cells s bl)) eqn:A; intros H; injection H as <- <-.
    + split; [reflexivity | auto].
    + split; [reflexivity | intros C; contradiction].
Qed.

(** ** Links of the free list *)

(** A chain depends on the link fields of its members only. *)
Lemma chain_ext s s' first l :
  chain s first l ->
  (forall x, In x l -> next_free (cells s' x) = next_free (cells s x)) ->
  (forall x, In x (tl l) ->
             previous_free (cells s' x) = previous_free (cells s x)) ->
  previous_free (cells s' first) = previous_free (cells s first) ->
  chain s' first l.
Proof.
  induction l as [| x t IH]; [intros [] |].
  destruct t as [| y t'].
  - intros [Hn Hp] Hnx _ Hpf. split.
    + rewrite Hnx by (left; reflexivity). assumption.
    + rewrite Hpf. assumption.
  - intros (Hn & Hp & Hc) Hnx Hpv Hpf. split; [| split].
    + rewrite Hnx by (left; reflexivity). assumption.
    + rewrite Hpv by (left; reflexivity). assumption.
    + apply IH; try assumption.
      * intros z Hz. apply Hnx. right. assumption.
      * intros z Hz. apply Hpv. right. assumption.
Qed.

(** Closing a chain through one more member [z] and a new first member. *)
Lemma chain_extend s s' first' l z :
  chain s z l ->
  (forall x, In x l -> next_free (cells s' x) = next_free (cells s x)) ->
  (forall x, In x (tl l) ->
             previous_free (cells s' x) = previous_free (cells s x)) ->
  previous_free (cells s' z) = previous_free (cells s z) ->
  next_free (cells s' z) = first' ->
  previous_free (cells s' first') = z ->
  chain s' first' (l ++ [z]).
Proof.
  induction l as [| x t IH]; [intros [] |].
  destruct t as [| y t'].
  - intros [Hn Hp] Hnx _ Hpz Hnz Hpf. cbn [app chain].
    rewrite Hnx by (left; reflexivity). rewrite Hpz. auto.
  - intros (Hn & Hp & Hc) Hnx Hpv Hpz Hnz Hpf.
    change ((x :: y :: t') ++ [z]) with (x :: y :: (t' ++ [z])).
    split; [| split].
    + rewrite Hnx by (left; reflexivity). assumption.
    + rewrite Hpv by (left; reflexivity). assumption.
    + apply (IH Hc); try assumption.
      * intros w Hw. apply Hnx. right. assumption.
      * intros w Hw. apply Hpv. right. assumption.
Qed.

Lemma last_in (l : list Z) d : l <> [] -> In (last l d) l.
Proof.
  induction l as [| x t IH]; [intros C; contradiction |].
  intros _. destruct t as [| y t']; [left; reflexivity |].
  right. apply IH. discriminate.
Qed.

(** The links of a member that is not the first: back to the member before
    it, on to the member after it or round to the first. *)
Lemma chain_at s first pre y post :
  chain s first (pre ++ y :: post) -> pre <> [] ->
  previous_free (cells s y) = last pre y
  /\ next_free (cells s y) = hd first post.
Proof.
  induction pre as [| x p IH]; [intros _ C; contradiction |].
  intros Hc _. destruct p as [| x2 p'].
  - destruct Hc as (_ & Hp & Hc). split; [exact Hp |].
    destruct post as [| z post']; [destruct Hc; assumption |].
    destruct Hc as (Hn & _). exact Hn.
  - destruct Hc as (_ & _ & Hc).
    change (last (x :: x2 :: p') y) with (last (x2 :: p') y).
    apply IH; [exact Hc | discriminate].
Qed.

(** Taking a member that is not the first out of a chain. *)
Lemma chain_remove s s' first pre y post :
  chain s first (pre ++ y :: post) -> pre <> [] ->
  NoDup (pre ++ y :: post) ->
  ~ In first (tl pre ++ y :: post) ->
  next_free (cells s' (last pre y)) = hd first post ->
  previous_free (cells s' (hd first post)) = last pre y ->
  (forall q, q <> last pre y ->
             next_free (cells s' q) = next_free (cells s q)) ->
  (forall q, q <> hd first post ->
             previous_free (cells s' q) = previous_free (cells s q)) ->
  chain s' first (pre ++ post).
Proof.
  induction pre as [| x p IH]; [intros _ C; contradiction |].
  intros Hc _ Hnd Hnf Hnb Hpa Hnx Hpv. destruct p as [| x2 p'].
  - cbn [app last tl] in *. destruct Hc as (Hn & Hp & Hc).
    destruct post as [| z post'].
    + cbn [hd] in *. split; assumption.
    + cbn [hd] in *. destruct Hc as (Hn' & Hp' & Hc').
      split; [assumption |]. split; [assumption |].
      apply (chain_ext s); try assumption.
      * intros w Hw. apply Hnx. intros ->.
        inversion Hnd as [| ? ? Hni _]. apply Hni. right. assumption.
      * intros w Hw. apply Hpv. intros ->.
        inversion Hnd as [| ? ? _ Hnd1]. inversion Hnd1 as [| ? ? _ Hnd2].
        inversion Hnd2 as [| ? ? Hni _]. apply Hni. assumption.
      * apply Hpv. intros ->. apply Hnf. right. left. reflexivity.
  - change (last (x :: x2 :: p') y) with (last (x2 :: p') y) in *.
    change ((x :: x2 :: p') ++ y :: post) with (x :: (x2 :: p') ++ y :: post) in *.
    change ((x :: x2 :: p') ++ post) with (x :: x2 :: (p' ++ post)).
    destruct Hc as (Hn & Hp & Hc).
    pose proof (proj1 (NoDup_cons_iff _ _) Hnd) as [Hni Hnd'].
    split; [| split].
    + rewrite Hnx; [assumption |]. intros E. apply Hni. rewrite E.
      apply in_or_app. left. apply last_in. discriminate.
    + rewrite Hpv; [assumption |]. intros E.
      destruct post as [| z post']; cbn [hd] in E.
      * apply Hnf. cbn [tl app]. left. assumption.
      * pose proof (proj1 (NoDup_cons_iff _ _) Hnd') as [Hni' _].
        apply Hni'. rewrite E.
        apply in_or_app. right. right. left. reflexivity.
    + apply IH; try assumption; try discriminate.
      intros Hin. apply Hnf. cbn [tl app] in *. right. assumption.
Qed.

Lemma nodup_app_disj (l1 l2 : list Z) a :
  NoDup (l1 ++ l2) -> In a l1 -> ~ In a l2.
Proof.
  induction l1 as [| x t IH]; [intros _ [] |].
  cbn [app]. intros Hnd Hin Hin2. apply NoDup_cons_iff in Hnd.
  destruct Hnd as [Hx Hnd]. destruct Hin as [-> | Hin].
  - apply Hx. apply in_or_app. right. assumption.
  - exact (IH Hnd Hin Hin2).
Qed.

Lemma nodup_app_comm (l1 l2 : list Z) : NoDup (l1 ++ l2) -> NoDup (l2 ++ l1).
Proof.
  intros H. apply NoDup_app.
  - exact (NoDup_app_remove_l _ _ H).
  - exact (NoDup_app_remove_r _ _ H).
  - intros a H2 H1. exact (nodup_app_disj _ _ _ H H1 H2).
Qed.

Lemma nodup_turn (pre post : list Z) x :
  NoDup (pre ++ x :: post) -> NoDup (x :: post ++ pre).
Proof.
  intros H. change (NoDup ((x :: post) ++ pre)). apply nodup_app_comm. exact H.
Qed.

(** The same circle read from its second member. *)
Lemma chain_rotate s f y t :
  chain s f (f :: y :: t) -> chain s y (y :: t ++ [f]).
Proof.
  intros (Hn & Hp & Hc).
  exact (chain_extend s s y (y :: t) f Hc (fun _ _ => eq_refl)
           (fun _ _ => eq_refl) eq_refl Hn Hp).
Qed.

(** The same circle read from any of its members. *)
Lemma chain_turn s x :
  forall pre post f,
    chain s f (pre ++ x :: post) ->
    hd_error (pre ++ x :: post) = Some f ->
    chain s x (x :: post ++ pre).
Proof.
  induction pre as [| a pre IH]; intros post f Hc Hhd.
  - cbn [app] in *. injection Hhd as ->. rewrite app_nil_r. exact Hc.
  - cbn [app hd_error] in Hhd. injection Hhd as ->.
    assert (Hc' : chain s (hd f (pre ++ x :: post)) ((pre ++ x :: post) ++ [f])).
    { destruct pre as [| b pre']; cbn [app hd] in *; apply chain_rotate; exact Hc. }
    rewrite <- app_assoc in Hc'. cbn [app] in Hc'.
    specialize (IH (post ++ [f]) _ Hc').
    rewrite <- app_assoc in IH. cbn [app] in IH. apply IH.
    destruct pre; reflexivity.
Qed.

(** Taking a member out of the circle read from that member: the member
    before it - the last one - becomes the first. *)
Lemma chain_remove_first s s' y t z :
  chain s y (y :: t ++ [z]) -> NoDup (y :: t ++ [z]) ->
  next_free (cells s' z) = hd z t ->
  previous_free (cells s' (hd z t)) = z ->
  (forall q, q <> z -> next_free (cells s' q) = next_free (cells s q)) ->
  (forall q, q <> hd z t ->
             previous_free (cells s' q) = previous_free (cells s q)) ->
  chain s' z (z :: t).
Proof.
  intros Hc Hnd Hnz Hpz Hnx Hpv.
  assert (Hc' : chain s z ([z] ++ y :: t)).
  { apply (chain_turn s z (y :: t) [] y); [exact Hc | reflexivity]. }
  assert (Hnd' : NoDup ([z] ++ y :: t)).
  { apply (nodup_turn (y :: t) [] z). exact Hnd. }
  apply (chain_remove s s' z [z] y t Hc'); try assumption; try discriminate.
  cbn [tl app]. apply NoDup_cons_iff in Hnd'. tauto.
Qed.

(** The stores of [takefromlist], field by field. *)
Lemma takefromlist_fields s head :
  let before := previous_free (cells s head) in
  let after := next_free (cells s head) in
  valid s head = true -> valid s before = true -> valid s after = true ->
  exists m,
    takefromlist head s = Done tt (set_cells s m)
    /\ (forall q, size_of_blk (m q) = size_of_blk (cells s q))
    /\ (forall q, alloc_or_not (m q) = alloc_or_not (cells s q))
    /\ (forall q, next_free (m q)
                  = if q =? before then after else next_free (cells s q))
    /\ (forall q, previous_free (m q)
                  = if q =? after then before else previous_free (cells s q)).
Proof.
  intros before after Hh Hp Hn. unfold takefromlist, bind, set_next, set_prev.
  run_load. fold before after. run_store. stateful. run_store. stateful.
  eexists. split; [reflexivity |].
  repeat split; intros q; autorewrite with fields; reflexivity.
Qed.

(** The whole-block branch of [place], field by field. *)
Lemma place_whole_fields s r b :
  let sz := size_of_blk (cells s b) in
  let before := previous_free (cells s b) in
  let after := next_free (cells s b) in
  valid s b = true ->
  valid s (padd b (sz - 1)) = true ->
  valid s before = true -> valid s after = true ->
  0 <= r -> 1 <= sz -> sz < r + 4 -> sz < 2 ^ 31 -> r < 2 ^ 63 ->
  exists m,
    place r b s
    = Done b (set_cells
                (set_anchor s (if b =? freelist s then before else freelist s))
                m)
    /\ (forall q, size_of_blk (m q) = size_of_blk (cells s q))
    /\ (forall q, alloc_or_not (m q)
                  = if q =? b then true
                    else if q =? padd b (sz - 1) then true
                         else alloc_or_not (cells s q))
    /\ (forall q, next_free (m q)
                  = if q =? before then after else next_free (cells s q))
    /\ (forall q, previous_free (m q)
                  = if q =? after then before else previous_free (cells s q)).
Proof.
  intros sz before after Hb Hf Hp Hn Hr Hs Hlt H31 H63.
  assert (Hw : wrap (r + blocks) = r + 4)
    by (unfold blocks; apply wrap_small; lia).
  assert (Ha : wrap (sz - 1) = sz - 1) by (apply wrap_small; lia).
  unfold place, bind, get_freelist.
  run_load. fold sz. rewrite Hw.
  destruct (Z.gtb_spec (r + 4) sz) as [_ | Hle]; [| lia].
  fold before.
  set (f := if b =? freelist s then before else freelist s).
  assert (Hfl : (if b =? freelist s then set_freelist before else ret tt) s
                = Done tt (set_anchor s f)).
  { unfold f, set_freelist, ret, set_anchor.
    destruct (b =? freelist s); [reflexivity |]. destruct s; reflexivity. }
  rewrite Hfl.
  destruct (takefromlist_fields (set_anchor s f) b)
    as (m1 & Ht & Hsz1 & Hal1 & Hnx1 & Hpv1); try assumption.
  cbn [cells set_anchor] in Hsz1, Hal1, Hnx1, Hpv1.
  fold before after in Hnx1, Hpv1.
  rewrite Ht. unfold set_alloc.
  run_load. stateful.
  rewrite Hsz1. fold sz. rewrite Ha.
  do 2 (run_store; stateful).
  unfold ret. eexists. split; [reflexivity |].
  repeat split; intros q; autorewrite with fields;
    rewrite ?Hsz1, ?Hal1, ?Hnx1, ?Hpv1; reflexivity.
Qed.

(** The links of the first member of a circle of more than one. *)
Lemma chain_first s y t z :
  chain s y (y :: t ++ [z]) ->
  next_free (cells s y) = hd z t /\ previous_free (cells s y) = z.
Proof.
  intros Hc.
  assert (Hc' : chain s z ([z] ++ y :: t))
    by (apply (chain_turn s z (y :: t) [] y); [exact Hc | reflexivity]).
  destruct (chain_at s z [z] y t Hc' ltac:(discriminate)) as [Hp Hn].
  split; assumption.
Qed.

(** * The claims *)

Ltac zcmp := vm_compute; first [reflexivity | intro; discriminate].

(** The free list after a member [b] has been unlinked the way
    [takefromlist] and the anchor update of lines 257-260 do it: a circular
    doubly linked list again, from the anchor, with the members it had
    other than [b]. *)
Lemma unlinked_list s s' b l :
  let before := previous_free (cells s b) in
  let after := next_free (cells s b) in
  (forall q, next_free (cells s' q)
             = if q =? before then after else next_free (cells s q)) ->
  (forall q, previous_free (cells s' q)
             = if q =? after then before else previous_free (cells s q)) ->
  freelist s' = (if b =? freelist s then before else freelist s) ->
  chain s (freelist s) l -> hd_error l = Some (freelist s) -> NoDup l ->
  In b l -> (exists x, In x l /\ x <> b) ->
  exists l',
    chain s' (freelist s') l' /\ hd_error l' = Some (freelist s')
    /\ NoDup l' /\ forall x, In x l' <-> In x l /\ x <> b.
Proof.
  intros before after Hnx Hpv Hfl Hc Hhd Hnd HbL (x0 & Hx0 & Hx0b).
  destruct (Z.eqb_spec b (freelist s)) as [Eb | Nb].
  - (* the member is the anchor: the member before it becomes the anchor *)
    destruct l as [| a t]; [discriminate |]. injection Hhd as Ea.
    rewrite <- Eb in Ea. subst a.
    assert (Ht : t <> []).
    { intros ->. destruct Hx0 as [E | []]. congruence. }
    destruct (exists_last Ht) as (t' & z & ->).
    rewrite <- Eb in Hc.
    destruct (chain_first _ _ _ _ Hc) as [Hny Hpy].
    fold after in Hny. fold before in Hpy.
    exists (z :: t'). rewrite Hfl, Hpy.
    split; [| split; [reflexivity | split]].
    + apply (chain_remove_first s s' b t' z Hc Hnd).
      * rewrite Hnx, Hpy, Z.eqb_refl. exact Hny.
      * rewrite Hpv, Hny, Z.eqb_refl. exact Hpy.
      * intros q Hq. rewrite Hnx, Hpy.
        destruct (Z.eqb_spec q z); [contradiction | reflexivity].
      * intros q Hq. rewrite Hpv, Hny.
        destruct (Z.eqb_spec q (hd z t')); [contradiction | reflexivity].
    + apply (nodup_turn (b :: t') [] z) in Hnd. cbn [app] in Hnd.
      apply NoDup_cons_iff in Hnd. destruct Hnd as [Hz Hnd].
      apply NoDup_cons_iff in Hnd. destruct Hnd as [_ Hnd].
      constructor; [| exact Hnd]. intros Hin. apply Hz. right. exact Hin.
    + intros x. cbn [In]. rewrite !in_app_iff. cbn [In].
      apply NoDup_cons_iff in Hnd. destruct Hnd as [Hb' _].
      rewrite in_app_iff in Hb'. cbn [In] in Hb'.
      split.
      * intros [<- | Hx]; (split; [tauto |]); intros ->; tauto.
      * intros [[<- | [Hx | [<- | []]]] Hne]; tauto.
  - (* the member is not the anchor *)
    destruct (in_split _ _ HbL) as (pre & post & ->).
    assert (Hpre : pre <> []).
    { intros ->. cbn [app hd_error] in Hhd. injection Hhd as E. contradiction. }
    assert (Hhd' : hd_error pre = Some (freelist s))
      by (destruct pre; [contradiction | exact Hhd]).
    destruct (chain_at _ _ _ _ _ Hc Hpre) as [Hpy Hny].
    fold after in Hny. fold before in Hpy.
    exists (pre ++ post). rewrite Hfl.
    split; [| split; [destruct pre; [contradiction | exact Hhd] | split]].
    + apply (chain_remove s s' _ pre b post Hc Hpre Hnd).
      * destruct pre as [| a p]; [contradiction |]. injection Hhd' as ->.
        cbn [tl app]. cbn [app] in Hnd. apply NoDup_cons_iff in Hnd. tauto.
      * rewrite Hnx, Hpy, Z.eqb_refl. exact Hny.
      * rewrite Hpv, Hny, Z.eqb_refl. exact Hpy.
      * intros q Hq. rewrite Hnx, Hpy.
        destruct (Z.eqb_spec q (last pre b)); [contradiction | reflexivity].
      * intros q Hq. rewrite Hpv, Hny.
        destruct (Z.eqb_spec q (hd (freelist s) post));
          [contradiction | reflexivity].
    + exact (NoDup_remove_1 _ _ _ Hnd).
    + intros x. rewrite !in_app_iff. cbn [In].
      pose proof (NoDup_remove_2 _ _ _ Hnd) as Hb'.
      rewrite in_app_iff in Hb'.
      split.
      * intros Hx. split; [tauto |]. intros ->. tauto.
      * intros [[Hx | [<- | Hx]] Hne]; tauto.
Qed.

(** C2.  Split policy.  When the first-fit loop stands on a free block [b]
    that passes the fit test for a request of [r] units, the allocation is
    served from [b].  If [b.size >= r + 4] the block is split: the returned
    header is [b + b.size - r], the allocated piece (header and footer) has
    size [r] and is marked allocated, the remainder keeps the low end with
    size [b.size - r] in its header and footer, stays free, and no link field
    and not the anchor is touched, so every circular list there was is the
    same list afterwards and the remainder stays on the free list in the
    position of [b].  If [b.size < r + 4] the whole block is consumed: the
    returned header is [b], its size is unchanged, header and footer are
    marked allocated, and [b] is unlinked - the member before [b] is linked
    to the member after it and back, no other link changes, the anchor
    moves to the member before [b] when [b] was the anchor - so that the
    free list is again a circular doubly linked list from the anchor, with
    the members it had other than [b]. *)
Theorem split_policy fuel s r b :
  let sz := size_of_blk (cells s b) in
  let before := previous_free (cells s b) in
  let after := next_free (cells s b) in
  valid s b = true ->
  valid s (padd b (sz - 1)) = true ->
  alloc_or_not (cells s b) = false ->
  1 <= r <= sz -> sz < 2 ^ 31 ->
  (sz < r + 4 -> valid s before = true /\ valid s after = true) ->
  exists p s',
    fit_loop (S fuel) r b s = Done p s'
    /\ (r + 4 <= sz ->
        p = padd b (sz - r)
        /\ size_of_blk (cells s' p) = r
        /\ alloc_or_not (cells s' p) = true
        /\ size_of_blk (cells s' (padd p (r - 1))) = r
        /\ alloc_or_not (cells s' (padd p (r - 1))) = true
        /\ size_of_blk (cells s' b) = sz - r
        /\ size_of_blk (cells s' (padd b (sz - r - 1))) = sz - r
        /\ alloc_or_not (cells s' b) = false
        /\ (forall q, next_free (cells s' q) = next_free (cells s q)
                      /\ previous_free (cells s' q) = previous_free (cells s q))
        /\ freelist s' = freelist s
        /\ (forall first l, chain s first l -> chain s' first l))
    /\ (sz < r + 4 ->
        p = b
        /\ size_of_blk (cells s' b) = sz
        /\ alloc_or_not (cells s' b) = true
        /\ size_of_blk (cells s' (padd b (sz - 1)))
           = size_of_blk (cells s (padd b (sz - 1)))
        /\ alloc_or_not (cells s' (padd b (sz - 1))) = true
        /\ (forall q, next_free (cells s' q)
                      = if q =? before then after else next_free (cells s q))
        /\ (forall q, previous_free (cells s' q)
                      = if q =? after then before
                        else previous_free (cells s q))
        /\ freelist s' = (if b =? freelist s then before else freelist s)
        /\ (forall l,
              chain s (freelist s) l -> hd_error l = Some (freelist s) ->
              NoDup l -> In b l -> (exists x, In x l /\ x <> b) ->
              exists l',
                chain s' (freelist s') l' /\ hd_error l' = Some (freelist s')
                /\ NoDup l' /\ forall x, In x l' <-> In x l /\ x <> b)).
Proof.
  intros sz before after Vb Vf Hfree Hr H31 Hlinks.
  assert (Hloop : fit_loop (S fuel) r b s = place r b s).
  { cbn [fit_loop]. unfold bind at 1. rewrite (load_ok _ _ Vb). fold sz.
    rewrite Hfree. cbn [negb]. rewrite andb_true_r.
    destruct (Z.leb_spec r sz); [reflexivity | lia]. }
  rewrite Hloop.
  destruct (Z.le_gt_cases (r + 4) sz) as [Hs | Hs].
  - destruct (place_split s r b)
      as (m & Hrun & Hb & Hba & Hrf & Hp & Hpa & Hpf & Hpfa & Hlk & _);
      try assumption; try lia.
    fold sz in Hrun, Hb, Hrf, Hp, Hpa, Hpf, Hpfa.
    exists (padd b (sz - r)), (set_cells s m). split; [exact Hrun |].
    split; [| intros; lia]. intros _. cbn [cells set_cells freelist].
    replace (padd (padd b (sz - r)) (r - 1)) with (padd b (sz - 1))
      by (unfold padd; lia).
    rewrite Hba, Hfree.
    do 10 (split; [first [assumption | reflexivity | apply Hlk] |]).
    intros first l Hc. apply (chain_ext s); [exact Hc | | |];
      intros; cbn [cells set_cells]; apply Hlk.
  - destruct Hlinks as [Vp Vn]; [assumption |].
    destruct (place_whole_fields s r b) as (m & Hrun & Hsz & Hal & Hnx & Hpv);
      try assumption; try lia.
    fold sz before after in Hrun, Hal, Hnx, Hpv.
    eexists b, _. split; [exact Hrun |].
    split; [intros; lia |]. intros _. cbn [cells set_cells freelist set_anchor].
    rewrite !Hsz, !Hal, !Z.eqb_refl.
    split; [reflexivity |]. split; [reflexivity |]. split; [reflexivity |].
    split; [reflexivity |].
    split; [destruct (padd b (sz - 1) =? b); reflexivity |].
    split; [exact Hnx |]. split; [exact Hpv |]. split; [reflexivity |].
    intros l Hc Hhd Hnd HbL Hother.
    match goal with |- context [set_cells ?s0 m] => set (s' := set_cells s0 m) end.
    apply (unlinked_list s s' b l); try assumption; reflexivity.
Qed.

Lemma split_policy_witness :
  (exists p s',
     fit_loop 1 20 69016 scattered = Done p s'
     /\ p = padd 69016 10
     /\ size_of_blk (cells s' p) = 20
     /\ size_of_blk (cells s' 69016) = 10
     /\ freelist s' = freelist scattered)
  /\ (exists p s',
        fit_loop 1 4 69616 five = Done p s'
        /\ p = 69616
        /\ size_of_blk (cells s' 69616) = 5
        /\ alloc_or_not (cells s' 69616) = true
        /\ freelist s' = 65632
        /\ next_free (cells s' 65632) = 65536
        /\ previous_free (cells s' 65536) = 65632).
Proof.
  split.
  - destruct (split_policy 0 scattered 20 69016) as (p & s' & Hrun & Hsplit & _).
    + vm_compute. reflexivity.
    + vm_compute. reflexivity.
    + vm_compute. reflexivity.
    + vm_compute. split; intro; discriminate.
    + vm_compute. reflexivity.
    + intros H. vm_compute in H. discriminate.
    + exists p, s'. split; [exact Hrun |].
      destruct Hsplit as (Hp & Hsz & _ & _ & _ & Hb & _ & _ & _ & Hfl & _).
      * vm_compute. intro; discriminate.
      * split; [exact Hp |]. split; [exact Hsz |]. split; [exact Hb | exact Hfl].
  - destruct (split_policy 0 five 4 69616) as (p & s' & Hrun & _ & Hwhole).
    + vm_compute. reflexivity.
    + vm_compute. reflexivity.
    + vm_compute. reflexivity.
    + vm_compute. split; intro; discriminate.
    + vm_compute. reflexivity.
    + intros _. split; vm_compute; reflexivity.
    + exists p, s'. split; [exact Hrun |].
      destruct Hwhole as (Hp & Hsz & Hal & _ & _ & Hnx & Hpv & Hfl & _).
      * vm_compute. reflexivity.
      * split; [exact Hp |]. split; [rewrite Hsz; vm_compute; reflexivity |].
        split; [exact Hal |]. split; [rewrite Hfl; vm_compute; reflexivity |].
        split; [rewrite Hnx | rewrite Hpv]; vm_compute; reflexivity.
Defined.

(** The concrete heaps satisfy the invariants. *)

Ltac concrete_nodup :=
  repeat (constructor;
          [ cbn [In]; intros H;
            repeat (destruct H as [H | H]; [discriminate H |]); exact H | ]);
  constructor.

Ltac concrete_node :=
  unfold node_ok; split; [vm_compute; reflexivity | split; [zcmp |]];
  vm_compute; first [ intros H; discriminate H
                    | intros _; split; intro; discriminate ].

Ltac concrete_heap_ok :=
  constructor;
  [ zcmp | zcmp | zcmp | zcmp | zcmp | zcmp
  | vm_compute; reflexivity
  | concrete_nodup
  | cbn [chain]; repeat split; vm_compute; reflexivity
  | repeat (constructor; [concrete_node |]); constructor
  | unfold last_ok; cbv zeta; intros H; vm_compute in H;
    first [ discriminate H
          | clear H;
            split; [zcmp | split; [cbn [In]; vm_compute; tauto
                                  | split; vm_compute; reflexivity]] ] ].

Lemma fresh_heap_ok : heap_ok fresh [65536].
Proof. concrete_heap_ok. Qed.

Lemma scattered_heap_ok : heap_ok scattered scattered_list.
Proof. concrete_heap_ok. Qed.

Lemma five_heap_ok : heap_ok five five_list.
Proof. concrete_heap_ok. Qed.

Lemma tight_heap_ok : heap_ok tight tight_list.
Proof. concrete_heap_ok. Qed.

Lemma done_value {A} (m : M A) s a s' :
  m s = Done a s' -> value_of (m s) = Some a /\ s' = after m s.
Proof. intros H. unfold after. rewrite H. split; reflexivity. Qed.

Lemma find_existsb {A} (f : A -> bool) l :
  existsb f l = match find f l with Some _ => true | None => false end.
Proof.
  induction l as [| a t IH]; [reflexivity |]. cbn. destruct (f a); auto.
Qed.

Lemma padd_back p : padd (padd p 1) (-1) = p.
Proof. unfold padd. lia. Qed.

(** C4, defect in the code.  A request whose size in bytes wraps around is
    not refused.  For a request of [2^64 - 40] bytes on a fresh arena no
    free block fits; the
    size in bytes of the growth, [(2^64 - 40 + 23) / 24 + 2] units times 24,
    wraps around to 8; the provider grants these 8 bytes, so the growth is
    not refused; and [mm_malloc] then stores at [blck[heads - 1]], far
    outside the arena, instead of returning a pointer or null with
    [ENOMEM].  Nothing in [headchunksize], [conv_bytes], [increaseheapsize]
    or [mm_malloc] checks for the overflow. *)
Theorem malloc_claim_fails_on_wrap :
  heap_ok fresh [65536]
  /\ refused fresh (request_units (2 ^ 64 - 40)) = false
  /\ conv_bytes (grow_units (request_units (2 ^ 64 - 40))) = 8
  /\ faulted (mm_malloc FUEL (2 ^ 64 - 40) fresh) = true
  /\ ~ malloc_claim FUEL fresh [65536] (2 ^ 64 - 40).
Proof.
  split; [exact fresh_heap_ok |].
  do 3 (split; [vm_compute; reflexivity |]).
  intros [_ H].
  destruct H as (p & s' & Hrun & _); [right; vm_compute; reflexivity |].
  apply done_value in Hrun. destruct Hrun as [Hv _].
  vm_compute in Hv. discriminate Hv.
Qed.

(** Away from the wrap-around [mm_malloc] does what its documentation
    says.  On a heap that satisfies the invariants, for every request of
    [n] bytes with [n <= 2^64 - 24], so that the rounding to units does not
    wrap around, and whose size in bytes, rounded to the units asked from
    the provider, does not wrap around [size_t] either: when no free block
    on the free list fits and the provider refuses to grow the arena,
    [mm_malloc(n)] returns null, sets [errno] to [ENOMEM] and leaves
    everything else as it was; otherwise it returns a non-null payload
    pointer whose block is marked allocated and has at least the requested
    number of units. *)
Lemma malloc_result fuel s l n :
  heap_ok s l -> (length l + 1 <= fuel)%nat ->
  0 <= n <= 2 ^ 64 - 24 ->
  grow_units (request_units n) * 24 < 2 ^ 64 ->
  malloc_claim fuel s l n.
Proof.
  intros Hok Hfuel Hn Hnw.
  pose proof (mm_malloc_outcome s l fuel n Hok Hfuel) as H. cbv zeta in H.
  unfold malloc_claim. cbv zeta. rewrite find_existsb.
  destruct (find (fits s (request_units n)) l) as [y |].
  - split; [discriminate |]. intros _.
    destruct H as (p & s' & Hrun & (Hp & Hal & Hsz) & _).
    exists (padd p 1), s'. rewrite padd_back.
    repeat split; try assumption; try lia.
    unfold padd, NULL, sizeof_HeadFoot. lia.
  - destruct (refused s (request_units n)).
    + split; [intros _ _; exact H |]. intros [C | C]; discriminate C.
    + split; [intros _ C; discriminate C |]. intros _.
      destruct (H Hnw) as (p & s' & Hrun & (Hp & Hal & Hsz) & _).
      exists (padd p 1), s'. rewrite padd_back.
      repeat split; try assumption; try lia.
      unfold padd, NULL, sizeof_HeadFoot. lia.
Qed.

Lemma malloc_result_witness :
  malloc_claim FUEL scattered scattered_list 432
  /\ malloc_claim FUEL tight tight_list 10000
  /\ mm_malloc FUEL 10000 tight = Done NULL (set_err tight ENOMEM).
Proof.
  assert (H : malloc_claim FUEL tight tight_list 10000).
  { apply (malloc_result FUEL tight tight_list 10000).
    - exact tight_heap_ok.
    - vm_compute. repeat constructor.
    - split; zcmp.
    - vm_compute. reflexivity. }
  split; [| split; [exact H |]].
  - apply (malloc_result FUEL scattered scattered_list 432).
    + exact scattered_heap_ok.
    + vm_compute. repeat constructor.
    + split; zcmp.
    + vm_compute. reflexivity.
  - destruct H as [H _]. apply H; vm_compute; reflexivity.
Defined.

(** C10, as stated, fails: when the first free block that fits has 5 units
    it is handed out whole, and the block returned has 5 units. *)
Lemma malloc_zero_claim_fails :
  heap_ok five five_list
  /\ ~ malloc_zero_claim FUEL five five_list.
Proof.
  split; [exact five_heap_ok |].
  intros H.
  destruct H as (p & s' & Hrun & _ & _ & Hsz); [left; vm_compute; reflexivity |].
  apply done_value in Hrun. destruct Hrun as [Hv ->].
  vm_compute in Hv. injection Hv as <-.
  vm_compute in Hsz. discriminate Hsz.
Qed.

(** C10, amended.  On a heap that satisfies the invariants, when a free
    block fits or the provider grants a growth, [mm_malloc(0)] asks for the
    minimum of 4 units and returns a non-null payload pointer into an
    allocated block of 4 to 7 units: the whole of the first free block that
    fits when that block has fewer than 8 units, and 4 units split off it
    (or off the grown arena) otherwise. *)
Theorem malloc_zero_result fuel s l :
  heap_ok s l -> (length l + 1 <= fuel)%nat ->
  existsb (fits s blocks) l = true \/ refused s blocks = false ->
  request_units 0 = blocks
  /\ exists p s',
       mm_malloc fuel 0 s = Done p s'
       /\ p <> NULL
       /\ alloc_or_not (cells s' (padd p (-1))) = true
       /\ 4 <= size_of_blk (cells s' (padd p (-1))) <= 7
       /\ size_of_blk (cells s' (padd p (-1)))
          = match find (fits s blocks) l with
            | Some y => if 8 <=? size_of_blk (cells s y) then 4
                        else size_of_blk (cells s y)
            | None => 4
            end.
Proof.
  intros Hok Hfuel Hav. split; [reflexivity |].
  pose proof (mm_malloc_outcome s l fuel 0 Hok Hfuel) as H. cbv zeta in H.
  change (request_units 0) with blocks in H.
  rewrite find_existsb in Hav.
  destruct (find (fits s blocks) l) as [y |].
  - destruct H as (p & s' & Hrun & (Hp & Hal & Hsz) & He).
    exists (padd p 1), s'. rewrite padd_back. unfold blocks in *.
    change (4 + 4) with 8 in He.
    repeat split; try assumption; try lia.
    unfold padd, NULL, sizeof_HeadFoot. lia.
  - destruct (refused s blocks); [destruct Hav; discriminate |].
    destruct H as (p & s' & Hrun & (Hp & Hal & Hsz) & He); [vm_compute; reflexivity |].
    exists (padd p 1), s'. rewrite padd_back. unfold blocks in *.
    repeat split; try assumption; try lia.
    + unfold padd, NULL, sizeof_HeadFoot. lia.
    + apply He. vm_compute. intro; discriminate.
Qed.

Lemma malloc_zero_result_witness :
  exists p s',
    mm_malloc FUEL 0 five = Done p s'
    /\ size_of_blk (cells s' (padd p (-1))) = 5.
Proof.
  destruct (malloc_zero_result FUEL five five_list) as (_ & p & s' & Hrun & _ & _ & _ & Hsz).
  - exact five_heap_ok.
  - vm_compute. repeat constructor.
  - left. vm_compute. reflexivity.
  - exists p, s'. split; [exact Hrun |]. rewrite Hsz. vm_compute. reflexivity.
Defined.


Lemma value_done {A} (m : M A) s a :
  value_of (m s) = Some a -> exists s', m s = Done a s'.
Proof.
  destruct (m s) as [a' s1 | s1 |]; try discriminate.
  intros H. injection H as ->. exists s1. reflexivity.
Qed.

Lemma allocatedblock_value fuel p s b :
  value_of (allocatedblock fuel p s) = Some b ->
  allocatedblock fuel p s = Done b s.
Proof.
  intros H. destruct (value_done _ _ _ H) as (s' & Hrun).
  destruct (allocatedblock_pure _ _ _ _ _ Hrun) as [-> _]. exact Hrun.
Qed.





(** C9.  On a freshly initialised arena, whatever the backing store holds,
    [a = malloc(64); b = malloc(64); free(a); c = malloc(64)] yields
    [c == a]: [free(a)] makes the block of [a] the anchor, and the first-fit
    walk of the third allocation starts there. *)
Theorem lifo_reuse :
  forall m0,
  exists a b,
    value_of (reuse_calls (boot m0)) = Some (a, b, a)
    /\ a <> NULL /\ b <> NULL /\ a <> b
    /\ value_of (five_calls (boot m0)) = Some (a, b)
    /\ freelist (after five_calls (boot m0)) = padd a (-1).
Proof.
  intros m0. exists 69640, 69520.
  repeat split; try discriminate; vm_compute; reflexivity.
Qed.

(** C1, defect in the code.  The split of lines 271-279 writes the size of
    the remainder into its footer and leaves the allocation bit of that unit
    as it was.  After [p = malloc(2400); mm_reset(); q = malloc(2376)] the
    footer of the remainder is the unit that was the header of [p]'s block,
    and after [p = malloc(2400)], the caller filling its 2400 bytes with
    0xFF, [free(p)] and [q = malloc(1)] it is a unit of the caller's bytes:
    in both heaps the free block at 65632 has a header that says free and a
    footer that says allocated. *)
Theorem split_leaves_footer_bit :
  let s := after reset_calls fresh in
  let s' := after stale_calls fresh in
  value_of (reset_calls fresh) = Some (67312, 67336)
  /\ arena_blocks FUEL s (mem_start_brk s) = [65536; 65632; 67312; 69736]
  /\ size_of_blk (cells s 65632) = 70
  /\ alloc_or_not (cells s 65632) = false
  /\ size_of_blk (cells s (padd 65632 69)) = 70
  /\ alloc_or_not (cells s (padd 65632 69)) = true
  /\ tags_agree s 65632 = false
  /\ value_of (stale_calls fresh) = Some (67312, 69664)
  /\ arena_blocks FUEL s' (mem_start_brk s') = [65536; 65632; 69640; 69736]
  /\ size_of_blk (cells s' 65632) = 167
  /\ alloc_or_not (cells s' 65632) = false
  /\ size_of_blk (cells s' (padd 65632 166)) = 167
  /\ alloc_or_not (cells s' (padd 65632 166)) = true
  /\ tags_agree s' 65632 = false.
Proof. vm_compute. repeat split. Qed.

(** C3, defect in the code.  The same calls followed by [free(q)]: the stale
    footer bit hides the free block below [q] from the coalescing test of
    line 184, and the arena ends with two free blocks side by side: at 65632
    (70 units) and 67312 (101 units) in the first heap, at 65632 (167 units)
    and 69640 (4 units) in the second. *)
Theorem adjacent_free_blocks :
  let s := after reset_then_free_calls fresh in
  let s' := after stale_then_free_calls fresh in
  value_of (reset_then_free_calls fresh) = Some (67312, 67336)
  /\ arena_blocks FUEL s (mem_start_brk s) = [65536; 65632; 67312; 69736]
  /\ alloc_or_not (cells s 65632) = false
  /\ padd 65632 (size_of_blk (cells s 65632)) = 67312
  /\ alloc_or_not (cells s 67312) = false
  /\ neighbours_allocated s 65632 = false
  /\ value_of (stale_then_free_calls fresh) = Some (67312, 69664)
  /\ arena_blocks FUEL s' (mem_start_brk s') = [65536; 65632; 69640; 69736]
  /\ alloc_or_not (cells s' 65632) = false
  /\ padd 65632 (size_of_blk (cells s' 65632)) = 69640
  /\ alloc_or_not (cells s' 69640) = false
  /\ neighbours_allocated s' 65632 = false.
Proof. vm_compute. repeat split. Qed.

(** C5, defect in the code.  The pointer 67936 is inside the arena and
    aligned to [sizeof(max_align_t)], and the unit below it is marked
    allocated, has size 4 and agrees with the unit that would be its footer;
    [allocatedblock] nevertheless returns the header 67288 of the enclosing
    block, because the guard of the fast path is constantly false. *)
Theorem aligned_pointer_takes_slow_path :
  let p := 67936 in
  let c := cells decoy (padd p (-1)) in
  let f := cells decoy (padd (padd p (-1)) (size_of_blk c - 1)) in
  value_of (decoy_calls fresh) = Some 67312
  /\ Z.land p (sizeof_max_align_t - 1) = 0
  /\ (p - mem_start_brk decoy) mod sizeof_HeadFoot = 0
  /\ mem_start_brk decoy < p < mem_brk decoy - 1
  /\ alloc_or_not c = true
  /\ blocks <= size_of_blk c
  /\ size_of_blk c = size_of_blk f
  /\ alloc_or_not c = alloc_or_not f
  /\ value_of (allocatedblock FUEL p decoy) = Some 67288
  /\ padd p (-1) = 67912
  /\ (forall q s, fast_path q s = Done None s).
Proof.
  cbv zeta.
  do 10 (split; [vm_compute; first [reflexivity | split; reflexivity
                                   | intro; discriminate] |]).
  exact fast_path_never.
Qed.

(** C6, defect in the code.  [mm_free] of a pointer into the leading
    sentinel, and of a pointer into the trailing sentinel, passes the bounds
    test of line 398, is resolved by the walk to the sentinel itself, and
    lines 182-183 clear its allocation bit before the next access leaves the
    arena. *)
Theorem sentinel_bits_cleared :
  let lead := mem_start_brk fresh in
  let s1 := after (mm_malloc FUEL 1) fresh in
  let trail := mem_brk s1 - sizeof_HeadFoot in
  alloc_or_not (cells fresh lead) = true
  /\ value_of (allocatedblock FUEL (lead + 1) fresh) = Some lead
  /\ alloc_or_not (cells (after (mm_free FUEL (lead + 1)) fresh) lead) = false
  /\ faulted (mm_free FUEL (lead + 1) fresh) = true
  /\ alloc_or_not (cells s1 trail) = true
  /\ size_of_blk (cells s1 trail) = 1
  /\ value_of (allocatedblock FUEL (trail + 8) s1) = Some trail
  /\ alloc_or_not (cells (after (mm_free FUEL (trail + 8)) s1) trail) = false
  /\ faulted (mm_free FUEL (trail + 8) s1) = true.
Proof. vm_compute. repeat split. Qed.

(** C7, defect in the code.  On the heap [scattered] the free list holds,
    from the anchor on, blocks of 10, 4 (the sentinel), 94, 30 and 25 units.
    For a request of 20 units the smallest block that fits is the one of 25
    units at 68320; [pick_free_block_from_list_best_fit] serves the request
    from the block of 94 units at 65632, the first that fits: the scan of
    lines 306-314 only ever prefers a block smaller than the anchor. *)
Theorem best_fit_takes_first_fit :
  let s' := after (pick_free_block_from_list_best_fit FUEL 20) scattered in
  value_of (scattered_calls fresh) = Some (69040, 68344, 68008)
  /\ freelist scattered = 67984
  /\ map (fun x => size_of_blk (cells scattered x)) scattered_list
     = [10; 4; 94; 30; 25]
  /\ map (fits scattered 20) scattered_list = [false; false; true; true; true]
  /\ value_of (pick_free_block_from_list_best_fit FUEL 20 scattered)
     = Some (padd 65632 74)
  /\ size_of_blk (cells s' 65632) = 74
  /\ size_of_blk (cells s' 68320) = 25
  /\ alloc_or_not (cells s' 68320) = false
  /\ value_of (pick_free_block_from_list_first_fit FUEL 20 scattered)
     = Some (padd 65632 74).
Proof. vm_compute. repeat split. Qed.

(** * Further properties of the code *)

(** ** Sizes *)

(** X1. [headchunksize] rounds a byte count up to whole units and [conv_bytes]
    goes back. For a byte count [n] of at most [2^64 - 24] the bytes of the
    units cover the request with less than one unit to spare. For a number of
    units [k] with [24 * k <= 2^64 - 24] - so that neither the product nor the
    rounding that follows wraps around - the number of units survives the
    round trip. *)
Theorem headchunksize_conv_bytes n k :
  0 <= n <= 2 ^ 64 - 24 ->
  0 <= k -> 24 * k <= 2 ^ 64 - 24 ->
  n <= conv_bytes (headchunksize n) < n + 24
  /\ headchunksize (conv_bytes k) = k.
Proof.
  intros Hn Hk Hk'. unfold conv_bytes, headchunksize, sizeof_HeadFoot.
  split.
  - rewrite (wrap_small (n + 24 - 1)) by lia.
    assert (0 <= (n + 24 - 1) / 24) by (apply Z.div_pos; lia).
    assert ((n + 24 - 1) / 24 * 24 <= n + 24 - 1)
      by (rewrite Z.mul_comm; apply Z.mul_div_le; lia).
    rewrite wrap_small by lia.
    pose proof (Z.mod_pos_bound (n + 24 - 1) 24 ltac:(lia)).
    pose proof (Z.div_mod (n + 24 - 1) 24 ltac:(lia)). lia.
  - rewrite (wrap_small (k * 24)) by lia.
    rewrite wrap_small by lia.
    replace (k * 24 + 24 - 1) with (23 + k * 24) by lia.
    rewrite Z.div_add by lia. reflexivity.
Qed.

Lemma headchunksize_conv_bytes_witness :
  100 <= conv_bytes (headchunksize 100) < 100 + 24
  /\ headchunksize (conv_bytes 5) = 5.
Proof.
  apply (headchunksize_conv_bytes 100 5).
  - vm_compute. split; intro; discriminate.
  - vm_compute. intro; discriminate.
  - vm_compute. intro; discriminate.
Defined.

(** X2. A byte count within 23 of the largest [size_t] wraps around in
    [headchunksize]: [mm_malloc] asks placement for the minimum of 4 units and
    does exactly what [mm_malloc(0)] does. *)
Theorem malloc_huge_is_malloc_zero fuel n s :
  2 ^ 64 - 24 < n < 2 ^ 64 ->
  request_units n = blocks
  /\ mm_malloc fuel n s = mm_malloc fuel 0 s.
Proof.
  intros Hn.
  assert (H0 : headchunksize n = 0).
  { unfold headchunksize, sizeof_HeadFoot, wrap.
    replace (n + 24 - 1) with (n + 23 - 2 ^ 64 + 1 * 2 ^ 64) by lia.
    rewrite Z.mod_add by lia. rewrite Z.mod_small by lia.
    apply Z.div_small. lia. }
  unfold request_units, mm_malloc. rewrite H0. split; reflexivity.
Qed.

Lemma malloc_huge_is_malloc_zero_witness :
  request_units (2 ^ 64 - 1) = blocks
  /\ mm_malloc FUEL (2 ^ 64 - 1) fresh = mm_malloc FUEL 0 fresh.
Proof.
  apply (malloc_huge_is_malloc_zero FUEL (2 ^ 64 - 1) fresh).
  vm_compute. split; reflexivity.
Defined.

(** ** Pointers that identify no block *)

Lemma allocatedblock_outside fuel p s :
  p <= mem_start_brk s \/ mem_brk s - 1 <= p ->
  allocatedblock fuel p s = Done NULL s.
Proof.
  intros H. unfold allocatedblock, bind, mem_heap_lo, mem_heap_hi.
  assert (E : (p <=? mem_start_brk s) || (p >=? mem_brk s - 1) = true).
  { apply orb_true_iff. destruct H; [left; apply Z.leb_le | right; apply Z.geb_le];
      assumption. }
  rewrite E. reflexivity.
Qed.

(** X3. A non-null pointer at or below the bottom of the arena, or at or above
    its last byte, is refused: [mm_free] and [mm_realloc] set [errno] to
    [EFAULT], [mm_realloc] returns null, and nothing else changes. *)
Theorem outside_pointer_refused splice fuel p n s :
  p <> NULL ->
  p <= mem_start_brk s \/ mem_brk s - 1 <= p ->
  mm_free fuel p s = Done tt (set_err s EFAULT)
  /\ mm_realloc splice fuel p n s = Done NULL (set_err s EFAULT).
Proof.
  intros Hp Hout. pose proof (allocatedblock_outside fuel p s Hout) as Hid.
  unfold mm_free, mm_realloc.
  destruct (Z.eqb_spec p NULL) as [C | _]; [contradiction |]. cbn [negb].
  unfold bind. rewrite Hid. cbn. split; reflexivity.
Qed.

Lemma outside_pointer_refused_witness :
  mm_free FUEL 69760 scattered = Done tt (set_err scattered EFAULT)
  /\ mm_realloc (fun _ a _ => a) FUEL 69760 100 scattered
     = Done NULL (set_err scattered EFAULT).
Proof.
  apply (outside_pointer_refused (fun _ a _ => a) FUEL 69760 100 scattered).
  - discriminate.
  - right. vm_compute. intro; discriminate.
Defined.

(** ** Resizing in place *)

(** X4. When the block a pointer resolves to already has the units the new
    size needs, [mm_realloc] returns the pointer it was given and writes
    nothing; in particular it never shrinks a block. *)
Theorem realloc_in_place splice fuel p n s b :
  p <> NULL ->
  allocatedblock fuel p s = Done b s -> b <> NULL ->
  wrap (headchunksize n + 2) <= size_of_blk (cells s b) ->
  mm_realloc splice fuel p n s = Done p s.
Proof.
  intros Hp Hid Hb Hfit.
  destruct (allocatedblock_pure _ _ _ _ _ Hid) as [_ Hv].
  destruct (Hv Hb) as [Vb _].
  unfold mm_realloc.
  destruct (Z.eqb_spec p NULL) as [C | _]; [contradiction |].
  unfold bind at 1. rewrite Hid.
  destruct (Z.eqb_spec b NULL) as [C | _]; [contradiction |].
  unfold bind at 1. rewrite (load_ok _ _ Vb).
  destruct (Z.geb_spec (size_of_blk (cells s b)) (wrap (headchunksize n + 2)));
    [reflexivity | lia].
Qed.

Lemma realloc_in_place_witness :
  mm_realloc (fun _ a _ => a) FUEL 69640 24 tight = Done 69640 tight.
Proof.
  apply (realloc_in_place (fun _ a _ => a) FUEL 69640 24 tight 69616).
  - discriminate.
  - apply allocatedblock_value. vm_compute. reflexivity.
  - discriminate.
  - vm_compute. intro; discriminate.
Defined.

(** ** The free list under unlinking and insertion *)

Lemma chain_tail s f x y t : chain s f (x :: y :: t) -> chain s f (y :: t).
Proof. intros (_ & _ & H). exact H. Qed.

(** The stores of [returnfreeblocktolist] when neither neighbour is free,
    field by field. *)
Lemma returnfreeblocktolist_insert_fields s b :
  let h := size_of_blk (cells s b) in
  let f := freelist s in
  let after := next_free (cells s f) in
  valid s b = true -> 1 <= h < 2 ^ 31 ->
  valid s (padd b (h - 1)) = true ->
  valid s (padd b (-1)) = true ->
  alloc_or_not (cells s (padd b (-1))) = true ->
  valid s f = true ->
  valid s after = true ->
  valid s (padd b h) = true ->
  alloc_or_not (cells s (padd b h)) = true ->
  exists m,
    returnfreeblocktolist b s = Done tt (set_cells (set_anchor s b) m)
    /\ (forall q, size_of_blk (m q) = size_of_blk (cells s q))
    /\ (forall q, alloc_or_not (m q)
                  = if q =? b then false
                    else if q =? padd b (h - 1) then false
                         else alloc_or_not (cells s q))
    /\ (forall q, next_free (m q)
                  = if q =? f then b
                    else if q =? b then after else next_free (cells s q))
    /\ (forall q, previous_free (m q)
                  = if q =? after then b
                    else if q =? b then f else previous_free (cells s q)).
Proof.
  intros h f after Vb Hh Vf Vp Ap Vfl Vnx Vn An.
  assert (Hw : wrap (h - 1) = h - 1) by (apply wrap_small; lia).
  unfold returnfreeblocktolist, set_alloc, set_prev, set_next.
  unfold bind at 1. run_load. fold h. rewrite Hw.
  unfold bind at 1. run_store. stateful.
  unfold bind at 1. run_store. stateful.
  unfold bind at 1. run_load. stateful.
  autorewrite with fields.
  replace (padd b (-1) =? b) with false
    by (symmetry; apply Z.eqb_neq; unfold padd, sizeof_HeadFoot; lia).
  replace (padd b (-1) =? padd b (h - 1)) with false
    by (symmetry; apply Z.eqb_neq; unfold padd, sizeof_HeadFoot; lia).
  rewrite Ap. cbn [negb].
  unfold bind at 1. unfold bind at 1. unfold get_freelist at 1. stateful. fold f.
  unfold bind at 1. run_load. stateful. autorewrite with fields. fold after.
  do 4 (unfold bind at 1; run_store; stateful).
  unfold ret at 1. stateful.
  unfold bind at 1. unfold set_freelist at 1. stateful.
  unfold bind at 1. run_load. stateful. autorewrite with fields.
  replace (padd b h =? b) with false
    by (symmetry; apply Z.eqb_neq; unfold padd, sizeof_HeadFoot; lia).
  replace (padd b h =? padd b (h - 1)) with false
    by (symmetry; apply Z.eqb_neq; unfold padd, sizeof_HeadFoot; lia).
  rewrite An. cbn [negb]. unfold ret.
  eexists. split; [reflexivity |].
  repeat split; intros; autorewrite with fields; reflexivity.
Qed.

(** X5. Releasing a block whose two physical neighbours are allocated: the
    block is marked free at both ends, no size changes, and the free list
    stays a circular doubly linked list: the released block is the new anchor,
    the old members follow in their order, the old anchor comes last. *)
Theorem release_inserts_at_anchor s b t :
  let h := size_of_blk (cells s b) in
  let f := freelist s in
  chain s f (f :: t) -> NoDup (f :: t) -> ~ In b (f :: t) ->
  Forall (fun x => valid s x = true) (f :: t) ->
  valid s b = true -> 1 <= h < 2 ^ 31 ->
  valid s (padd b (h - 1)) = true ->
  valid s (padd b (-1)) = true ->
  alloc_or_not (cells s (padd b (-1))) = true ->
  valid s (padd b h) = true ->
  alloc_or_not (cells s (padd b h)) = true ->
  exists s',
    returnfreeblocktolist b s = Done tt s'
    /\ freelist s' = b
    /\ chain s' b (b :: t ++ [f])
    /\ alloc_or_not (cells s' b) = false
    /\ alloc_or_not (cells s' (padd b (h - 1))) = false
    /\ (forall q, size_of_blk (cells s' q) = size_of_blk (cells s q))
    /\ (forall q, q <> b -> q <> padd b (h - 1) ->
                  alloc_or_not (cells s' q) = alloc_or_not (cells s q)).
Proof.
  intros h f Hc Hnd Hnb Hv Vb Hh Vf Vp Ap Vn An.
  assert (Vfl : valid s f = true) by (apply (Forall_inv Hv)).
  assert (Vaf : valid s (next_free (cells s f)) = true).
  { destruct (chain_next_in _ _ _ _ Hc (or_introl eq_refl)) as [H | H].
    - rewrite Forall_forall in Hv. apply Hv. assumption.
    - rewrite H. assumption. }
  destruct (returnfreeblocktolist_insert_fields s b)
    as (m & Hrun & Hsz & Hal & Hnx & Hpv); try assumption.
  fold h in Hal. fold f in Hnx, Hpv.
  exists (set_cells (set_anchor s b) m).
  split; [exact Hrun |]. split; [reflexivity |]. cbn [cells set_cells].
  assert (Hbf : b <> f) by (intros ->; apply Hnb; left; reflexivity).
  split; [| split; [| split; [| split]]].
  - destruct t as [| y t'].
    + (* the anchor was alone *)
      destruct Hc as [Hn Hp]. cbn [app chain]. rewrite !Hnx, !Hpv, Hn.
      rewrite Z.eqb_refl.
      destruct (Z.eqb_spec b f) as [C | _]; [contradiction |].
      rewrite Z.eqb_refl. auto.
    + destruct Hc as (Hn & Hp & Hc).
      assert (Hyf : y <> f).
      { intros ->. inversion Hnd as [| ? ? Hni _]. apply Hni. left. reflexivity. }
      assert (Hyb : y <> b) by (intros ->; apply Hnb; right; left; reflexivity).
      change (b :: (y :: t') ++ [f]) with (b :: y :: (t' ++ [f])).
      split; [| split].
      * rewrite Hnx, Hn.
        destruct (Z.eqb_spec b f) as [C | _]; [contradiction |].
        rewrite Z.eqb_refl. reflexivity.
      * rewrite Hpv, Hn, Z.eqb_refl. reflexivity.
      * apply (chain_extend s _ b (y :: t') f Hc); cbn [cells set_cells].
        -- intros x Hx. rewrite Hnx.
           destruct (Z.eqb_spec x f) as [-> | _].
           ++ exfalso. inversion Hnd as [| ? ? Hni _]. apply Hni. assumption.
           ++ destruct (Z.eqb_spec x b) as [-> | _]; [| reflexivity].
              exfalso. apply Hnb. right. assumption.
        -- intros x Hx. cbn [tl] in Hx. rewrite Hpv, Hn.
           destruct (Z.eqb_spec x y) as [-> | _].
           ++ exfalso. inversion Hnd as [| ? ? _ Hnd']. inversion Hnd' as [| ? ? Hni _].
              apply Hni. assumption.
           ++ destruct (Z.eqb_spec x b) as [-> | _]; [| reflexivity].
              exfalso. apply Hnb. right. right. assumption.
        -- rewrite Hpv, Hn.
           destruct (Z.eqb_spec f y) as [C | _]; [symmetry in C; contradiction |].
           destruct (Z.eqb_spec f b) as [C | _]; [symmetry in C; contradiction |].
           reflexivity.
        -- rewrite Hnx, Z.eqb_refl. reflexivity.
        -- rewrite Hpv, Hn.
           destruct (Z.eqb_spec b y) as [C | _]; [symmetry in C; contradiction |].
           rewrite Z.eqb_refl. reflexivity.
  - rewrite Hal, Z.eqb_refl. reflexivity.
  - rewrite Hal. destruct (_ =? b); [reflexivity |]. rewrite Z.eqb_refl. reflexivity.
  - exact Hsz.
  - intros q Hq1 Hq2. rewrite Hal.
    destruct (Z.eqb_spec q b) as [C | _]; [contradiction |].
    destruct (Z.eqb_spec q (padd b (h - 1))) as [C | _]; [contradiction |].
    reflexivity.
Qed.

(** X6. Unlinking a member other than the anchor: its neighbours on the list
    are linked to each other, every other member keeps its place, and no size
    or allocation bit changes. *)
Theorem unlink_keeps_list s first pre y post :
  chain s first (pre ++ y :: post) ->
  hd_error pre = Some first ->
  NoDup (pre ++ y :: post) ->
  Forall (fun x => valid s x = true) (pre ++ y :: post) ->
  exists s',
    takefromlist y s = Done tt s'
    /\ chain s' first (pre ++ post)
    /\ freelist s' = freelist s
    /\ (forall q, size_of_blk (cells s' q) = size_of_blk (cells s q)
                  /\ alloc_or_not (cells s' q) = alloc_or_not (cells s q)).
Proof.
  intros Hc Hhd Hnd Hv.
  assert (Hne : pre <> []) by (intros ->; discriminate).
  destruct (chain_at _ _ _ _ _ Hc Hne) as [Hp Hn].
  rewrite Forall_forall in Hv.
  assert (Vy : valid s y = true)
    by (apply Hv, in_or_app; right; left; reflexivity).
  assert (Hfin : In first pre)
    by (destruct pre as [| a p]; [discriminate |]; injection Hhd as ->; left; reflexivity).
  assert (Vb : valid s (last pre y) = true)
    by (apply Hv, in_or_app; left; apply last_in; assumption).
  assert (Va : valid s (hd first post) = true).
  { destruct post as [| z post']; cbn [hd].
    - apply Hv, in_or_app. left. assumption.
    - apply Hv, in_or_app. right. right. left. reflexivity. }
  unfold takefromlist, bind, set_next, set_prev.
  run_load. rewrite Hp, Hn. run_store. stateful. run_store. stateful.
  eexists. split; [reflexivity |]. cbn [cells set_cells freelist].
  split; [| split; [reflexivity |]].
  - apply (chain_remove s _ first pre y post); try assumption;
      cbn [cells set_cells]; intros; autorewrite with fields.
    + destruct pre as [| a p]; [contradiction |]. injection Hhd as ->.
      cbn [tl app]. inversion Hnd; assumption.
    + rewrite Z.eqb_refl. reflexivity.
    + rewrite Z.eqb_refl. reflexivity.
    + destruct (Z.eqb_spec q (last pre y)); [contradiction | reflexivity].
    + destruct (Z.eqb_spec q (hd first post)); [contradiction | reflexivity].
  - intros q. autorewrite with fields. split; reflexivity.
Qed.

(** ** Bootstrap *)

(** [restart] on an empty arena: a leading sentinel of 4 units linked to
    itself, a trailing sentinel of 1 unit, both marked allocated, the anchor
    on the leading sentinel; nothing outside these five units is written. *)
Lemma restart_ok s :
  provider_ok s -> mem_brk s = mem_start_brk s ->
  let lo := mem_start_brk s in
  exists s',
    restart s = Done tt s'
    /\ heap_ok s' [lo]
    /\ mem_start_brk s' = lo /\ mem_max_addr s' = mem_max_addr s
    /\ mem_brk s' = lo + 120 /\ freelist s' = lo /\ errno s' = errno s
    /\ size_of_blk (cells s' lo) = 4 /\ alloc_or_not (cells s' lo) = true
    /\ size_of_blk (cells s' (lo + 72)) = 4
    /\ alloc_or_not (cells s' (lo + 72)) = true
    /\ size_of_blk (cells s' (lo + 96)) = 1
    /\ alloc_or_not (cells s' (lo + 96)) = true
    /\ (forall q, q < lo \/ lo + 120 <= q -> cells s' q = cells s q).
Proof.
  intros (Hlo & Hroom & Hmax & Hcap) Hbrk lo.
  unfold restart. unfold bind at 1, mem_sbrk.
  change (wrap ((blocks + 1) * sizeof_HeadFoot)) with 120.
  rewrite Hbrk. fold lo.
  destruct (Z.leb_spec (lo + 120) (mem_max_addr s)) as [_ | ?]; [| lia].
  destruct (Z.eqb_spec lo NULL) as [E | _]; [unfold NULL in E; lia |].
  set (s0 := set_brk s (lo + 120)).
  unfold bind at 1, mem_heap_lo. cbn [mem_start_brk set_brk s0]. fold lo.
  unfold bind at 1, set_freelist. unfold bind at 1, get_freelist.
  cbn [freelist set_anchor].
  assert (V : forall k, 0 <= k <= 4 -> valid (set_anchor s0 lo) (padd lo k) = true).
  { intros k Hk. apply valid_iff. subst s0. cbn [mem_start_brk mem_brk set_anchor set_brk].
    fold lo. unfold padd, sizeof_HeadFoot.
    replace (lo + k * 24 - lo) with (k * 24) by lia.
    rewrite Z.mod_mul by lia. lia. }
  assert (V0 : valid (set_anchor s0 lo) lo = true).
  { replace lo with (padd lo 0) at 2 by (unfold padd; lia). apply V. lia. }
  assert (V3 : valid (set_anchor s0 lo) (padd lo (blocks - 1)) = true)
    by (apply V; unfold blocks; lia).
  assert (V4 : valid (set_anchor s0 lo) (padd lo blocks) = true)
    by (apply V; unfold blocks; lia).
  unfold set_size, set_alloc, set_next, set_prev.
  do 7 (unfold bind at 1; run_store; stateful).
  run_store. stateful.
  eexists. split; [reflexivity |].
  assert (E3 : padd lo (blocks - 1) = lo + 72) by reflexivity.
  assert (E4 : padd lo blocks = lo + 96) by reflexivity.
  rewrite E3, E4 in *.
  cbn [cells set_cells freelist errno mem_brk mem_start_brk mem_max_addr
       set_anchor set_brk s0].
  split.
  { constructor;
      cbn [cells set_cells freelist errno mem_brk mem_start_brk mem_max_addr
           set_anchor set_brk s0 hd_error]; fold lo; try lia.
    - replace (lo + 120 - lo) with (5 * 24) by lia. apply Z.mod_mul. lia.
    - reflexivity.
    - constructor; [intros [] | constructor].
    - cbn [chain cells set_cells]. autorewrite with fields. addr_eqs. auto.
    - constructor; [| constructor]. unfold node_ok.
      cbn [cells set_cells mem_brk set_anchor set_brk s0].
      split; [exact V0 |]. split; [lia |].
      autorewrite with fields. addr_eqs. discriminate.
    - unfold last_ok. cbn [cells set_cells mem_brk set_anchor set_brk s0].
      replace (lo + 120 - 48) with (lo + 72) by lia.
      autorewrite with fields. addr_eqs. discriminate. }
  fold lo.
  repeat split; try reflexivity; autorewrite with fields; addr_eqs; try reflexivity.
  intros q Hq. unfold upd. addr_eqs. reflexivity.
Qed.

Lemma init_from_scratch s :
  provider_ok s -> freelist s = NULL ->
  exists s',
    mm_init s = Done tt s'
    /\ heap_ok s' [mem_start_brk s]
    /\ mem_brk s' = mem_start_brk s + 120
    /\ freelist s' = mem_start_brk s
    /\ errno s' = errno s.
Proof.
  intros Hp Hf. unfold mm_init, bind, get_freelist. rewrite Hf, Z.eqb_refl.
  unfold mem_init.
  destruct (restart_ok (set_brk s (mem_start_brk s)) Hp eq_refl)
    as (s' & Hrun & Hok & _ & _ & Hb & Hfl & He & _).
  exists s'. cbn [mem_start_brk set_brk] in *. auto.
Qed.

(** X7. [mm_init] on an arena that has no anchor yet bootstraps it: afterwards
    the heap satisfies the invariants, with the leading sentinel as the only
    member of the free list. With an anchor in place it does nothing. *)
Theorem init_bootstraps s :
  provider_ok s ->
  (freelist s = NULL ->
   exists s',
     mm_init s = Done tt s'
     /\ heap_ok s' [mem_start_brk s]
     /\ mem_brk s' = mem_start_brk s + 120
     /\ freelist s' = mem_start_brk s
     /\ errno s' = errno s)
  /\ (freelist s <> NULL -> mm_init s = Done tt s).
Proof.
  intros Hp. split.
  - intros Hf. exact (init_from_scratch s Hp Hf).
  - intros Hf. unfold mm_init, bind, get_freelist.
    destruct (Z.eqb_spec (freelist s) NULL); [contradiction | reflexivity].
Qed.

Lemma init_bootstraps_witness :
  exists s',
    mm_init (pristine 4096 (fun _ => all_ones)) = Done tt s'
    /\ heap_ok s' [65536].
Proof.
  destruct (init_bootstraps (pristine 4096 (fun _ => all_ones))) as [H _].
  - unfold provider_ok. vm_compute. repeat split; intro; discriminate.
  - destruct H as (s' & Hrun & Hok & _); [reflexivity |].
    exists s'. split; assumption.
Defined.

(** X8. [mm_reset] from any state, whatever was allocated: the arena is
    rewound to the five bootstrap units and the heap satisfies the invariants
    again, with an empty free list around the leading sentinel. *)
Theorem reset_rebootstraps s :
  provider_ok s ->
  exists s',
    mm_reset s = Done tt s'
    /\ heap_ok s' [mem_start_brk s]
    /\ mem_brk s' = mem_start_brk s + 120
    /\ freelist s' = mem_start_brk s
    /\ errno s' = errno s.
Proof.
  intros Hp. unfold mm_reset. unfold bind at 1, get_freelist.
  destruct (Z.eqb_spec (freelist s) NULL) as [Hf | Hf].
  - destruct (init_from_scratch s Hp Hf) as (s' & H). exists s'. exact H.
  - unfold bind, mem_reset_brk.
    destruct (restart_ok (set_brk s (mem_start_brk s)) Hp eq_refl)
      as (s' & Hrun & Hok & _ & _ & Hb & Hfl & He & _).
    exists s'. cbn [mem_start_brk set_brk] in *. auto.
Qed.

(** ** What the calls do to the arena *)

Lemma conv_bytes_nonneg k : 0 <= conv_bytes k.
Proof. unfold conv_bytes, wrap. apply Z.mod_pos_bound. lia. Qed.

Section Frame.

Variable R : state -> state -> Prop.
Hypothesis R_refl : forall s, R s s.
Hypothesis R_trans : forall s1 s2 s3, R s1 s2 -> R s2 s3 -> R s1 s3.
Hypothesis R_cells : forall s m, R s (set_cells s m).
Hypothesis R_anchor : forall s f, R s (set_anchor s f).

Lemma respects_ret {A} (a : A) : respects R (ret a).
Proof. intros s a' s' H. injection H as _ <-. apply R_refl. Qed.

Lemma respects_bind {A B} (m : M A) (k : A -> M B) :
  respects R m -> (forall a, respects R (k a)) -> respects R (bind m k).
Proof.
  intros Hm Hk s b s' H. unfold bind in H.
  destruct (m s) as [a s1 | s1 |] eqn:E; try discriminate.
  eapply R_trans; [eapply Hm; eassumption | eapply Hk; eassumption].
Qed.

Lemma respects_load p : respects R (load p).
Proof.
  intros s a s' H. unfold load in H. destruct (valid s p); [| discriminate].
  injection H as _ <-. apply R_refl.
Qed.

Lemma respects_modify p f : respects R (modify p f).
Proof.
  intros s a s' H. unfold modify in H. destruct (valid s p); [| discriminate].
  injection H as _ <-. apply R_cells.
Qed.

Lemma respects_get_freelist : respects R get_freelist.
Proof. intros s a s' H. injection H as _ <-. apply R_refl. Qed.

Lemma respects_set_freelist f : respects R (set_freelist f).
Proof. intros s a s' H. injection H as _ <-. apply R_anchor. Qed.

Lemma respects_heap_lo : respects R mem_heap_lo.
Proof. intros s a s' H. injection H as _ <-. apply R_refl. Qed.

Lemma respects_heap_hi : respects R mem_heap_hi.
Proof. intros s a s' H. injection H as _ <-. apply R_refl. Qed.

Ltac frame_step :=
  first
    [ apply respects_ret | apply respects_load | apply respects_modify
    | apply respects_get_freelist | apply respects_set_freelist
    | apply respects_heap_lo | apply respects_heap_hi
    | apply respects_bind; [| intros ?]
    | match goal with
      | |- respects R (if ?c then _ else _) => destruct c
      | |- respects R (match ?x with _ => _ end) => destruct x
      end ].

Lemma respects_takefromlist head : respects R (takefromlist head).
Proof.
  unfold takefromlist, set_next, set_prev. repeat frame_step.
Qed.

Lemma respects_returnfreeblocktolist b : respects R (returnfreeblocktolist b).
Proof.
  unfold returnfreeblocktolist, set_alloc, set_size, set_next, set_prev.
  repeat first [apply respects_takefromlist | frame_step].
Qed.

Lemma respects_place headc blck : respects R (place headc blck).
Proof.
  unfold place, set_alloc, set_size.
  repeat first [apply respects_takefromlist | frame_step].
Qed.

Lemma respects_allocatedblock fuel allocated :
  respects R (allocatedblock fuel allocated).
Proof.
  intros s a s' H. destruct (allocatedblock_pure _ _ _ _ _ H) as [-> _].
  apply R_refl.
Qed.

Lemma respects_memcpy splice dst src n : respects R (memcpy splice dst src n).
Proof.
  intros s a s' H. unfold memcpy in H.
  destruct (n =? 0); [injection H as _ <-; apply R_refl |].
  match type of H with (if ?c then _ else _) = _ => destruct c end;
    [| discriminate].
  injection H as _ <-. apply R_cells.
Qed.

(** The growth, the loops and the calls, given what [mem_sbrk] and
    [set_errno] do to [R]. *)
Hypothesis R_sbrk : forall incr, 0 <= incr -> respects R (mem_sbrk incr).
Hypothesis R_errno : forall e, respects R (set_errno e).

Ltac calls_step :=
  first
    [ apply respects_takefromlist | apply respects_returnfreeblocktolist
    | apply respects_place | apply respects_allocatedblock
    | apply respects_memcpy | apply R_errno
    | apply R_sbrk; apply conv_bytes_nonneg
    | frame_step ].

Lemma respects_increaseheapsize heads : respects R (increaseheapsize heads).
Proof.
  unfold increaseheapsize, set_alloc, set_size. repeat calls_step.
Qed.

Lemma respects_fit_loop fuel headc :
  forall blck, respects R (fit_loop fuel headc blck).
Proof.
  induction fuel as [| fuel IH]; intros blck.
  - intros s a s' H. discriminate.
  - cbn [fit_loop].
    repeat first [apply IH | apply respects_increaseheapsize | calls_step].
Qed.

Lemma respects_pick_first_fit fuel headc :
  respects R (pick_free_block_from_list_first_fit fuel headc).
Proof.
  unfold pick_free_block_from_list_first_fit.
  repeat first [apply respects_fit_loop | calls_step].
Qed.

Lemma respects_mm_free fuel alloc : respects R (mm_free fuel alloc).
Proof. unfold mm_free. repeat calls_step. Qed.

Lemma respects_mm_malloc fuel n s p s' :
  freelist s <> NULL -> mm_malloc fuel n s = Done p s' -> R s s'.
Proof.
  intros Hf H. unfold mm_malloc in H. unfold bind at 1, get_freelist in H.
  destruct (Z.eqb_spec (freelist s) NULL) as [C | _]; [contradiction |].
  unfold bind at 1, ret at 1 in H.
  refine ((_ : respects R _) s p s' H).
  repeat first [apply respects_pick_first_fit | calls_step].
Qed.

Lemma respects_mm_realloc splice fuel p n s q s' :
  freelist s <> NULL -> mm_realloc splice fuel p n s = Done q s' -> R s s'.
Proof.
  intros Hf H. unfold mm_realloc in H.
  destruct (p =? NULL); [eapply respects_mm_malloc; eassumption |].
  refine ((_ : respects R _) s q s' H).
  repeat first [apply respects_pick_first_fit | calls_step].
Qed.

End Frame.

Lemma arena_le_refl s : arena_le s s.
Proof. unfold arena_le. repeat split; lia. Qed.

Lemma arena_le_trans s1 s2 s3 : arena_le s1 s2 -> arena_le s2 s3 -> arena_le s1 s3.
Proof. unfold arena_le. intros (? & ? & ?) (? & ? & ?). repeat split; lia. Qed.

Lemma arena_le_sbrk incr : 0 <= incr -> respects arena_le (mem_sbrk incr).
Proof.
  intros Hi s a s' H. unfold mem_sbrk in H.
  destruct (mem_brk s + incr <=? mem_max_addr s); injection H as _ <-.
  - unfold arena_le. cbn. repeat split; lia.
  - apply arena_le_refl.
Qed.

Lemma arena_le_errno e : respects arena_le (set_errno e).
Proof.
  intros s a s' H. injection H as _ <-. unfold arena_le. cbn. repeat split; lia.
Qed.

Lemma arena_eq_refl s : arena_eq s s.
Proof. unfold arena_eq. repeat split; lia. Qed.

Lemma arena_eq_trans s1 s2 s3 : arena_eq s1 s2 -> arena_eq s2 s3 -> arena_eq s1 s3.
Proof.
  unfold arena_eq. intros (? & ? & ? & ?) (? & ? & ? & ?). repeat split; lia.
Qed.

(** X9. The arena is never given back. Whenever [mm_malloc] (on a heap that
    has its anchor), [mm_free] or [mm_realloc] returns, the provider's base
    and limit are what they were and the break is where it was or higher. *)
Theorem arena_never_shrinks splice fuel s :
  freelist s <> NULL ->
  (forall n p s', mm_malloc fuel n s = Done p s' -> arena_le s s')
  /\ (forall p s', mm_free fuel p s = Done tt s' -> arena_le s s')
  /\ (forall p n q s', mm_realloc splice fuel p n s = Done q s' -> arena_le s s').
Proof.
  intros Hf.
  assert (Hc : forall s m, arena_le s (set_cells s m))
    by (intros; unfold arena_le; cbn; repeat split; lia).
  assert (Ha : forall s f, arena_le s (set_anchor s f))
    by (intros; unfold arena_le; cbn; repeat split; lia).
  split; [| split].
  - intros n p s' H.
    exact (respects_mm_malloc arena_le arena_le_refl arena_le_trans Hc Ha
             arena_le_sbrk arena_le_errno fuel n s p s' Hf H).
  - intros p s' H.
    exact (respects_mm_free arena_le arena_le_refl arena_le_trans Hc Ha
             arena_le_errno fuel p s tt s' H).
  - intros p n q s' H.
    exact (respects_mm_realloc arena_le arena_le_refl arena_le_trans Hc Ha
             arena_le_sbrk arena_le_errno splice fuel p n s q s' Hf H).
Qed.

Lemma arena_never_shrinks_witness :
  (forall n p s', mm_malloc FUEL n scattered = Done p s' -> arena_le scattered s')
  /\ (forall p s', mm_free FUEL p scattered = Done tt s' -> arena_le scattered s')
  /\ (forall p n q s',
        mm_realloc (fun _ a _ => a) FUEL p n scattered = Done q s' ->
        arena_le scattered s').
Proof.
  apply (arena_never_shrinks (fun _ a _ => a) FUEL scattered).
  vm_compute. intro; discriminate.
Defined.

Lemma anchor_result_bind {A} (m : M A) (k : A -> M Z) :
  (forall x s a s', k x s = Done a s' -> a = freelist s') ->
  forall s a s', bind m k s = Done a s' -> a = freelist s'.
Proof.
  intros Hk s a s' H. unfold bind in H.
  destruct (m s) as [x s1 | s1 |]; try discriminate. eapply Hk. eassumption.
Qed.

(** Whenever a growth returns: refused, it has changed nothing and yields
    null; granted, it has moved the break up by the bytes asked for, left
    base, limit and [errno] alone and yields the anchor. *)
Lemma growth_frame heads s a s' :
  mem_max_addr s < SBRK_FAILED ->
  increaseheapsize heads s = Done a s' ->
  if refused s heads
  then a = NULL /\ s' = s
  else a = freelist s'
       /\ mem_brk s' = mem_brk s + conv_bytes (grow_units heads)
       /\ mem_start_brk s' = mem_start_brk s
       /\ mem_max_addr s' = mem_max_addr s
       /\ errno s' = errno s.
Proof.
  intros Hmax H. rewrite increaseheapsize_eq in H. cbv zeta in H.
  pose proof (conv_bytes_nonneg (grow_units heads)) as Hc.
  unfold bind at 1, mem_sbrk in H. unfold refused.
  destruct (Z.leb_spec (mem_brk s + conv_bytes (grow_units heads))
              (mem_max_addr s)) as [Hg | Hg]; cbn [negb].
  - destruct (Z.eqb_spec (mem_brk s) SBRK_FAILED) as [E | _]; [lia |].
    split.
    + revert H. repeat (apply anchor_result_bind; intros ?).
      intros s1 a1 s2 H. injection H as <- <-. reflexivity.
    + assert (G : arena_eq (set_brk s (mem_brk s + conv_bytes (grow_units heads))) s').
      { refine ((_ : respects arena_eq _) _ a s' H).
        assert (Hcl : forall s m, arena_eq s (set_cells s m))
          by (intros; unfold arena_eq; cbn; repeat split; lia).
        assert (Han : forall s f, arena_eq s (set_anchor s f))
          by (intros; unfold arena_eq; cbn; repeat split; lia).
        unfold set_size, set_alloc.
        repeat first
          [ apply (respects_returnfreeblocktolist arena_eq arena_eq_refl
                     arena_eq_trans Hcl Han)
          | apply (respects_modify arena_eq Hcl)
          | apply (respects_get_freelist arena_eq arena_eq_refl)
          | apply (respects_bind arena_eq arena_eq_trans); [| intros ?] ]. }
      destruct G as (G1 & G2 & G3 & G4). cbn in G1, G2, G3, G4. auto.
  - rewrite Z.eqb_refl in H. injection H as <- <-. auto.
Qed.

(** X10. A growth on a heap that satisfies the invariants, for a request of at
    least one unit whose size in bytes does not wrap around, returns. When the
    provider refuses it, the result is null and nothing has changed. When the
    provider grants it, the break has moved up by exactly the bytes of the
    units asked for - the request, or the 171 units of one page when the
    request is smaller -, base, limit and [errno] are what they were, and the
    result is the new anchor, a free block of at least that many units. *)
Theorem growth_extent s l heads :
  heap_ok s l -> 1 <= heads -> grow_units heads * 24 < 2 ^ 64 ->
  if refused s heads
  then increaseheapsize heads s = Done NULL s
  else exists s',
         increaseheapsize heads s = Done (freelist s') s'
         /\ mem_brk s' = mem_brk s + 24 * grow_units heads
         /\ mem_start_brk s' = mem_start_brk s
         /\ mem_max_addr s' = mem_max_addr s
         /\ errno s' = errno s
         /\ alloc_or_not (cells s' (freelist s')) = false
         /\ grow_units heads <= size_of_blk (cells s' (freelist s')).
Proof.
  intros Hok Hh Hnw.
  destruct (refused s heads) eqn:Href.
  - exact (grow_refused s heads Href).
  - destruct (grow_granted s l heads Hok Hh Hnw Href)
      as (s' & Hrun & _ & _ & Hfree & Hsz & _).
    pose proof (ok_max _ _ Hok) as Hmax.
    pose proof (growth_frame heads s (freelist s') s' Hmax Hrun) as H.
    rewrite Href in H. destruct H as (_ & E1 & E2 & E3 & E4).
    assert (Hcb : conv_bytes (grow_units heads) = 24 * grow_units heads).
    { assert (171 <= grow_units heads)
        by (destruct (grow_units_cases heads); lia).
      unfold conv_bytes, sizeof_HeadFoot. rewrite wrap_small by lia. lia. }
    rewrite Hcb in E1.
    exists s'. repeat split; try assumption. lia.
Qed.

Lemma growth_extent_witness :
  exists s',
    increaseheapsize 4 scattered = Done (freelist s') s'
    /\ mem_brk s' = mem_brk scattered + 4104.
Proof.
  pose proof (growth_extent scattered scattered_list 4) as H.
  assert (E1 : refused scattered 4 = false) by (vm_compute; reflexivity).
  assert (E2 : grow_units 4 = 171) by (vm_compute; reflexivity).
  rewrite E1, E2 in H.
  destruct H as (s' & Hrun & Hbrk & _).
  - exact scattered_heap_ok.
  - vm_compute. intro; discriminate.
  - vm_compute. reflexivity.
  - exists s'. split; [exact Hrun |]. rewrite Hbrk. reflexivity.
Defined.

(** ** Which block placement chooses *)

(** [place] on a member of the free list that fits: the allocated block is
    the high end of the member's block, or all of it. *)
Lemma member_place_top s l r y :
  heap_ok s l -> 1 <= r -> In y l ->
  r <= size_of_blk (cells s y) -> alloc_or_not (cells s y) = false ->
  exists p s',
    place r y s = Done p s'
    /\ y <= p
    /\ alloc_or_not (cells s' p) = true
    /\ r <= size_of_blk (cells s' p)
    /\ padd p (size_of_blk (cells s' p)) = padd y (size_of_blk (cells s y)).
Proof.
  intros Hok Hr Hin Hfit Hfree.
  pose proof (heap_ok_member_valid _ _ _ Hok Hin) as Vy.
  pose proof (heap_ok_next_valid _ _ _ Hok Hin) as Vn.
  pose proof (heap_ok_prev_valid _ _ _ Hok Hin) as Vp.
  pose proof (ok_nodes _ _ Hok) as Hn. rewrite Forall_forall in Hn.
  destruct (Hn y Hin) as (_ & _ & Hblk). destruct (Hblk Hfree) as [H1 Hend].
  pose proof (ok_cap _ _ Hok). pose proof (ok_brk _ _ Hok).
  pose proof (ok_base _ _ Hok).
  assert (Vy' := Vy). apply valid_iff in Vy'.
  set (sz := size_of_blk (cells s y)) in *.
  assert (Vf : valid s (padd y (sz - 1)) = true)
    by (apply valid_padd; [assumption | lia | lia]).
  destruct (Z.le_gt_cases (r + 4) sz) as [Hs | Hs].
  - destruct (place_split s r y) as (m & Hrun & _ & _ & _ & Hsz & Hal & _);
      try assumption; try lia.
    fold sz in Hrun, Hsz, Hal.
    exists (padd y (sz - r)), (set_cells s m). split; [exact Hrun |].
    cbn [cells set_cells]. rewrite Hsz.
    repeat split; try assumption; unfold padd, sizeof_HeadFoot; lia.
  - destruct (place_whole s r y) as (m & Hrun & Hal & _ & Hsz & _);
      try assumption; try lia.
    fold sz in Hrun.
    eexists y, _. split; [exact Hrun |]. cbn [cells set_cells].
    rewrite Hsz. fold sz. repeat split; try assumption; lia.
Qed.

(** X11. First fit. On a heap that satisfies the invariants, placement serves
    a request from the first member of the free list, walking from the anchor,
    that is free and large enough: the block returned is the high end of that
    member's block (or all of it), marked allocated, with at least the units
    asked for. *)
Theorem first_fit_takes_first s l r fuel y :
  heap_ok s l -> 1 <= r -> (length l <= fuel)%nat ->
  find (fits s r) l = Some y ->
  exists p s',
    pick_free_block_from_list_first_fit fuel r s = Done p s'
    /\ y <= p
    /\ alloc_or_not (cells s' p) = true
    /\ r <= size_of_blk (cells s' p)
    /\ padd p (size_of_blk (cells s' p)) = padd y (size_of_blk (cells s y)).
Proof.
  intros Hok Hr Hfuel Hfind.
  destruct (find_fits_some _ _ _ _ Hfind) as (Hin & Hfit & Hfree).
  rewrite (first_fit_found s l r fuel y Hok Hfuel Hfind).
  apply (member_place_top s l); assumption.
Qed.

Lemma first_fit_takes_first_witness :
  exists p s',
    pick_free_block_from_list_first_fit FUEL 20 scattered = Done p s'
    /\ 65632 <= p
    /\ padd p (size_of_blk (cells s' p)) = padd 65632 94.
Proof.
  destruct (first_fit_takes_first scattered scattered_list 20 FUEL 65632)
    as (p & s' & Hrun & Hp & _ & _ & He).
  - exact scattered_heap_ok.
  - vm_compute. intro; discriminate.
  - vm_compute. repeat constructor.
  - vm_compute. reflexivity.
  - exists p, s'. split; [exact Hrun |]. split; [exact Hp |].
    rewrite He. vm_compute. reflexivity.
Defined.

Lemma choose_cases s r best x :
  choose s r best x = best \/ choose s r best x = x.
Proof. unfold choose. destruct (_ && _); auto. Qed.

(** The scan visits the members in order, applies [choose] at each, comes
    round to the anchor and writes nothing. *)
Lemma best_scan_walk s r k :
  forall t x best,
    chain s (freelist s) (x :: t) ->
    ~ In (freelist s) t ->
    Forall (fun y => valid s y = true) (x :: t) ->
    valid s best = true ->
    best_scan (length (x :: t) + k) r x best s
    = Done (freelist s, fold_left (choose s r) (x :: t) best) s.
Proof.
  induction t as [| y t IH]; intros x best Hc Hnf Hv Vb.
  - destruct Hc as [Hn _]. pose proof (Forall_inv Hv) as Hx.
    cbn [length Nat.add best_scan fold_left]. unfold bind at 1.
    rewrite (load_ok _ _ Hx). unfold choose, fits.
    destruct ((r <=? size_of_blk (cells s x)) && negb (alloc_or_not (cells s x))).
    + unfold bind at 1. unfold bind at 1. rewrite (load_ok _ _ Vb). cbn [andb].
      destruct (size_of_blk (cells s x) <? size_of_blk (cells s best));
        unfold ret at 1; unfold bind, get_freelist; rewrite Hn, Z.eqb_refl;
        reflexivity.
    + cbn [andb]. unfold bind at 1, ret at 1. unfold bind, get_freelist.
      rewrite Hn, Z.eqb_refl. reflexivity.
  - destruct Hc as (Hn & _ & Hc).
    pose proof (Forall_inv Hv) as Hx. pose proof (Forall_inv_tail Hv) as Hv'.
    change (length (x :: y :: t) + k)%nat with (S (length (y :: t) + k)).
    assert (Hy : (y =? freelist s) = false).
    { apply Z.eqb_neq. intros ->. apply Hnf. left. reflexivity. }
    assert (Hnf' : ~ In (freelist s) t)
      by (intros H; apply Hnf; right; assumption).
    cbn [best_scan]. unfold bind at 1.
    rewrite (load_ok _ _ Hx).
    change (fold_left (choose s r) (x :: y :: t) best)
      with (fold_left (choose s r) (y :: t) (choose s r best x)).
    unfold choose at 2, fits.
    destruct ((r <=? size_of_blk (cells s x)) && negb (alloc_or_not (cells s x))).
    + unfold bind at 1. unfold bind at 1. rewrite (load_ok _ _ Vb). cbn [andb].
      destruct (size_of_blk (cells s x) <? size_of_blk (cells s best));
        unfold ret at 1; unfold bind at 1, get_freelist; rewrite Hn, Hy;
        apply IH; assumption.
    + cbn [andb]. unfold bind at 1, ret at 1. unfold bind at 1, get_freelist.
      rewrite Hn, Hy. apply IH; assumption.
Qed.

(** What the members [choose] settles on have in common. *)
Lemma fold_choose_spec s r l :
  forall best,
    let c := fold_left (choose s r) l best in
    (c = best \/ (In c l /\ fits s r c = true))
    /\ size_of_blk (cells s c) <= size_of_blk (cells s best)
    /\ (forall x, In x l -> fits s r x = true ->
                  size_of_blk (cells s c) <= size_of_blk (cells s x)).
Proof.
  induction l as [| x t IH]; intros best; cbn [fold_left].
  - cbv zeta. split; [left; reflexivity |]. split; [lia | intros x []].
  - specialize (IH (choose s r best x)). cbv zeta in *.
    set (c := fold_left (choose s r) t (choose s r best x)) in *.
    destruct IH as (Hc & Hle & Hmin).
    assert (Hb : size_of_blk (cells s (choose s r best x))
                 <= size_of_blk (cells s best)).
    { unfold choose. destruct (fits s r x); cbn [andb]; [| lia].
      destruct (Z.ltb_spec (size_of_blk (cells s x)) (size_of_blk (cells s best)));
        lia. }
    assert (Hx : fits s r x = true ->
                 size_of_blk (cells s (choose s r best x))
                 <= size_of_blk (cells s x)).
    { intros Hf. unfold choose. rewrite Hf. cbn [andb].
      destruct (Z.ltb_spec (size_of_blk (cells s x)) (size_of_blk (cells s best)));
        lia. }
    split; [| split].
    + destruct Hc as [Hc | [Hin Hf]].
      * rewrite Hc. unfold choose.
        destruct (fits s r x) eqn:Hf; cbn [andb]; [| left; reflexivity].
        destruct (_ <? _); [| left; reflexivity].
        right. split; [left; reflexivity | assumption].
      * right. split; [right; assumption | assumption].
    + lia.
    + intros z [-> | Hz] Hf; [specialize (Hx Hf); lia | apply Hmin; assumption].
Qed.

Lemma pick_best_fit_eq s l r fuel :
  heap_ok s l -> (length l <= fuel)%nat ->
  pick_free_block_from_list_best_fit fuel r s
  = fit_loop fuel r (fold_left (choose s r) l (freelist s)) s.
Proof.
  intros Hok Hfuel.
  pose proof (ok_anchor _ _ Hok) as Ha. pose proof (ok_nodup _ _ Hok) as Hnd.
  pose proof (ok_chain _ _ Hok) as Hc. pose proof (ok_base _ _ Hok) as Hb.
  pose proof (heap_ok_member_valid _ _ _ Hok (heap_ok_anchor_in _ _ Hok)) as Vf.
  assert (Hv : Forall (fun y => valid s y = true) l).
  { apply Forall_forall. intros x Hx. eapply heap_ok_member_valid; eassumption. }
  destruct l as [| f t]; [discriminate |]. injection Ha as ->.
  assert (Hnz : (freelist s =? NULL) = false).
  { apply Z.eqb_neq. apply valid_iff in Vf. unfold NULL. lia. }
  unfold pick_free_block_from_list_best_fit. unfold bind at 1, get_freelist.
  rewrite Hnz. cbn [negb]. unfold bind at 1.
  replace fuel with (length (freelist s :: t) + (fuel - length (freelist s :: t)))%nat
    at 1 by lia.
  rewrite best_scan_walk; try assumption.
  - cbn [fst snd]. rewrite Hnz, andb_false_r. reflexivity.
  - inversion Hnd; assumption.
Qed.

(** X12. Best fit, when the anchor itself is free and large enough: the
    request is served from a member of the free list that fits and is no
    larger than any other member that fits. *)
Theorem best_fit_when_anchor_fits s l r fuel :
  heap_ok s l -> 1 <= r -> (length l <= fuel)%nat -> (1 <= fuel)%nat ->
  fits s r (freelist s) = true ->
  exists y p s',
    In y l /\ fits s r y = true
    /\ (forall x, In x l -> fits s r x = true ->
                  size_of_blk (cells s y) <= size_of_blk (cells s x))
    /\ pick_free_block_from_list_best_fit fuel r s = Done p s'
    /\ y <= p
    /\ alloc_or_not (cells s' p) = true
    /\ r <= size_of_blk (cells s' p)
    /\ padd p (size_of_blk (cells s' p)) = padd y (size_of_blk (cells s y)).
Proof.
  intros Hok Hr Hfuel Hf1 Hfit.
  pose proof (heap_ok_anchor_in _ _ Hok) as Hfin.
  destruct (fold_choose_spec s r l (freelist s)) as (Hc & _ & Hmin).
  set (y := fold_left (choose s r) l (freelist s)) in *.
  assert (Hy : In y l /\ fits s r y = true).
  { destruct Hc as [-> | H]; [split; assumption | exact H]. }
  destruct Hy as [Hin Hfy].
  assert (Hfy' := Hfy). unfold fits in Hfy'. apply andb_true_iff in Hfy'.
  destruct Hfy' as [H1 H2]. apply Z.leb_le in H1. apply negb_true_iff in H2.
  destruct (member_place_top s l r y Hok Hr Hin H1 H2)
    as (p & s' & Hpl & Hp & Hal & Hsz & He).
  exists y, p, s'. repeat split; try assumption.
  rewrite (pick_best_fit_eq s l r fuel Hok Hfuel). fold y.
  destruct fuel as [| fuel']; [lia |].
  cbn [fit_loop]. unfold bind at 1.
  rewrite (load_ok _ _ (heap_ok_member_valid _ _ _ Hok Hin)).
  fold (fits s r y). rewrite Hfy. exact Hpl.
Qed.

(** X13. Best fit, when the anchor has no more units than the request (the
    leading sentinel as anchor, or a free anchor that is too small or just
    fits): the scan settles on the anchor, and the function does exactly what
    first fit does. *)
Theorem best_fit_is_first_fit s l r fuel :
  heap_ok s l -> (length l <= fuel)%nat ->
  size_of_blk (cells s (freelist s)) <= r ->
  pick_free_block_from_list_best_fit fuel r s
  = pick_free_block_from_list_first_fit fuel r s.
Proof.
  intros Hok Hfuel Hsmall.
  rewrite (pick_best_fit_eq s l r fuel Hok Hfuel).
  unfold pick_free_block_from_list_first_fit, bind, get_freelist.
  f_equal.
  assert (G : forall t best,
             size_of_blk (cells s best) <= r ->
             fold_left (choose s r) t best = best).
  { induction t as [| x t IH]; intros best Hb; [reflexivity |].
    cbn [fold_left].
    assert (E : choose s r best x = best).
    { unfold choose, fits.
      destruct (Z.leb_spec r (size_of_blk (cells s x))); cbn [andb];
        [| reflexivity].
      destruct (Z.ltb_spec (size_of_blk (cells s x)) (size_of_blk (cells s best)));
        [lia |]. rewrite andb_false_r. reflexivity. }
    rewrite E. apply IH. assumption. }
  f_equal. apply G. assumption.
Qed.

(** ** Identification along the blocks of the arena *)

Lemma tiles_member s l :
  forall b x, tiles s b l -> In x l -> b <= x /\ valid s x = true.
Proof.
  induction l as [| a t IH]; intros b x Ht Hin; [destruct Hin |].
  destruct Ht as (-> & V & Hsz & Ht). destruct Hin as [<- | Hin].
  - split; [lia | assumption].
  - destruct (IH _ _ Ht Hin) as [Hle Hv]. split; [| assumption].
    unfold padd, sizeof_HeadFoot in Hle. lia.
Qed.

(** The walk of lines 415-417 stops on the block whose units hold the
    pointer. *)
Lemma block_walk_tiles s p b post k :
  b <= p < padd b (size_of_blk (cells s b)) ->
  forall pre bl,
    tiles s bl (pre ++ b :: post) ->
    block_walk (length pre + S k) p bl
      (padd bl (size_of_blk (cells s bl))) s
    = Done b s.
Proof.
  intros Hp. induction pre as [| x pre IH]; intros bl Ht.
  - cbn [app] in Ht. destruct Ht as (-> & _).
    cbn [length Nat.add block_walk].
    destruct (Z.leb_spec (padd bl (size_of_blk (cells s bl))) p); [lia |].
    reflexivity.
  - cbn [app] in Ht. destruct Ht as (-> & V & Hsz & Ht).
    cbn [length Nat.add block_walk].
    set (nx := padd bl (size_of_blk (cells s bl))) in *.
    assert (Hin : In b (pre ++ b :: post))
      by (apply in_or_app; right; left; reflexivity).
    destruct (tiles_member _ _ _ _ Ht Hin) as [Hle _].
    destruct (Z.leb_spec nx p) as [_ | ?]; [| lia].
    assert (Vn : valid s nx = true).
    { destruct pre as [| x2 pre']; cbn [app] in Ht;
        destruct Ht as (_ & V' & _); assumption. }
    unfold bind. rewrite (load_ok _ _ Vn).
    exact (IH nx Ht).
Qed.

(** Identification of a pointer that lies in the units of a block: the
    header of that block when it is marked allocated, null when it is
    not. *)
Lemma allocatedblock_tiles s pre b post p fuel :
  0 < mem_start_brk s ->
  tiles s (mem_start_brk s) (pre ++ b :: post) ->
  b <= p < padd b (size_of_blk (cells s b)) ->
  mem_start_brk s < p < mem_brk s - 1 ->
  (length pre + 1 <= fuel)%nat ->
  allocatedblock fuel p s
  = Done (if alloc_or_not (cells s b) then b else NULL) s.
Proof.
  intros Hbase Ht Hp Hb Hfuel.
  assert (Hin : In b (pre ++ b :: post))
    by (apply in_or_app; right; left; reflexivity).
  destruct (tiles_member _ _ _ _ Ht Hin) as [Hle Vb].
  assert (Vlo : valid s (mem_start_brk s) = true).
  { destruct pre as [| x pre']; cbn [app] in Ht;
      destruct Ht as (_ & V' & _); assumption. }
  unfold allocatedblock. unfold bind at 1, mem_heap_lo at 1.
  unfold bind at 1, mem_heap_hi.
  destruct (Z.leb_spec p (mem_start_brk s)); [lia |].
  destruct (Z.geb_spec p (mem_brk s - 1)); [lia |].
  destruct (Z.eqb_spec p NULL) as [E | _];
    [unfold NULL in E; lia |].
  cbn [orb]. unfold bind at 1. rewrite fast_path_never.
  unfold bind at 1, mem_heap_lo. unfold bind at 1. rewrite (load_ok _ _ Vlo).
  pose proof (block_walk_tiles s p b post (fuel - length pre - 1) Hp pre _ Ht) as Hw.
  replace (length pre + S (fuel - length pre - 1))%nat with fuel in Hw by lia.
  unfold bind at 1. rewrite Hw.
  unfold bind. rewrite (load_ok _ _ Vb).
  destruct (alloc_or_not (cells s b)); reflexivity.
Qed.

(** X14. A pointer anywhere in the units of an allocated block - its header
    unit, its payload, its footer - identifies that block: [mm_free] releases
    the whole block. *)
Theorem free_accepts_interior_pointer s pre b post p fuel :
  0 < mem_start_brk s ->
  tiles s (mem_start_brk s) (pre ++ b :: post) ->
  b <= p < padd b (size_of_blk (cells s b)) ->
  mem_start_brk s < p < mem_brk s - 1 ->
  (length pre + 1 <= fuel)%nat ->
  alloc_or_not (cells s b) = true ->
  allocatedblock fuel p s = Done b s
  /\ mm_free fuel p s = returnfreeblocktolist b s.
Proof.
  intros Hbase Ht Hp Hb Hfuel Hal.
  pose proof (allocatedblock_tiles s pre b post p fuel Hbase Ht Hp Hb Hfuel) as Hid.
  rewrite Hal in Hid. split; [exact Hid |].
  assert (Hin : In b (pre ++ b :: post))
    by (apply in_or_app; right; left; reflexivity).
  destruct (tiles_member _ _ _ _ Ht Hin) as [Hle Vb].
  assert (V0 : valid s (mem_start_brk s) = true).
  { destruct pre as [| x pre']; cbn [app] in Ht; destruct Ht as (_ & V' & _);
      assumption. }
  apply valid_iff in V0.
  unfold mm_free.
  destruct (Z.eqb_spec p NULL) as [E | _]; [unfold NULL in E; lia |].
  cbn [negb]. unfold bind. rewrite Hid.
  destruct (Z.eqb_spec b NULL) as [E | _]; [unfold NULL in E; lia |].
  reflexivity.
Qed.

(** X15. A pointer into a block whose header says free - a block released
    before, or never handed out - is refused: [mm_free] sets [errno] to
    [EFAULT] and [mm_realloc] returns null with [EFAULT]; nothing else
    changes. *)
Theorem free_block_pointer_refused splice s pre b post p n fuel :
  0 < mem_start_brk s ->
  tiles s (mem_start_brk s) (pre ++ b :: post) ->
  b <= p < padd b (size_of_blk (cells s b)) ->
  mem_start_brk s < p < mem_brk s - 1 ->
  (length pre + 1 <= fuel)%nat ->
  alloc_or_not (cells s b) = false ->
  mm_free fuel p s = Done tt (set_err s EFAULT)
  /\ mm_realloc splice fuel p n s = Done NULL (set_err s EFAULT).
Proof.
  intros Hbase Ht Hp Hb Hfuel Hal.
  pose proof (allocatedblock_tiles s pre b post p fuel Hbase Ht Hp Hb Hfuel) as Hid.
  rewrite Hal in Hid.
  assert (V0 : valid s (mem_start_brk s) = true).
  { destruct pre as [| x pre']; cbn [app] in Ht; destruct Ht as (_ & V' & _);
      assumption. }
  apply valid_iff in V0.
  unfold mm_free, mm_realloc.
  destruct (Z.eqb_spec p NULL) as [E | _]; [unfold NULL in E; lia |].
  cbn [negb]. unfold bind. rewrite Hid. cbn. split; reflexivity.
Qed.

(** ** Coalescing on release *)

(** Lines 180-195 when the lower neighbour is allocated: the block is linked
    in behind the anchor and becomes the anchor; what is left to run is the
    merge with the upper neighbour. *)
Lemma release_front_insert s b :
  let h := size_of_blk (cells s b) in
  let f := freelist s in
  let after := next_free (cells s f) in
  valid s b = true -> 1 <= h < 2 ^ 31 ->
  valid s (padd b (h - 1)) = true ->
  valid s (padd b (-1)) = true ->
  alloc_or_not (cells s (padd b (-1))) = true ->
  valid s f = true ->
  valid s after = true ->
  exists m,
    returnfreeblocktolist b s = merge_upper b h (set_cells (set_anchor s b) m)
    /\ (forall q, size_of_blk (m q) = size_of_blk (cells s q))
    /\ (forall q, alloc_or_not (m q)
                  = if q =? b then false
                    else if q =? padd b (h - 1) then false
                         else alloc_or_not (cells s q))
    /\ (forall q, next_free (m q)
                  = if q =? f then b
                    else if q =? b then after else next_free (cells s q))
    /\ (forall q, previous_free (m q)
                  = if q =? after then b
                    else if q =? b then f else previous_free (cells s q)).
Proof.
  intros h f after Vb Hh Vf Vp Ap Vfl Vnx.
  assert (Hw : wrap (h - 1) = h - 1) by (apply wrap_small; lia).
  unfold returnfreeblocktolist, set_alloc, set_prev, set_next.
  unfold bind at 1. run_load. fold h. rewrite Hw.
  unfold bind at 1. run_store. stateful.
  unfold bind at 1. run_store. stateful.
  unfold bind at 1. run_load. stateful.
  autorewrite with fields.
  replace (padd b (-1) =? b) with false
    by (symmetry; apply Z.eqb_neq; unfold padd, sizeof_HeadFoot; lia).
  replace (padd b (-1) =? padd b (h - 1)) with false
    by (symmetry; apply Z.eqb_neq; unfold padd, sizeof_HeadFoot; lia).
  rewrite Ap. cbn [negb].
  unfold bind at 1. unfold bind at 1. unfold get_freelist at 1. stateful. fold f.
  unfold bind at 1. run_load. stateful. autorewrite with fields. fold after.
  do 4 (unfold bind at 1; run_store; stateful).
  unfold ret at 1. stateful.
  unfold bind at 1. unfold set_freelist at 1. stateful.
  eexists. split; [reflexivity |].
  repeat split; intros; autorewrite with fields; reflexivity.
Qed.

(** Lines 180-195 when the footer below the block says free: the block is
    added to the block that ends there, which becomes the anchor; no link
    is written. *)
Lemma release_front_merge s b :
  let h := size_of_blk (cells s b) in
  let sp := size_of_blk (cells s (padd b (-1))) in
  let low := padd b (- sp) in
  valid s b = true -> 1 <= h ->
  valid s (padd b (h - 1)) = true ->
  valid s (padd b (-1)) = true ->
  alloc_or_not (cells s (padd b (-1))) = false ->
  1 <= sp -> valid s low = true ->
  size_of_blk (cells s low) = sp ->
  h + sp < 2 ^ 31 ->
  exists m,
    returnfreeblocktolist b s
    = merge_upper low (h + sp) (set_cells (set_anchor s low) m)
    /\ (forall q, size_of_blk (m q)
                  = if q =? low then h + sp
                    else if q =? padd b (h - 1) then h + sp
                         else size_of_blk (cells s q))
    /\ (forall q, alloc_or_not (m q)
                  = if q =? b then false
                    else if q =? padd b (h - 1) then false
                         else alloc_or_not (cells s q))
    /\ (forall q, next_free (m q) = next_free (cells s q))
    /\ (forall q, previous_free (m q) = previous_free (cells s q)).
Proof.
  intros h sp low Vb Hh Vf Vp Ap Hsp Vl Hsl H31.
  assert (Hw : wrap (h - 1) = h - 1) by (apply wrap_small; lia).
  assert (Hw2 : wrap (h + sp) = h + sp) by (apply wrap_small; lia).
  assert (Hw3 : wrap (h + sp - 1) = h + sp - 1) by (apply wrap_small; lia).
  assert (Ht : trunc31 (h + sp) = h + sp) by (apply trunc31_small; lia).
  assert (E1 : padd low (h + sp - 1) = padd b (h - 1))
    by (unfold low, padd, sizeof_HeadFoot; lia).
  assert (N1 : (padd b (-1) =? b) = false)
    by (apply Z.eqb_neq; unfold padd, sizeof_HeadFoot; lia).
  assert (N2 : (padd b (-1) =? padd b (h - 1)) = false)
    by (apply Z.eqb_neq; unfold padd, sizeof_HeadFoot; lia).
  assert (N3 : (low =? b) = false)
    by (apply Z.eqb_neq; unfold low, padd, sizeof_HeadFoot; lia).
  assert (N4 : (low =? padd b (h - 1)) = false)
    by (apply Z.eqb_neq; unfold low, padd, sizeof_HeadFoot; lia).
  unfold returnfreeblocktolist, set_alloc, set_size.
  unfold bind at 1. run_load. fold h. rewrite Hw.
  unfold bind at 1. run_store. stateful.
  unfold bind at 1. run_store. stateful.
  unfold bind at 1. run_load. stateful.
  autorewrite with fields. rewrite N1, N2, Ap. cbn [negb]. fold sp. fold low.
  unfold bind at 1. unfold bind at 1. run_load. stateful.
  autorewrite with fields. rewrite Hsl, Hw2, Hw3, E1.
  do 2 (unfold bind at 1; run_store; stateful).
  unfold ret at 1. stateful.
  unfold bind at 1. unfold set_freelist at 1. stateful.
  eexists. split; [reflexivity |].
  repeat split; intros; autorewrite with fields; rewrite ?Ht; reflexivity.
Qed.

(** Nothing is merged from above when the unit after the block is marked
    allocated. *)
Lemma merge_upper_skip s x k :
  valid s (padd x k) = true ->
  alloc_or_not (cells s (padd x k)) = true ->
  merge_upper x k s = Done tt s.
Proof.
  intros V A. unfold merge_upper, bind. run_load. rewrite A. reflexivity.
Qed.

(** Taking a member other than the first out of a chain, with the state that
    results. *)
Lemma takefromlist_chain s first pre y post :
  chain s first (pre ++ y :: post) ->
  hd_error pre = Some first ->
  NoDup (pre ++ y :: post) ->
  Forall (fun x => valid s x = true) (pre ++ y :: post) ->
  exists m,
    takefromlist y s = Done tt (set_cells s m)
    /\ chain (set_cells s m) first (pre ++ post)
    /\ (forall q, size_of_blk (m q) = size_of_blk (cells s q)
                  /\ alloc_or_not (m q) = alloc_or_not (cells s q)).
Proof.
  intros Hc Hhd Hnd Hv.
  assert (Hne : pre <> []) by (intros ->; discriminate).
  destruct (chain_at _ _ _ _ _ Hc Hne) as [Hp Hn].
  rewrite Forall_forall in Hv.
  assert (Vy : valid s y = true)
    by (apply Hv, in_or_app; right; left; reflexivity).
  assert (Hfin : In first pre)
    by (destruct pre as [| a p]; [discriminate |]; injection Hhd as ->; left; reflexivity).
  assert (Vb : valid s (last pre y) = true)
    by (apply Hv, in_or_app; left; apply last_in; assumption).
  assert (Va : valid s (hd first post) = true).
  { destruct post as [| z post']; cbn [hd].
    - apply Hv, in_or_app. left. assumption.
    - apply Hv, in_or_app. right. right. left. reflexivity. }
  unfold takefromlist, bind, set_next, set_prev.
  run_load. rewrite Hp, Hn. run_store. stateful. run_store. stateful.
  eexists. split; [reflexivity |]. cbn [cells set_cells freelist].
  split.
  - apply (chain_remove s _ first pre y post); try assumption;
      cbn [cells set_cells]; intros; autorewrite with fields.
    + destruct pre as [| a p]; [contradiction |]. injection Hhd as ->.
      cbn [tl app]. inversion Hnd; assumption.
    + rewrite Z.eqb_refl. reflexivity.
    + rewrite Z.eqb_refl. reflexivity.
    + destruct (Z.eqb_spec q (last pre y)); [contradiction | reflexivity].
    + destruct (Z.eqb_spec q (hd first post)); [contradiction | reflexivity].
  - intros q. autorewrite with fields. split; reflexivity.
Qed.

(** The merge with a free upper neighbour [u] that is a member of the list
    other than its first: [u] is unlinked, its units are added to the block,
    whose header and whose footer - the footer [u] had - take the sum. *)
Lemma merge_upper_unlinks s x k first pre post :
  let u := padd x k in
  let su := size_of_blk (cells s u) in
  chain s first (pre ++ u :: post) ->
  hd_error pre = Some first ->
  NoDup (pre ++ u :: post) ->
  Forall (fun y => valid s y = true) (pre ++ u :: post) ->
  alloc_or_not (cells s u) = false ->
  valid s x = true -> valid s (padd u (su - 1)) = true ->
  1 <= k -> 1 <= su -> k + su < 2 ^ 31 ->
  exists m,
    merge_upper x k s = Done tt (set_cells s m)
    /\ chain (set_cells s m) first (pre ++ post)
    /\ (forall q, size_of_blk (m q)
                  = if q =? x then k + su
                    else if q =? padd u (su - 1) then k + su
                         else size_of_blk (cells s q))
    /\ (forall q, alloc_or_not (m q) = alloc_or_not (cells s q)).
Proof.
  intros u su Hc Hhd Hnd Hv Au Vx Vft Hk Hsu H31.
  assert (Vu : valid s u = true).
  { rewrite Forall_forall in Hv. apply Hv, in_or_app. right. left. reflexivity. }
  assert (Hw2 : wrap (k + su) = k + su) by (apply wrap_small; lia).
  assert (Hw3 : wrap (k + su - 1) = k + su - 1) by (apply wrap_small; lia).
  assert (Ht : trunc31 (k + su) = k + su) by (apply trunc31_small; lia).
  assert (E1 : padd x (k + su - 1) = padd u (su - 1))
    by (unfold u, padd, sizeof_HeadFoot; lia).
  destruct (takefromlist_chain s first pre u post Hc Hhd Hnd Hv)
    as (m1 & Hrun & Hch & Hsame).
  unfold merge_upper. fold u. unfold bind at 1. run_load. rewrite Au. cbn [negb].
  unfold bind at 1. rewrite Hrun.
  unfold bind at 1. run_load. stateful.
  rewrite (proj1 (Hsame u)). fold su. rewrite Hw2, Hw3, E1.
  unfold set_size. unfold bind at 1. run_store. stateful. run_store. stateful.
  eexists. split; [reflexivity |].
  split; [| split].
  - apply (chain_ext (set_cells s m1)); [exact Hch | | |];
      intros; cbn [cells set_cells]; autorewrite with fields; reflexivity.
  - intros q. autorewrite with fields. rewrite Ht, (proj1 (Hsame q)). reflexivity.
  - intros q. autorewrite with fields. apply Hsame.
Qed.

(** The chain after a block [b] has been linked in behind the anchor [f]
    and made the anchor. *)
Lemma chain_insert s s' b t :
  let f := freelist s in
  chain s f (f :: t) -> NoDup (f :: t) -> ~ In b (f :: t) ->
  (forall q, next_free (cells s' q)
             = if q =? f then b
               else if q =? b then next_free (cells s f)
                    else next_free (cells s q)) ->
  (forall q, previous_free (cells s' q)
             = if q =? next_free (cells s f) then b
               else if q =? b then f else previous_free (cells s q)) ->
  chain s' b (b :: t ++ [f]).
Proof.
  intros f Hc Hnd Hnb Hnx Hpv.
  assert (Hbf : b <> f) by (intros ->; apply Hnb; left; reflexivity).
  destruct t as [| y t'].
  - destruct Hc as [Hn Hp]. cbn [app chain]. rewrite !Hnx, !Hpv, Hn.
    rewrite Z.eqb_refl.
    destruct (Z.eqb_spec b f) as [C | _]; [contradiction |].
    rewrite Z.eqb_refl. auto.
  - destruct Hc as (Hn & Hp & Hc).
    assert (Hyf : y <> f).
    { intros ->. inversion Hnd as [| ? ? Hni _]. apply Hni. left. reflexivity. }
    assert (Hyb : y <> b) by (intros ->; apply Hnb; right; left; reflexivity).
    change (b :: (y :: t') ++ [f]) with (b :: y :: (t' ++ [f])).
    split; [| split].
    + rewrite Hnx, Hn.
      destruct (Z.eqb_spec b f) as [C | _]; [contradiction |].
      rewrite Z.eqb_refl. reflexivity.
    + rewrite Hpv, Hn, Z.eqb_refl. reflexivity.
    + apply (chain_extend s _ b (y :: t') f Hc).
      * intros x Hx. rewrite Hnx.
        destruct (Z.eqb_spec x f) as [-> | _].
        -- exfalso. inversion Hnd as [| ? ? Hni _]. apply Hni. assumption.
        -- destruct (Z.eqb_spec x b) as [-> | _]; [| reflexivity].
           exfalso. apply Hnb. right. assumption.
      * intros x Hx. cbn [tl] in Hx. rewrite Hpv, Hn.
        destruct (Z.eqb_spec x y) as [-> | _].
        -- exfalso. inversion Hnd as [| ? ? _ Hnd']. inversion Hnd' as [| ? ? Hni _].
           apply Hni. assumption.
        -- destruct (Z.eqb_spec x b) as [-> | _]; [| reflexivity].
           exfalso. apply Hnb. right. right. assumption.
      * rewrite Hpv, Hn.
        destruct (Z.eqb_spec f y) as [C | _]; [symmetry in C; contradiction |].
        destruct (Z.eqb_spec f b) as [C | _]; [symmetry in C; contradiction |].
        reflexivity.
      * rewrite Hnx, Z.eqb_refl. reflexivity.
      * rewrite Hpv, Hn.
        destruct (Z.eqb_spec b y) as [C | _]; [symmetry in C; contradiction |].
        rewrite Z.eqb_refl. reflexivity.
Qed.

Lemma nodup_snoc (t : list Z) f : NoDup (f :: t) -> NoDup (t ++ [f]).
Proof.
  intros H. apply NoDup_cons_iff in H. destruct H as [Hni Hnd].
  induction t as [| x t IH]; cbn [app].
  - constructor; [intros [] | constructor].
  - apply NoDup_cons_iff in Hnd. destruct Hnd as [Hx Hnd]. constructor.
    + intros Hin. apply in_app_or in Hin. destruct Hin as [Hin | [<- | []]].
      * contradiction.
      * apply Hni. left. reflexivity.
    + apply IH; [| assumption]. intros Hin. apply Hni. right. assumption.
Qed.

(** X16. Releasing a block whose lower neighbour is free and whose upper
    neighbour is allocated: the lower block takes the units of the released
    one - its header and the footer of the released block carry the sum - and
    becomes the anchor. No link is written, so the free list is the one
    before, and the released block never becomes a member of its own. *)
Theorem release_merges_with_lower s b :
  let h := size_of_blk (cells s b) in
  let sp := size_of_blk (cells s (padd b (-1))) in
  let low := padd b (- sp) in
  valid s b = true -> 1 <= h ->
  valid s (padd b (h - 1)) = true ->
  valid s (padd b (-1)) = true ->
  alloc_or_not (cells s (padd b (-1))) = false ->
  1 <= sp -> valid s low = true ->
  size_of_blk (cells s low) = sp ->
  h + sp < 2 ^ 31 ->
  valid s (padd b h) = true ->
  alloc_or_not (cells s (padd b h)) = true ->
  exists s',
    returnfreeblocktolist b s = Done tt s'
    /\ freelist s' = low
    /\ size_of_blk (cells s' low) = h + sp
    /\ size_of_blk (cells s' (padd low (h + sp - 1))) = h + sp
    /\ alloc_or_not (cells s' (padd low (h + sp - 1))) = false
    /\ alloc_or_not (cells s' low) = alloc_or_not (cells s low)
    /\ (forall first l, chain s first l -> chain s' first l)
    /\ (forall q, q <> low -> q <> padd b (h - 1) ->
                  size_of_blk (cells s' q) = size_of_blk (cells s q))
    /\ (forall q, q <> b -> q <> padd b (h - 1) ->
                  alloc_or_not (cells s' q) = alloc_or_not (cells s q)).
Proof.
  intros h sp low Vb Hh Vf Vp Ap Hsp Vl Hsl H31 Vn An.
  destruct (release_front_merge s b) as (m & Hrun & Hsz & Hal & Hnx & Hpv);
    try assumption.
  fold h sp low in Hrun, Hsz, Hal.
  assert (E1 : padd low (h + sp - 1) = padd b (h - 1))
    by (unfold low, padd, sizeof_HeadFoot; lia).
  assert (E2 : padd low (h + sp) = padd b h)
    by (unfold low, padd, sizeof_HeadFoot; lia).
  assert (N3 : low <> b) by (unfold low, padd, sizeof_HeadFoot; lia).
  assert (N4 : low <> padd b (h - 1)) by (unfold low, padd, sizeof_HeadFoot; lia).
  assert (N5 : padd b h <> b) by (unfold padd, sizeof_HeadFoot; lia).
  assert (N6 : padd b h <> padd b (h - 1)) by (unfold padd, sizeof_HeadFoot; lia).
  rewrite merge_upper_skip in Hrun.
  - exists (set_cells (set_anchor s low) m).
    split; [exact Hrun |]. split; [reflexivity |]. cbn [cells set_cells].
    rewrite E1, !Hsz, !Hal, !Z.eqb_refl.
    destruct (Z.eqb_spec low b) as [C | _]; [contradiction |].
    destruct (Z.eqb_spec low (padd b (h - 1))) as [C | _]; [contradiction |].
    destruct (Z.eqb_spec (padd b (h - 1)) low) as [C | _];
      [symmetry in C; contradiction |].
    destruct (Z.eqb_spec (padd b (h - 1)) b) as [C | _];
      repeat split; try reflexivity.
    + intros first l Hc. apply (chain_ext s); try assumption; intros;
        cbn [cells set_cells]; auto.
    + intros q Hq1 Hq2. rewrite Hsz.
      destruct (Z.eqb_spec q low); [contradiction |].
      destruct (Z.eqb_spec q (padd b (h - 1))); [contradiction | reflexivity].
    + intros q Hq1 Hq2. rewrite Hal.
      destruct (Z.eqb_spec q b); [contradiction |].
      destruct (Z.eqb_spec q (padd b (h - 1))); [contradiction | reflexivity].
    + intros first l Hc. apply (chain_ext s); try assumption; intros;
        cbn [cells set_cells]; auto.
    + intros q Hq1 Hq2. rewrite Hsz.
      destruct (Z.eqb_spec q low); [contradiction |].
      destruct (Z.eqb_spec q (padd b (h - 1))); [contradiction | reflexivity].
    + intros q Hq1 Hq2. rewrite Hal.
      destruct (Z.eqb_spec q b); [contradiction |].
      destruct (Z.eqb_spec q (padd b (h - 1))); [contradiction | reflexivity].
  - rewrite E2. exact Vn.
  - rewrite E2. cbn [cells set_cells]. rewrite Hal.
    destruct (Z.eqb_spec (padd b h) b); [contradiction |].
    destruct (Z.eqb_spec (padd b h) (padd b (h - 1))); [contradiction | exact An].
Qed.

(** X17. Releasing a block whose lower neighbour is allocated and whose upper
    neighbour [u] is a free member of the list: the released block becomes the
    anchor, takes the units of [u] - its header and the footer [u] had carry
    the sum - and [u] leaves the list; the other members keep their order
    behind the new anchor. *)
Theorem release_merges_with_upper s b t pre post :
  let h := size_of_blk (cells s b) in
  let f := freelist s in
  let u := padd b h in
  let su := size_of_blk (cells s u) in
  chain s f (f :: t) -> NoDup (f :: t) -> ~ In b (f :: t) ->
  Forall (fun x => valid s x = true) (f :: t) ->
  t ++ [f] = pre ++ u :: post ->
  valid s b = true -> 1 <= h ->
  valid s (padd b (h - 1)) = true ->
  valid s (padd b (-1)) = true ->
  alloc_or_not (cells s (padd b (-1))) = true ->
  alloc_or_not (cells s u) = false ->
  1 <= su -> h + su < 2 ^ 31 ->
  valid s (padd u (su - 1)) = true ->
  exists s',
    returnfreeblocktolist b s = Done tt s'
    /\ freelist s' = b
    /\ chain s' b (b :: pre ++ post)
    /\ size_of_blk (cells s' b) = h + su
    /\ size_of_blk (cells s' (padd b (h + su - 1))) = h + su
    /\ alloc_or_not (cells s' b) = false
    /\ (forall q, q <> b -> q <> padd b (h + su - 1) ->
                  size_of_blk (cells s' q) = size_of_blk (cells s q))
    /\ (forall q, q <> b -> q <> padd b (h - 1) ->
                  alloc_or_not (cells s' q) = alloc_or_not (cells s q)).
Proof.
  intros h f u su Hc Hnd Hnb Hv Hsplit Vb Hh Vf Vp Ap Au Hsu H31 Vfu.
  assert (Vfl : valid s f = true) by (apply (Forall_inv Hv)).
  assert (Vaf : valid s (next_free (cells s f)) = true).
  { destruct (chain_next_in _ _ _ _ Hc (or_introl eq_refl)) as [H | H].
    - rewrite Forall_forall in Hv. apply Hv. assumption.
    - rewrite H. assumption. }
  destruct (release_front_insert s b) as (m & Hrun & Hsz & Hal & Hnx & Hpv);
    try assumption; [fold h; lia |].
  fold h in Hrun, Hal. fold f in Hnx, Hpv.
  set (s1 := set_cells (set_anchor s b) m) in *.
  assert (Hc1 : chain s1 b ((b :: pre) ++ u :: post)).
  { cbn [app]. rewrite <- Hsplit.
    apply (chain_insert s s1 b t Hc Hnd Hnb); assumption. }
  assert (Hnd1 : NoDup ((b :: pre) ++ u :: post)).
  { cbn [app]. rewrite <- Hsplit. constructor.
    - intros Hin. apply in_app_or in Hin. destruct Hin as [Hin | [<- | []]].
      + apply Hnb. right. assumption.
      + apply Hnb. left. reflexivity.
    - apply nodup_snoc. assumption. }
  assert (Hv1 : Forall (fun x => valid s1 x = true) ((b :: pre) ++ u :: post)).
  { cbn [app]. rewrite <- Hsplit. constructor; [exact Vb |].
    apply Forall_app. split; [exact (Forall_inv_tail Hv) |].
    constructor; [exact Vfl | constructor]. }
  assert (Hsu1 : size_of_blk (cells s1 u) = su) by (apply Hsz).
  assert (Au1 : alloc_or_not (cells s1 u) = false).
  { cbn [s1 cells set_cells]. rewrite Hal.
    destruct (u =? b); [reflexivity |].
    destruct (u =? padd b (h - 1)); [reflexivity | exact Au]. }
  destruct (merge_upper_unlinks s1 b h b (b :: pre) post)
    as (m2 & Hrun2 & Hc2 & Hsz2 & Hal2);
    try assumption; try reflexivity; fold u; rewrite ?Hsu1; try assumption; try lia.
  fold u in Hsz2. rewrite Hsu1 in Hsz2.
  assert (E1 : padd b (h + su - 1) = padd u (su - 1))
    by (unfold u, padd, sizeof_HeadFoot; lia).
  exists (set_cells s1 m2). rewrite Hrun. fold u in Hrun2.
  split; [exact Hrun2 |]. split; [reflexivity |].
  split; [exact Hc2 |]. cbn [cells set_cells].
  rewrite E1, !Hsz2, Hal2, !Z.eqb_refl.
  cbn [s1 cells set_cells]. rewrite Hal, Z.eqb_refl.
  destruct (padd u (su - 1) =? b); repeat split; try reflexivity.
  - intros q Hq1 Hq2. rewrite Hsz2, Hsz.
    destruct (Z.eqb_spec q b); [contradiction |].
    destruct (Z.eqb_spec q (padd u (su - 1))); [contradiction | reflexivity].
  - intros q Hq1 Hq2. rewrite Hal2. cbn [s1 cells set_cells]. rewrite Hal.
    destruct (Z.eqb_spec q b); [contradiction |].
    destruct (Z.eqb_spec q (padd b (h - 1))); [contradiction | reflexivity].
  - intros q Hq1 Hq2. rewrite Hsz2, Hsz.
    destruct (Z.eqb_spec q b); [contradiction |].
    destruct (Z.eqb_spec q (padd u (su - 1))); [contradiction | reflexivity].
  - intros q Hq1 Hq2. rewrite Hal2. cbn [s1 cells set_cells]. rewrite Hal.
    destruct (Z.eqb_spec q b); [contradiction |].
    destruct (Z.eqb_spec q (padd b (h - 1))); [contradiction | reflexivity].
Qed.

(** X18. Releasing a block between two free blocks: the lower block takes the
    units of the released block and of the upper one, its header and the
    footer the upper block had carry the sum of the three sizes, the upper
    block leaves the list and the lower block is the anchor. *)
Theorem release_merges_both s b pre post :
  let h := size_of_blk (cells s b) in
  let sp := size_of_blk (cells s (padd b (-1))) in
  let low := padd b (- sp) in
  let u := padd b h in
  let su := size_of_blk (cells s u) in
  chain s low (pre ++ u :: post) -> hd_error pre = Some low ->
  NoDup (pre ++ u :: post) ->
  Forall (fun x => valid s x = true) (pre ++ u :: post) ->
  valid s b = true -> 1 <= h ->
  valid s (padd b (h - 1)) = true ->
  valid s (padd b (-1)) = true ->
  alloc_or_not (cells s (padd b (-1))) = false ->
  1 <= sp -> size_of_blk (cells s low) = sp ->
  alloc_or_not (cells s u) = false ->
  1 <= su -> h + sp + su < 2 ^ 31 ->
  valid s (padd u (su - 1)) = true ->
  exists s',
    returnfreeblocktolist b s = Done tt s'
    /\ freelist s' = low
    /\ chain s' low (pre ++ post)
    /\ size_of_blk (cells s' low) = h + sp + su
    /\ size_of_blk (cells s' (padd low (h + sp + su - 1))) = h + sp + su
    /\ (forall q, q <> b -> q <> padd b (h - 1) ->
                  alloc_or_not (cells s' q) = alloc_or_not (cells s q)).
Proof.
  intros h sp low u su Hc Hhd Hnd Hv Vb Hh Vf Vp Ap Hsp Hsl Au Hsu H31 Vfu.
  assert (Vl : valid s low = true).
  { rewrite Forall_forall in Hv. apply Hv, in_or_app. left.
    destruct pre as [| a p]; [discriminate |]. injection Hhd as ->.
    left. reflexivity. }
  destruct (release_front_merge s b) as (m & Hrun & Hsz & Hal & Hnx & Hpv);
    try assumption; [fold h sp; lia |].
  fold h sp low in Hrun, Hsz, Hal.
  set (s1 := set_cells (set_anchor s low) m) in *.
  assert (E2 : padd low (h + sp) = u)
    by (unfold u, low, padd, sizeof_HeadFoot; lia).
  assert (Hc1 : chain s1 low (pre ++ padd low (h + sp) :: post)).
  { rewrite E2. apply (chain_ext s); try assumption; intros;
      cbn [s1 cells set_cells]; auto. }
  assert (Hsu1 : size_of_blk (cells s1 (padd low (h + sp))) = su).
  { rewrite E2. cbn [s1 cells set_cells]. rewrite Hsz.
    destruct (Z.eqb_spec u low) as [C | _];
      [unfold u, low, padd, sizeof_HeadFoot in C; lia |].
    destruct (Z.eqb_spec u (padd b (h - 1))) as [C | _];
      [unfold u, padd, sizeof_HeadFoot in C; lia |].
    reflexivity. }
  assert (Au1 : alloc_or_not (cells s1 (padd low (h + sp))) = false).
  { rewrite E2. cbn [s1 cells set_cells]. rewrite Hal.
    destruct (u =? b); [reflexivity |].
    destruct (u =? padd b (h - 1)); [reflexivity | exact Au]. }
  destruct (merge_upper_unlinks s1 low (h + sp) low pre post)
    as (m2 & Hrun2 & Hc2 & Hsz2 & Hal2);
    try assumption; rewrite ?Hsu1, ?E2; try assumption; try lia.
  rewrite Hsu1, E2 in Hsz2.
  assert (E1 : padd low (h + sp + su - 1) = padd u (su - 1))
    by (unfold u, low, padd, sizeof_HeadFoot; lia).
  exists (set_cells s1 m2). rewrite Hrun.
  split; [exact Hrun2 |]. split; [reflexivity |].
  split; [exact Hc2 |]. cbn [cells set_cells].
  rewrite E1, !Hsz2, !Z.eqb_refl.
  destruct (padd u (su - 1) =? low); repeat split; try lia.
  - intros q Hq1 Hq2. rewrite Hal2. cbn [s1 cells set_cells]. rewrite Hal.
    destruct (Z.eqb_spec q b); [contradiction |].
    destruct (Z.eqb_spec q (padd b (h - 1))); [contradiction | reflexivity].
  - intros q Hq1 Hq2. rewrite Hal2. cbn [s1 cells set_cells]. rewrite Hal.
    destruct (Z.eqb_spec q b); [contradiction |].
    destruct (Z.eqb_spec q (padd b (h - 1))); [contradiction | reflexivity].
Qed.

(** X19. [mm_deinit] forgets the anchor, so the allocator is uninitialised
    again: the [mm_init] that follows - from whatever heap - bootstraps the
    arena anew instead of returning at once. *)
Theorem deinit_then_init s :
  provider_ok s ->
  exists s',
    (mm_deinit ;;; mm_init) s = Done tt s'
    /\ heap_ok s' [mem_start_brk s]
    /\ mem_brk s' = mem_start_brk s + 120
    /\ freelist s' = mem_start_brk s.
Proof.
  intros Hp. unfold mm_deinit, mem_deinit, set_freelist. unfold bind at 1 2.
  destruct (init_from_scratch (set_anchor (set_brk s (mem_start_brk s)) NULL))
    as (s' & Hrun & Hok & Hb & Hf & _); [exact Hp | reflexivity |].
  exists s'. auto.
Qed.

Lemma deinit_then_init_witness :
  exists s', (mm_deinit ;;; mm_init) scattered = Done tt s' /\ freelist s' = 65536.
Proof.
  destruct (deinit_then_init scattered) as (s' & Hrun & _ & _ & Hfl).
  - unfold provider_ok. vm_compute. repeat split; intro; discriminate.
  - exists s'. split; [exact Hrun |]. rewrite Hfl. vm_compute. reflexivity.
Defined.

(** ** The theorems on concrete heaps *)

Ltac concrete_notin :=
  cbn [In]; intros H;
  repeat (destruct H as [H | H]; [discriminate H |]); exact H.
Ltac concrete_forall :=
  repeat (constructor; [vm_compute; reflexivity |]); constructor.
Ltac concrete_chain := vm_compute; repeat split; reflexivity.

Lemma release_inserts_at_anchor_witness :
  exists s',
    returnfreeblocktolist 69544 quad = Done tt s'
    /\ freelist s' = 69544
    /\ chain s' 69544 [69544; 65536; 65632].
Proof.
  pose proof (release_inserts_at_anchor quad 69544 [65536]) as H.
  cbv zeta in H.
  assert (E : freelist quad = 65632) by (vm_compute; reflexivity).
  rewrite E in H.
  destruct H as (s' & Hrun & Hfl & Hc & _).
  - concrete_chain.
  - concrete_nodup.
  - concrete_notin.
  - concrete_forall.
  - vm_compute; reflexivity.
  - split; zcmp.
  - vm_compute; reflexivity.
  - vm_compute; reflexivity.
  - vm_compute; reflexivity.
  - vm_compute; reflexivity.
  - vm_compute; reflexivity.
  - exists s'. split; [exact Hrun |]. split; [exact Hfl | exact Hc].
Defined.

Lemma unlink_keeps_list_witness :
  exists s',
    takefromlist 65632 scattered = Done tt s'
    /\ chain s' 67984 [67984; 65536; 69016; 68320].
Proof.
  destruct (unlink_keeps_list scattered 67984 [67984; 65536] 65632 [69016; 68320])
    as (s' & Hrun & Hc & _).
  - concrete_chain.
  - reflexivity.
  - concrete_nodup.
  - concrete_forall.
  - exists s'. split; [exact Hrun | exact Hc].
Defined.

Lemma reset_rebootstraps_witness :
  exists s', mm_reset scattered = Done tt s' /\ freelist s' = 65536.
Proof.
  destruct (reset_rebootstraps scattered) as (s' & Hrun & _ & _ & Hfl & _).
  - unfold provider_ok. vm_compute. repeat split; intro; discriminate.
  - exists s'. split; [exact Hrun |]. rewrite Hfl. vm_compute. reflexivity.
Defined.

Lemma release_merges_with_lower_witness :
  exists s',
    returnfreeblocktolist 69544 quad_low = Done tt s'
    /\ freelist s' = 69448
    /\ size_of_blk (cells s' 69448) = 8.
Proof.
  pose proof (release_merges_with_lower quad_low 69544) as H.
  cbv zeta in H.
  destruct H as (s' & Hrun & Hfl & Hsz & _).
  - vm_compute; reflexivity.
  - zcmp.
  - vm_compute; reflexivity.
  - vm_compute; reflexivity.
  - vm_compute; reflexivity.
  - zcmp.
  - vm_compute; reflexivity.
  - vm_compute; reflexivity.
  - zcmp.
  - vm_compute; reflexivity.
  - vm_compute; reflexivity.
  - exists s'. split; [exact Hrun |]. split.
    + rewrite Hfl. vm_compute. reflexivity.
    + assert (E : padd 69544 (- size_of_blk (cells quad_low (padd 69544 (-1))))
                  = 69448) by (vm_compute; reflexivity).
      rewrite E in Hsz. rewrite Hsz. vm_compute. reflexivity.
Defined.

Lemma release_merges_with_upper_witness :
  exists s',
    returnfreeblocktolist 69544 quad_high = Done tt s'
    /\ freelist s' = 69544
    /\ chain s' 69544 [69544; 65536; 65632]
    /\ size_of_blk (cells s' 69544) = 8.
Proof.
  pose proof (release_merges_with_upper quad_high 69544 [65536; 65632]
                [65536; 65632] []) as H.
  cbv zeta in H.
  assert (E : freelist quad_high = 69640) by (vm_compute; reflexivity).
  rewrite E in H.
  destruct H as (s' & Hrun & Hfl & Hc & Hsz & _).
  - concrete_chain.
  - concrete_nodup.
  - concrete_notin.
  - concrete_forall.
  - vm_compute; reflexivity.
  - vm_compute; reflexivity.
  - zcmp.
  - vm_compute; reflexivity.
  - vm_compute; reflexivity.
  - vm_compute; reflexivity.
  - vm_compute; reflexivity.
  - zcmp.
  - zcmp.
  - vm_compute; reflexivity.
  - exists s'. split; [exact Hrun |]. split; [exact Hfl |].
    split; [exact Hc |]. rewrite Hsz. vm_compute. reflexivity.
Defined.

Lemma release_merges_both_witness :
  exists s',
    returnfreeblocktolist 69544 quad_both = Done tt s'
    /\ chain s' 69448 [69448; 65536; 65632].
Proof.
  pose proof (release_merges_both quad_both 69544 [69448; 65536; 65632] [])
    as H.
  cbv zeta in H.
  assert (E : padd 69544 (- size_of_blk (cells quad_both (padd 69544 (-1))))
              = 69448) by (vm_compute; reflexivity).
  rewrite E in H.
  assert (Eu : padd 69544 (size_of_blk (cells quad_both 69544)) = 69640)
    by (vm_compute; reflexivity).
  rewrite Eu in H.
  destruct H as (s' & Hrun & _ & Hc & _).
  - concrete_chain.
  - reflexivity.
  - concrete_nodup.
  - concrete_forall.
  - vm_compute; reflexivity.
  - zcmp.
  - vm_compute; reflexivity.
  - vm_compute; reflexivity.
  - vm_compute; reflexivity.
  - zcmp.
  - vm_compute; reflexivity.
  - vm_compute; reflexivity.
  - zcmp.
  - zcmp.
  - vm_compute; reflexivity.
  - exists s'. split; [exact Hrun | exact Hc].
Defined.

Lemma free_accepts_interior_pointer_witness :
  allocatedblock FUEL 69600 quad = Done 69544 quad
  /\ mm_free FUEL 69600 quad = returnfreeblocktolist 69544 quad.
Proof.
  apply (free_accepts_interior_pointer quad [65536; 65632; 69352; 69448] 69544
           [69640; 69736]).
  - zcmp.
  - vm_compute. repeat split; intro; discriminate.
  - vm_compute. split; [intro; discriminate | reflexivity].
  - vm_compute. split; reflexivity.
  - vm_compute. repeat constructor.
  - vm_compute; reflexivity.
Defined.

Lemma free_block_pointer_refused_witness :
  mm_free FUEL 69472 quad_low = Done tt (set_err quad_low EFAULT)
  /\ mm_realloc (fun _ h _ => h) FUEL 69472 48 quad_low
     = Done NULL (set_err quad_low EFAULT).
Proof.
  apply (free_block_pointer_refused (fun _ h _ => h) quad_low
           [65536; 65632; 69352] 69448 [69544; 69640; 69736]).
  - zcmp.
  - vm_compute. repeat split; intro; discriminate.
  - vm_compute. split; [intro; discriminate | reflexivity].
  - vm_compute. split; reflexivity.
  - vm_compute. repeat constructor.
  - vm_compute; reflexivity.
Defined.

Lemma best_fit_when_anchor_fits_witness :
  exists p s', pick_free_block_from_list_best_fit FUEL 4 five = Done p s'.
Proof.
  destruct (best_fit_when_anchor_fits five five_list 4 FUEL)
    as (y & p & s' & _ & _ & _ & Hrun & _).
  - exact five_heap_ok.
  - zcmp.
  - vm_compute. repeat constructor.
  - vm_compute. repeat constructor.
  - vm_compute; reflexivity.
  - exists p, s'. exact Hrun.
Defined.

Lemma best_fit_is_first_fit_witness :
  pick_free_block_from_list_best_fit FUEL 20 scattered
  = pick_free_block_from_list_first_fit FUEL 20 scattered.
Proof.
  apply (best_fit_is_first_fit scattered scattered_list 20 FUEL).
  - exact scattered_heap_ok.
  - vm_compute. repeat constructor.
  - vm_compute. intro; discriminate.
Defined.

(** * The shape of the heap *)

(** ** Tilings *)

Lemma tiling_ext s s' l :
  forall b e,
    (forall x, In x l -> size_of_blk (cells s' x) = size_of_blk (cells s x)) ->
    tiling s b l e -> tiling s' b l e.
Proof.
  induction l as [| x t IH]; intros b e Hs Ht; [exact Ht |].
  destruct Ht as (-> & Hsz & Ht).
  assert (E : size_of_blk (cells s' b) = size_of_blk (cells s b))
    by (apply Hs; left; reflexivity).
  cbn [tiling]. rewrite E. repeat split; try assumption.
  apply IH; [| assumption]. intros y Hy. apply Hs. right. assumption.
Qed.

Lemma tiling_app s l1 l2 :
  forall b e,
    tiling s b (l1 ++ l2) e <->
    exists c, tiling s b l1 c /\ tiling s c l2 e.
Proof.
  induction l1 as [| x t IH]; intros b e; cbn [app tiling].
  - split.
    + intros H. exists b. split; [reflexivity | assumption].
    + intros (c & <- & H). assumption.
  - split.
    + intros (-> & Hsz & H). apply IH in H. destruct H as (c & H1 & H2).
      exists c. repeat split; assumption.
    + intros (c & (-> & Hsz & H1) & H2). repeat split; try assumption.
      apply IH. exists c. split; assumption.
Qed.

Lemma tiling_le s l : forall b e, tiling s b l e -> b <= e.
Proof.
  induction l as [| x t IH]; intros b e Ht.
  - cbn in Ht. lia.
  - destruct Ht as (_ & Hsz & Ht). apply IH in Ht.
    unfold padd, sizeof_HeadFoot in Ht. lia.
Qed.

Lemma tiling_grid s l :
  forall b e, tiling s b l e -> exists k, 0 <= k /\ e = b + 24 * k.
Proof.
  induction l as [| x t IH]; intros b e Ht.
  - cbn in Ht. exists 0. lia.
  - destruct Ht as (_ & Hsz & Ht). apply IH in Ht. destruct Ht as (k & Hk & ->).
    exists (size_of_blk (cells s b) + k). unfold padd, sizeof_HeadFoot. lia.
Qed.

(** A member of a tiling: what lies before it ends where it starts, what
    lies after it starts where it ends. *)
Lemma tiling_at s pre x post b e :
  tiling s b (pre ++ x :: post) e <->
  tiling s b pre x /\ 1 <= size_of_blk (cells s x)
  /\ tiling s (padd x (size_of_blk (cells s x))) post e.
Proof.
  rewrite tiling_app. cbn [tiling]. split.
  - intros (c & H1 & -> & Hsz & H2). auto.
  - intros (H1 & Hsz & H2). exists x. auto.
Qed.

Lemma tiling_in s l :
  forall b e x,
    tiling s b l e -> In x l ->
    b <= x /\ 1 <= size_of_blk (cells s x)
    /\ x + 24 * size_of_blk (cells s x) <= e
    /\ exists k, 0 <= k /\ x = b + 24 * k.
Proof.
  intros b e x Ht Hin. apply in_split in Hin. destruct Hin as (pre & post & ->).
  apply tiling_at in Ht. destruct Ht as (H1 & Hsz & H2).
  pose proof (tiling_le _ _ _ _ H1). pose proof (tiling_le _ _ _ _ H2).
  pose proof (tiling_grid _ _ _ _ H1) as (k & Hk & Hx).
  unfold padd, sizeof_HeadFoot in *.
  repeat split; try lia. exists k. auto.
Qed.

(** Two members of a tiling are the same block or do not overlap. *)
Lemma tiling_sep s l :
  forall b e x y,
    tiling s b l e -> In x l -> In y l ->
    x = y \/ x + 24 * size_of_blk (cells s x) <= y
    \/ y + 24 * size_of_blk (cells s y) <= x.
Proof.
  intros b e x y Ht Hx Hy.
  apply in_split in Hx. destruct Hx as (pre & post & ->).
  pose proof Ht as Ht0.
  apply tiling_at in Ht. destruct Ht as (H1 & Hsz & H2).
  apply in_app_or in Hy. destruct Hy as [Hy | [Hy | Hy]].
  - right. right. destruct (tiling_in _ _ _ _ _ H1 Hy) as (_ & _ & H & _). exact H.
  - left. auto.
  - right. left. destruct (tiling_in _ _ _ _ _ H2 Hy) as (H & _).
    unfold padd, sizeof_HeadFoot in H. lia.
Qed.

(** The blocks before a member end at or below it, the blocks after it
    start at or above its end. *)
Lemma tiling_before s pre x post b e y :
  tiling s b (pre ++ x :: post) e -> In y pre ->
  y + 24 * size_of_blk (cells s y) <= x.
Proof.
  intros Ht Hy. apply tiling_at in Ht. destruct Ht as (H1 & _).
  destruct (tiling_in _ _ _ _ _ H1 Hy) as (_ & _ & H & _). exact H.
Qed.

Lemma tiling_after s pre x post b e y :
  tiling s b (pre ++ x :: post) e -> In y post ->
  x + 24 * size_of_blk (cells s x) <= y.
Proof.
  intros Ht Hy. apply tiling_at in Ht. destruct Ht as (_ & _ & H2).
  destruct (tiling_in _ _ _ _ _ H2 Hy) as (H & _).
  unfold padd, sizeof_HeadFoot in H. lia.
Qed.

(** Every address from the start of a tiling to its end lies in the units
    of one of its blocks. *)
Lemma tiling_cover s l :
  forall b e p,
    tiling s b l e -> b <= p < e ->
    exists pre x post,
      l = pre ++ x :: post
      /\ x <= p < padd x (size_of_blk (cells s x)).
Proof.
  induction l as [| a t IH]; intros b e p Ht Hp.
  - cbn in Ht. lia.
  - destruct Ht as (-> & Hsz & Ht).
    destruct (Z_lt_le_dec p (padd b (size_of_blk (cells s b)))) as [Hlt | Hge].
    + exists [], b, t. split; [reflexivity | lia].
    + destruct (IH _ _ p Ht) as (pre & x & post & -> & Hx); [lia |].
      exists (b :: pre), x, post. split; [reflexivity | assumption].
Qed.

(** ** What a well-formed arena gives *)

Lemma valid_grid s a k :
  a = mem_start_brk s + 24 * k -> 0 <= k -> a + 24 <= mem_brk s ->
  valid s a = true.
Proof.
  intros -> Hk Hb. apply valid_iff. repeat split; try lia.
  replace (mem_start_brk s + 24 * k - mem_start_brk s) with (k * 24) by lia.
  apply Z_mod_mult.
Qed.

Lemma valid_grid_inv s a :
  valid s a = true ->
  exists k, a = mem_start_brk s + 24 * k /\ 0 <= k /\ a + 24 <= mem_brk s.
Proof.
  intros V. apply valid_iff in V. destruct V as (H1 & H2 & H3).
  exists ((a - mem_start_brk s) / 24).
  pose proof (Z.div_mod (a - mem_start_brk s) 24 ltac:(lia)) as E.
  rewrite H3 in E. split; [lia |]. split; [| lia].
  apply Z.div_pos; lia.
Qed.

(** The block of a unit that is on the grid, shifted by whole units. *)
Lemma valid_shift s a k :
  valid s a = true ->
  mem_start_brk s <= a + 24 * k -> a + 24 * k + 24 <= mem_brk s ->
  valid s (a + 24 * k) = true.
Proof.
  intros V H1 H2. destruct (valid_grid_inv _ _ V) as (j & -> & Hj & _).
  apply (valid_grid s _ (j + k)); lia.
Qed.

Lemma arena_extent s T :
  arena_wf s T -> mem_start_brk s + 120 <= mem_brk s.
Proof.
  intros H. pose proof (tiling_le _ _ _ _ (aw_tiles _ _ H)) as Hle.
  unfold padd, sizeof_HeadFoot in Hle. lia.
Qed.

Lemma arena_lead_valid s T :
  arena_wf s T ->
  valid s (mem_start_brk s) = true
  /\ valid s (padd (mem_start_brk s) 3) = true
  /\ valid s (mem_brk s - 24) = true.
Proof.
  intros H. pose proof (arena_extent _ _ H) as He.
  destruct (tiling_grid _ _ _ _ (aw_tiles _ _ H)) as (k & Hk & Ek).
  unfold padd, sizeof_HeadFoot in *.
  split; [| split].
  - apply (valid_grid s _ 0); lia.
  - apply (valid_grid s _ 3); lia.
  - apply (valid_grid s _ (4 + k)); lia.
Qed.

(** A block of the tiling lies on the grid between the sentinels, and so
    does its footer; its size fits the size field. *)
Lemma arena_member s T x :
  arena_wf s T -> In x T ->
  valid s x = true /\ valid s (foot s x) = true
  /\ mem_start_brk s + 96 <= x
  /\ 1 <= size_of_blk (cells s x) < 2 ^ 31
  /\ x + 24 * size_of_blk (cells s x) <= mem_brk s - 24.
Proof.
  intros H Hin.
  destruct (tiling_in _ _ _ _ _ (aw_tiles _ _ H) Hin) as (Hlo & Hsz & Hhi & k & Hk & Ex).
  pose proof (aw_cap _ _ H). pose proof (aw_brk _ _ H).
  unfold foot, padd, sizeof_HeadFoot in *.
  assert (Vx : valid s x = true) by (apply (valid_grid s _ (4 + k)); lia).
  split; [exact Vx |]. split.
  - replace (x + (size_of_blk (cells s x) - 1) * 24)
      with (x + 24 * (size_of_blk (cells s x) - 1)) by lia.
    apply valid_shift; [exact Vx | lia | lia].
  - repeat split; lia.
Qed.

(** Blocks of a tiling that follow one another have less than [2^31] units
    together. *)
Lemma arena_span s T x n :
  arena_wf s T -> mem_start_brk s + 96 <= x ->
  x + 24 * n <= mem_brk s - 24 -> n < 2 ^ 31.
Proof.
  intros H Hx Hn. pose proof (aw_cap _ _ H). pose proof (aw_brk _ _ H). lia.
Qed.

Lemma heap_wf_ok s T L : heap_wf s T L -> heap_ok s L.
Proof.
  intros [Ha Hl Hm]. pose proof (arena_extent _ _ Ha) as He.
  destruct (arena_lead_valid _ _ Ha) as (Vlo & Vlf & Vtr).
  destruct (tiling_grid _ _ _ _ (aw_tiles _ _ Ha)) as (k & Hk & Ek).
  unfold padd, sizeof_HeadFoot in Ek.
  constructor.
  - exact (aw_base _ _ Ha).
  - exact (aw_max _ _ Ha).
  - exact (aw_cap _ _ Ha).
  - exact (aw_brk _ _ Ha).
  - replace (mem_brk s - mem_start_brk s) with ((5 + k) * 24) by lia.
    apply Z_mod_mult.
  - lia.
  - exact (lw_anchor _ _ Hl).
  - exact (lw_nodup _ _ Hl).
  - exact (lw_chain _ _ Hl).
  - apply Forall_forall. intros x Hx. apply Hm in Hx.
    destruct Hx as [-> | [Hx Hfree]].
    + split; [exact Vlo |]. split; [lia |].
      rewrite (aw_lead_head _ _ Ha). discriminate.
    + destruct (arena_member _ _ _ Ha Hx) as (Vx & _ & Hlo & Hsz & Hhi).
      split; [exact Vx |]. split; [lia |]. intros _. split; lia.
  - unfold last_ok. cbv zeta. intros Hfr.
    pose proof (aw_tiles _ _ Ha) as Ht.
    destruct (exists_last (l := T)) as (T0 & x & ->).
    { intros ->. cbn in Ht. unfold padd, sizeof_HeadFoot in Ht.
      replace (mem_brk s - 48) with (padd (mem_start_brk s) 3) in Hfr
        by (unfold padd, sizeof_HeadFoot; lia).
      rewrite (aw_lead_foot _ _ Ha) in Hfr. discriminate. }
    apply tiling_at in Ht. destruct Ht as (_ & Hsz & Hend). cbn in Hend.
    assert (Hx : In x (T0 ++ [x])) by (apply in_or_app; right; left; reflexivity).
    pose proof (aw_feet _ _ Ha) as Hf. rewrite Forall_forall in Hf.
    destruct (Hf x Hx) as [Hfs Hfa].
    assert (Ef : foot s x = mem_brk s - 48)
      by (unfold foot, padd, sizeof_HeadFoot in *; lia).
    rewrite Ef in Hfs, Hfa. rewrite Hfs.
    assert (Eb : mem_brk s - 24 - 24 * size_of_blk (cells s x) = x)
      by (unfold padd, sizeof_HeadFoot in Hend; lia).
    rewrite Eb. split; [lia |]. split; [| split].
    + apply Hm. right. split; [exact Hx | apply Hfa; exact Hfr].
    + reflexivity.
    + apply Hfa. exact Hfr.
Qed.

(** ** Turning the free list *)

Lemma in_turn (pre post : list Z) x z :
  In z (x :: post ++ pre) <-> In z (pre ++ x :: post).
Proof.
  cbn [In]. rewrite !in_app_iff. cbn [In]. tauto.
Qed.

(** A chain that ends in [z] closes on [z] when [z] is left off. *)
Lemma chain_reclose s f z l :
  chain s f (l ++ [z]) -> l <> [] ->
  chain s z l /\ next_free (cells s z) = f /\ previous_free (cells s f) = z.
Proof.
  induction l as [| x t IH]; [intros _ C; contradiction |].
  intros Hc _. destruct t as [| y t'].
  - cbn [app chain] in *. tauto.
  - change ((x :: y :: t') ++ [z]) with (x :: y :: (t' ++ [z])) in Hc.
    destruct Hc as (Hn & Hp & Hc).
    destruct (IH Hc ltac:(discriminate)) as (Hc' & Hz & Hf).
    split; [| split; assumption]. cbn [chain]. auto.
Qed.

(** Turning a well-formed list to one of its members. *)
Lemma list_turn s L x :
  chain s (freelist s) L -> hd_error L = Some (freelist s) -> NoDup L ->
  In x L ->
  exists L',
    chain s x L' /\ hd_error L' = Some x /\ NoDup L'
    /\ (forall z, In z L' <-> In z L).
Proof.
  intros Hc Hhd Hnd Hin. apply in_split in Hin. destruct Hin as (pre & post & ->).
  exists (x :: post ++ pre). split; [| split; [| split]].
  - exact (chain_turn s x pre post _ Hc Hhd).
  - reflexivity.
  - apply nodup_turn. exact Hnd.
  - intros z. apply in_turn.
Qed.

(** ** Blocks in use *)

Lemma HeadFoot_ext (h h' : HeadFoot) :
  previous_free h = previous_free h' -> next_free h = next_free h' ->
  size_of_blk h = size_of_blk h' -> alloc_or_not h = alloc_or_not h' ->
  h = h'.
Proof. destruct h, h'. cbn. intros -> -> -> ->. reflexivity. Qed.

Lemma live_kept_refl s T b : live_kept s s T T b.
Proof. intros x Hx _ _. split; [exact Hx | reflexivity]. Qed.

Lemma live_kept_trans s s1 s2 T T1 T2 b1 b2 :
  arena_wf s T ->
  live_kept s s1 T T1 b1 -> live_kept s1 s2 T1 T2 b2 ->
  (forall x, In x T -> x <> b1 -> alloc_or_not (cells s x) = true -> x <> b2) ->
  live_kept s s2 T T2 b1.
Proof.
  intros Ha H1 H2 Hb x Hx Hne Hal.
  destruct (H1 x Hx Hne Hal) as [Hx1 Hc1].
  destruct (arena_member _ _ _ Ha Hx) as (_ & _ & _ & Hsz & _).
  assert (Ex : cells s1 x = cells s x) by (apply Hc1; lia).
  destruct (H2 x Hx1 (Hb x Hx Hne Hal)) as [Hx2 Hc2];
    [rewrite Ex; exact Hal |].
  split; [exact Hx2 |]. intros q Hq. rewrite Hc2 by (rewrite Ex; exact Hq).
  apply Hc1. exact Hq.
Qed.

(** No unit of a block in use is a member of a list whose members are the
    leading sentinel and free blocks. *)
Lemma live_not_listed s T (L : list Z) x q :
  arena_wf s T ->
  (forall z, In z L ->
             z = mem_start_brk s
             \/ (In z T /\ alloc_or_not (cells s z) = false)) ->
  In x T -> alloc_or_not (cells s x) = true ->
  x <= q < x + 24 * size_of_blk (cells s x) ->
  ~ In q L.
Proof.
  intros Ha HL Hx Hal Hq Hin.
  destruct (arena_member _ _ _ Ha Hx) as (_ & _ & Hlo & _).
  destruct (HL q Hin) as [E | [HqT Hfree]]; [lia |].
  destruct (tiling_sep _ _ _ _ _ _ (aw_tiles _ _ Ha) Hx HqT) as [E | [H | H]].
  - subst q. rewrite Hal in Hfree. discriminate.
  - lia.
  - destruct (arena_member _ _ _ Ha HqT) as (_ & _ & _ & Hsq & _). lia.
Qed.

(** The units of a block in use lie outside the units of another block. *)
Lemma live_outside s T x y q :
  arena_wf s T -> In x T -> In y T -> x <> y ->
  x <= q < x + 24 * size_of_blk (cells s x) ->
  q < y \/ y + 24 * size_of_blk (cells s y) <= q.
Proof.
  intros Ha Hx Hy Hne Hq.
  destruct (tiling_sep _ _ _ _ _ _ (aw_tiles _ _ Ha) Hx Hy) as [E | [H | H]];
    [contradiction | left; lia | right; lia].
Qed.

(** ** Placement keeps the heap well formed *)

(** Another block of the tiling, and its footer, lie outside the units of
    the block [y]. *)
Lemma tiling_other s T b e y x :
  tiling s b T e -> In y T -> In x T -> x <> y ->
  (x < y \/ y + 24 * size_of_blk (cells s y) <= x)
  /\ (foot s x < y \/ y + 24 * size_of_blk (cells s y) <= foot s x).
Proof.
  intros Ht Hy Hx Hne.
  destruct (tiling_in _ _ _ _ _ Ht Hx) as (_ & Hsx & _).
  destruct (tiling_in _ _ _ _ _ Ht Hy) as (_ & Hsy & _).
  unfold foot, padd, sizeof_HeadFoot.
  destruct (tiling_sep _ _ _ _ _ _ Ht Hx Hy) as [E | [H | H]];
    [contradiction | split; left; lia | split; right; lia].
Qed.

(** A store pattern that leaves the units outside the block [y] alone keeps
    the footers of the other blocks in order. *)
Lemma feet_outside s s' T b e y :
  tiling s b T e -> In y T ->
  (forall q, q < y \/ y + 24 * size_of_blk (cells s y) <= q ->
             cells s' q = cells s q) ->
  forall x, In x T -> x <> y -> footer_ok s x -> footer_ok s' x.
Proof.
  intros Ht Hy Hout x Hx Hne [Hs Ha].
  destruct (tiling_other _ _ _ _ _ _ Ht Hy Hx Hne) as [Hx1 Hx2].
  assert (Ex : cells s' x = cells s x) by (apply Hout; exact Hx1).
  assert (Ef : foot s' x = foot s x) by (unfold foot; rewrite Ex; reflexivity).
  unfold footer_ok. rewrite Ef, Ex, (Hout _ Hx2). auto.
Qed.

Lemma place_split_wf s T L r y :
  heap_wf s T L -> In y T -> alloc_or_not (cells s y) = false ->
  1 <= r -> r + 4 <= size_of_blk (cells s y) ->
  exists p s' T',
    place r y s = Done p s' /\ heap_wf s' T' L
    /\ live_kept s s' T T' NULL
    /\ ~ In p T
    /\ In p T' /\ alloc_or_not (cells s' p) = true
    /\ size_of_blk (cells s' p) = r
    /\ mem_brk s' = mem_brk s /\ mem_start_brk s' = mem_start_brk s
    /\ mem_max_addr s' = mem_max_addr s /\ errno s' = errno s.
Proof.
  intros [Ha Hl Hm] Hy Hfree Hr Hbig.
  destruct (arena_member _ _ _ Ha Hy) as (Vy & Vf & Hlo & Hsz & Hhi).
  set (sz := size_of_blk (cells s y)) in *.
  destruct (place_split s r y) as
    (m & Hrun & Hmy & Hay & Hmf & Hmn & Han & Hmo & Hao & Hlk & Hout);
    try assumption; try (fold sz; lia).
  fold sz in Hrun, Hmy, Hmf, Hmn, Han, Hmo, Hao, Hout.
  set (y' := padd y (sz - r)) in *.
  destruct (in_split _ _ Hy) as (pre & post & ET).
  pose proof (aw_tiles _ _ Ha) as Ht. rewrite ET in Ht.
  pose proof Ht as Ht0. apply tiling_at in Ht. destruct Ht as (Hpre & _ & Hpost).
  fold sz in Hpost.
  assert (Hout' : forall q, q < y \/ y + 24 * sz <= q ->
                            cells (set_cells s m) q = cells s q)
    by (intros q Hq; cbn [cells set_cells]; apply Hout; exact Hq).
  assert (Hpre_out : forall x, In x pre -> cells (set_cells s m) x = cells s x).
  { intros x Hx. apply Hout'. left.
    pose proof (tiling_before _ _ _ _ _ _ _ Ht0 Hx).
    destruct (tiling_in _ _ _ _ _ Hpre Hx) as (_ & ? & _). lia. }
  assert (Hpost_out : forall x, In x post -> cells (set_cells s m) x = cells s x).
  { intros x Hx. apply Hout'. right.
    exact (tiling_after _ _ _ _ _ _ _ Ht0 Hx). }
  assert (Ey' : padd y' r = padd y sz)
    by (unfold y', padd, sizeof_HeadFoot; lia).
  assert (Hy'notin : ~ In y' T).
  { intros Hin. rewrite ET in Hin. apply in_app_or in Hin.
    destruct Hin as [Hin | [E | Hin]].
    - pose proof (tiling_before _ _ _ _ _ _ _ Ht0 Hin).
      destruct (tiling_in _ _ _ _ _ Hpre Hin) as (_ & ? & _).
      unfold y', padd, sizeof_HeadFoot in *. lia.
    - unfold y', padd, sizeof_HeadFoot in E. lia.
    - pose proof (tiling_after _ _ _ _ _ _ _ Ht0 Hin).
      unfold y', padd, sizeof_HeadFoot in *. fold sz in H. lia. }
  exists y', (set_cells s m), (pre ++ y :: y' :: post).
  split; [exact Hrun |].
  assert (Hal_same : forall x, In x T ->
             alloc_or_not (cells (set_cells s m) x) = alloc_or_not (cells s x)).
  { intros x Hx. destruct (Z.eq_dec x y) as [-> | Hne].
    - exact Hay.
    - rewrite Hout'; [reflexivity |].
      exact (proj1 (tiling_other _ _ _ _ _ _ (aw_tiles _ _ Ha) Hy Hx Hne)). }
  split; [| split; [| split; [exact Hy'notin | split; [| split; [| split; [| repeat split]]]]]].
  - constructor.
    + constructor; cbn [mem_start_brk mem_max_addr mem_brk set_cells].
      * exact (aw_base _ _ Ha).
      * exact (aw_max _ _ Ha).
      * exact (aw_cap _ _ Ha).
      * exact (aw_brk _ _ Ha).
      * rewrite Hout' by lia. exact (aw_lead_size _ _ Ha).
      * rewrite Hout' by lia. exact (aw_lead_head _ _ Ha).
      * rewrite Hout' by (unfold padd, sizeof_HeadFoot; lia).
        exact (aw_lead_foot _ _ Ha).
      * apply tiling_at. split; [| split].
        -- apply (tiling_ext s); [| exact Hpre]. intros x Hx.
           rewrite Hpre_out by exact Hx. reflexivity.
        -- cbn [cells set_cells]. rewrite Hmy. lia.
        -- cbn [cells set_cells]. rewrite Hmy. fold y'.
           cbn [tiling cells set_cells].
           split; [reflexivity |]. rewrite Hmn. split; [lia |].
           rewrite Ey'. apply (tiling_ext s); [| exact Hpost]. intros x Hx.
           rewrite Hpost_out by exact Hx. reflexivity.
      * rewrite Hout' by lia. exact (aw_trail _ _ Ha).
      * pose proof (aw_feet _ _ Ha) as Hf. rewrite Forall_forall in Hf.
        apply Forall_forall. intros x Hx.
        assert (Hcase : x = y \/ x = y' \/ (In x T /\ x <> y)).
        { apply in_app_or in Hx. destruct Hx as [Hx | [<- | [<- | Hx]]]; auto.
          - right. right. split; [rewrite ET; apply in_or_app; left; exact Hx |].
            intros ->. pose proof (tiling_before _ _ _ _ _ _ _ Ht0 Hx). lia.
          - right. right.
            split; [rewrite ET; apply in_or_app; right; right; exact Hx |].
            intros ->. pose proof (tiling_after _ _ _ _ _ _ _ Ht0 Hx). lia. }
        destruct Hcase as [-> | [-> | [HxT Hne]]].
        -- unfold footer_ok, foot. cbn [cells set_cells]. rewrite Hmy, Hmf, Hay.
           split; [reflexivity | intros _; exact Hfree].
        -- unfold footer_ok, foot. cbn [cells set_cells]. rewrite Hmn.
           replace (padd y' (r - 1)) with (padd y (sz - 1))
             by (unfold y', padd, sizeof_HeadFoot; lia).
           rewrite Hmo, Hao. split; [reflexivity | discriminate].
        -- apply (feet_outside s _ T _ _ y (aw_tiles _ _ Ha) Hy); auto.
    + constructor; cbn [freelist set_cells].
      * exact (lw_anchor _ _ Hl).
      * exact (lw_nodup _ _ Hl).
      * apply (chain_ext s); [exact (lw_chain _ _ Hl) | | |];
          intros; cbn [cells set_cells]; apply Hlk.
    + intros x. cbn [mem_start_brk set_cells]. rewrite Hm. split.
      * intros [-> | [Hx Hfx]]; [left; reflexivity |]. right. split.
        -- rewrite ET in Hx. apply in_app_or in Hx.
           destruct Hx as [Hx | [<- | Hx]]; apply in_or_app; cbn [In]; auto.
        -- rewrite Hal_same by exact Hx. exact Hfx.
      * intros [-> | [Hx Hfx]]; [left; reflexivity |]. right.
        assert (HxT : In x T).
        { apply in_app_or in Hx. destruct Hx as [Hx | [<- | [<- | Hx]]].
          - rewrite ET. apply in_or_app. left. exact Hx.
          - exact Hy.
          - cbn [cells set_cells] in Hfx. rewrite Han in Hfx. discriminate.
          - rewrite ET. apply in_or_app. right. right. exact Hx. }
        split; [exact HxT |]. rewrite <- Hal_same by exact HxT. exact Hfx.
  - intros x Hx _ Hal.
    assert (Hne : x <> y) by (intros ->; rewrite Hfree in Hal; discriminate).
    split.
    + pose proof Hx as Hx'. rewrite ET in Hx'. apply in_app_or in Hx'.
      destruct Hx' as [Hx' | [E | Hx']]; [| congruence |];
        apply in_or_app; cbn [In]; auto.
    + intros q Hq. apply Hout'.
      exact (live_outside s T x y q Ha Hx Hy Hne Hq).
  - apply in_or_app. right. right. left. reflexivity.
  - exact Han.
  - exact Hmn.
Qed.

(** Changing the allocation bits of one block, header and footer, keeps the
    arena in order as long as the footer says free only when the header
    does. *)
Lemma arena_retag s s' T y :
  arena_wf s T -> In y T ->
  mem_start_brk s' = mem_start_brk s -> mem_max_addr s' = mem_max_addr s ->
  mem_brk s' = mem_brk s ->
  (forall q, size_of_blk (cells s' q) = size_of_blk (cells s q)) ->
  (forall q, q <> y -> q <> foot s y ->
             alloc_or_not (cells s' q) = alloc_or_not (cells s q)) ->
  (alloc_or_not (cells s' (foot s y)) = false ->
   alloc_or_not (cells s' y) = false) ->
  arena_wf s' T.
Proof.
  intros Ha Hy E1 E2 E3 Hsz Hal Hnew.
  destruct (arena_member _ _ _ Ha Hy) as (Vy & Vf & Hlo & Hs & Hhi).
  assert (Hfy : y <= foot s y < y + 24 * size_of_blk (cells s y))
    by (unfold foot, padd, sizeof_HeadFoot; lia).
  constructor; rewrite ?E1, ?E2, ?E3.
  - exact (aw_base _ _ Ha).
  - exact (aw_max _ _ Ha).
  - exact (aw_cap _ _ Ha).
  - exact (aw_brk _ _ Ha).
  - rewrite Hsz. exact (aw_lead_size _ _ Ha).
  - rewrite Hal by lia. exact (aw_lead_head _ _ Ha).
  - rewrite Hal by (unfold padd, sizeof_HeadFoot; lia).
    exact (aw_lead_foot _ _ Ha).
  - apply (tiling_ext s); [intros; apply Hsz | exact (aw_tiles _ _ Ha)].
  - rewrite Hal by lia. exact (aw_trail _ _ Ha).
  - pose proof (aw_feet _ _ Ha) as Hf. rewrite Forall_forall in Hf.
    apply Forall_forall. intros x Hx. specialize (Hf x Hx).
    assert (Ef : foot s' x = foot s x) by (unfold foot; rewrite Hsz; reflexivity).
    unfold footer_ok. rewrite Ef, !Hsz.
    destruct Hf as [Hfs Hfa]. split; [exact Hfs |].
    destruct (Z.eq_dec x y) as [-> | Hne]; [exact Hnew |].
    destruct (tiling_other _ _ _ _ _ _ (aw_tiles _ _ Ha) Hy Hx Hne) as [Hx1 Hx2].
    rewrite !Hal by lia. exact Hfa.
Qed.

Lemma place_whole_wf s T L r y :
  heap_wf s T L -> In y T -> alloc_or_not (cells s y) = false ->
  0 <= r < 2 ^ 63 -> size_of_blk (cells s y) < r + 4 ->
  exists s' L',
    place r y s = Done y s' /\ heap_wf s' T L'
    /\ live_kept s s' T T NULL
    /\ alloc_or_not (cells s' y) = true
    /\ size_of_blk (cells s' y) = size_of_blk (cells s y)
    /\ mem_brk s' = mem_brk s /\ mem_start_brk s' = mem_start_brk s
    /\ mem_max_addr s' = mem_max_addr s /\ errno s' = errno s.
Proof.
  intros Hwf Hy Hfree Hr Hsmall.
  pose proof (heap_wf_ok _ _ _ Hwf) as Hok.
  destruct Hwf as [Ha Hl Hm].
  destruct (arena_member _ _ _ Ha Hy) as (Vy & Vf & Hlo & Hsz & Hhi).
  assert (HyL : In y L) by (apply Hm; right; split; assumption).
  set (sz := size_of_blk (cells s y)) in *.
  destruct (place_whole_fields s r y) as (m & Hrun & Hms & Hma & Hnx & Hpv);
    try assumption; try (fold sz; lia).
  { exact (heap_ok_prev_valid _ _ _ Hok HyL). }
  { exact (heap_ok_next_valid _ _ _ Hok HyL). }
  fold sz in Hma.
  change (padd y (sz - 1)) with (foot s y) in Hma.
  set (f' := if y =? freelist s then previous_free (cells s y) else freelist s) in *.
  set (s' := set_cells (set_anchor s f') m) in *.
  assert (Hfy : y <= foot s y < y + 24 * sz)
    by (unfold foot, padd, sizeof_HeadFoot; fold sz; lia).
  assert (Hal_other : forall x, In x T -> x <> y ->
             alloc_or_not (cells s' x) = alloc_or_not (cells s x)).
  { intros x Hx Hne. cbn [s' cells set_cells]. rewrite Hma.
    destruct (Z.eqb_spec x y) as [C | _]; [contradiction |].
    destruct (tiling_other _ _ _ _ _ _ (aw_tiles _ _ Ha) Hy Hx Hne) as [Hx1 _].
    fold sz in Hx1.
    destruct (Z.eqb_spec x (foot s y)) as [C | _]; [lia | reflexivity]. }
  assert (Hay : alloc_or_not (cells s' y) = true)
    by (cbn [s' cells set_cells]; rewrite Hma, Z.eqb_refl; reflexivity).
  assert (Harena : arena_wf s' T).
  { apply (arena_retag s s' T y Ha Hy); try reflexivity.
    - intros q. apply Hms.
    - intros q H1 H2. cbn [s' cells set_cells]. rewrite Hma.
      destruct (Z.eqb_spec q y) as [C | _]; [contradiction |].
      destruct (Z.eqb_spec q (foot s y)) as [C | _]; [contradiction | reflexivity].
    - cbn [s' cells set_cells]. rewrite Hma, Z.eqb_refl.
      destruct (foot s y =? y); discriminate. }
  assert (Hmem : forall L',
             (forall x, In x L' <-> In x L /\ x <> y) ->
             forall x, In x L' <->
                       x = mem_start_brk s'
                       \/ (In x T /\ alloc_or_not (cells s' x) = false)).
  { intros L' HL' x. rewrite HL', Hm. cbn [s' mem_start_brk set_cells set_anchor].
    split.
    - intros [[-> | [Hx Hfx]] Hne]; [left; reflexivity |]. right.
      split; [exact Hx |]. rewrite Hal_other by assumption. exact Hfx.
    - intros [-> | [Hx Hfx]].
      + split; [left; reflexivity | lia].
      + assert (Hne : x <> y) by (intros ->; rewrite Hay in Hfx; discriminate).
        split; [| exact Hne]. right. split; [exact Hx |].
        rewrite <- Hal_other by assumption. exact Hfx. }
  pose proof (lw_anchor _ _ Hl) as Hhd.
  pose proof (lw_nodup _ _ Hl) as Hnd.
  pose proof (lw_chain _ _ Hl) as Hc.
  assert (Hlive : live_kept s s' T T NULL).
  { intros x Hx _ Hal.
    assert (Hne : x <> y) by (intros ->; rewrite Hfree in Hal; discriminate).
    split; [exact Hx |]. intros q Hq.
    pose proof (live_outside s T x y q Ha Hx Hy Hne Hq) as Hout. fold sz in Hout.
    assert (HqL : ~ In q L).
    { apply (live_not_listed s T L x q Ha); try assumption.
      intros z Hz. apply Hm. exact Hz. }
    cbn [s' cells set_cells]. apply HeadFoot_ext.
    - rewrite Hpv.
      destruct (Z.eqb_spec q (next_free (cells s y))) as [E | _]; [| reflexivity].
      exfalso. apply HqL. rewrite E.
      destruct (chain_next_in _ _ _ _ Hc HyL) as [H | H]; [exact H |].
      rewrite H. exact (heap_ok_anchor_in _ _ Hok).
    - rewrite Hnx.
      destruct (Z.eqb_spec q (previous_free (cells s y))) as [E | _]; [| reflexivity].
      exfalso. apply HqL. rewrite E.
      exact (chain_prev_in _ _ _ Hc Hhd HyL).
    - apply Hms.
    - rewrite Hma.
      destruct (Z.eqb_spec q y) as [E | _]; [lia |].
      destruct (Z.eqb_spec q (foot s y)) as [E | _]; [lia | reflexivity]. }
  destruct (Z.eqb_spec y (freelist s)) as [Eyf | Nyf].
  - (* the block is the anchor: the member before it becomes the anchor *)
    destruct L as [| a t]; [discriminate |]. injection Hhd as Ea.
    rewrite <- Eyf in Ea. subst a.
    assert (Hlo_in : In (mem_start_brk s) (y :: t)) by (apply Hm; left; reflexivity).
    assert (Ht : t <> []).
    { intros ->. destruct Hlo_in as [E | []]. lia. }
    destruct (exists_last Ht) as (t' & z & ->).
    rewrite <- Eyf in Hc.
    destruct (chain_first _ _ _ _ Hc) as [Hny Hpy].
    assert (Ef' : f' = z) by (unfold f'; exact Hpy).
    exists s', (z :: t').
    split; [exact Hrun |].
    split; [| split; [exact Hlive | repeat split; try assumption; apply Hms]].
    constructor; [exact Harena | | ].
    + constructor.
      * cbn [s' freelist set_cells set_anchor hd_error]. rewrite Ef'. reflexivity.
      * apply (nodup_turn (y :: t') [] z) in Hnd. cbn [app] in Hnd.
        apply NoDup_cons_iff in Hnd. destruct Hnd as [Hz Hnd].
        apply NoDup_cons_iff in Hnd. destruct Hnd as [_ Hnd].
        constructor; [| exact Hnd]. intros Hin. apply Hz. right. exact Hin.
      * cbn [s' freelist set_cells set_anchor]. rewrite Ef'.
        apply (chain_remove_first s _ y t' z Hc Hnd); cbn [cells set_cells].
        -- rewrite Hnx, Hpy, Z.eqb_refl. exact Hny.
        -- rewrite Hpv, Hny, Z.eqb_refl. exact Hpy.
        -- intros q Hq. rewrite Hnx, Hpy.
           destruct (Z.eqb_spec q z); [contradiction | reflexivity].
        -- intros q Hq. rewrite Hpv, Hny.
           destruct (Z.eqb_spec q (hd z t')); [contradiction | reflexivity].
    + apply Hmem. intros x. cbn [In]. rewrite !in_app_iff. cbn [In].
      apply NoDup_cons_iff in Hnd. destruct Hnd as [Hy' _].
      rewrite in_app_iff in Hy'. cbn [In] in Hy'.
      split.
      * intros [<- | Hx]; (split; [tauto |]); intros ->; tauto.
      * intros [[<- | [Hx | [<- | []]]] Hne]; tauto.
  - (* the block is another member *)
    destruct (in_split _ _ HyL) as (pre & post & ->).
    assert (Hpre : pre <> []).
    { intros ->. cbn [app hd_error] in Hhd. injection Hhd as E. contradiction. }
    assert (Hhd' : hd_error pre = Some (freelist s))
      by (destruct pre; [contradiction | exact Hhd]).
    destruct (chain_at _ _ _ _ _ Hc Hpre) as [Hpy Hny].
    assert (Ef' : f' = freelist s) by reflexivity.
    exists s', (pre ++ post).
    split; [exact Hrun |].
    split; [| split; [exact Hlive | repeat split; try assumption; apply Hms]].
    constructor; [exact Harena | | ].
    + constructor.
      * cbn [s' freelist set_cells set_anchor]. rewrite Ef'.
        destruct pre; [contradiction | exact Hhd].
      * exact (NoDup_remove_1 _ _ _ Hnd).
      * cbn [s' freelist set_cells set_anchor]. rewrite Ef'.
        apply (chain_remove s _ _ pre y post Hc Hpre Hnd); cbn [cells set_cells].
        -- destruct pre as [| a p]; [contradiction |]. injection Hhd' as ->.
           cbn [tl app]. cbn [app] in Hnd. apply NoDup_cons_iff in Hnd. tauto.
        -- rewrite Hnx, Hpy, Z.eqb_refl. exact Hny.
        -- rewrite Hpv, Hny, Z.eqb_refl. exact Hpy.
        -- intros q Hq. rewrite Hnx, Hpy.
           destruct (Z.eqb_spec q (last pre y)); [contradiction | reflexivity].
        -- intros q Hq. rewrite Hpv, Hny.
           destruct (Z.eqb_spec q (hd (freelist s) post));
             [contradiction | reflexivity].
    + apply Hmem. intros x. rewrite !in_app_iff. cbn [In].
      pose proof (NoDup_remove_2 _ _ _ Hnd) as Hy'.
      rewrite in_app_iff in Hy'.
      split.
      * intros Hx. split; [tauto |]. intros ->. tauto.
      * intros [[Hx | [<- | Hx]] Hne]; tauto.
Qed.

Lemma place_wf s T L r y :
  heap_wf s T L -> In y T -> alloc_or_not (cells s y) = false ->
  1 <= r < 2 ^ 63 -> r <= size_of_blk (cells s y) ->
  exists p s' T' L',
    place r y s = Done p s' /\ heap_wf s' T' L'
    /\ live_kept s s' T T' NULL
    /\ ~ (In p T /\ alloc_or_not (cells s p) = true)
    /\ In p T' /\ alloc_or_not (cells s' p) = true
    /\ r <= size_of_blk (cells s' p)
    /\ mem_brk s' = mem_brk s /\ mem_start_brk s' = mem_start_brk s
    /\ mem_max_addr s' = mem_max_addr s /\ errno s' = errno s.
Proof.
  intros Hwf Hy Hfree Hr Hfit.
  destruct (Z_le_gt_dec (r + 4) (size_of_blk (cells s y))) as [Hbig | Hsmall].
  - destruct (place_split_wf s T L r y Hwf Hy Hfree ltac:(lia) Hbig)
      as (p & s' & T' & Hrun & Hwf' & Hlive & Hnew & Hp & Hal & Hsz & Hrest).
    exists p, s', T', L.
    split; [exact Hrun |]. split; [exact Hwf' |]. split; [exact Hlive |].
    split; [tauto |]. split; [exact Hp |].
    split; [exact Hal |]. split; [lia | exact Hrest].
  - destruct (place_whole_wf s T L r y Hwf Hy Hfree ltac:(lia) ltac:(lia))
      as (s' & L' & Hrun & Hwf' & Hlive & Hal & Hsz & Hrest).
    exists y, s', T, L'.
    split; [exact Hrun |]. split; [exact Hwf' |]. split; [exact Hlive |].
    split; [rewrite Hfree; intros [_ C]; discriminate |]. split; [exact Hy |].
    split; [exact Hal |]. split; [lia | exact Hrest].
Qed.

(** ** Release keeps the heap well formed *)

Lemma tiling_nodup s l : forall b e, tiling s b l e -> NoDup l.
Proof.
  induction l as [| x t IH]; intros b e Ht; [constructor |].
  destruct Ht as (-> & Hsz & Ht). constructor; [| exact (IH _ _ Ht)].
  intros Hin. destruct (tiling_in _ _ _ _ _ Ht Hin) as (Hle & _).
  unfold padd, sizeof_HeadFoot in Hle. lia.
Qed.

(** The members of a list whose members are the leading sentinel and blocks
    of the tiling are on the grid. *)
Lemma listed_valid s T L b x :
  arena_wf s T -> listed s T L b -> In x L -> valid s x = true.
Proof.
  intros Ha Hm Hx. apply Hm in Hx. destruct Hx as [-> | (Hx & _)].
  - exact (proj1 (arena_lead_valid _ _ Ha)).
  - exact (proj1 (arena_member _ _ _ Ha Hx)).
Qed.

(** The merge with a free upper neighbour [u] that is a member of the list
    other than its first, field by field. *)
Lemma merge_upper_fields s x k first pre post :
  let u := padd x k in
  let su := size_of_blk (cells s u) in
  chain s first (pre ++ u :: post) ->
  hd_error pre = Some first ->
  NoDup (pre ++ u :: post) ->
  Forall (fun y => valid s y = true) (pre ++ u :: post) ->
  alloc_or_not (cells s u) = false ->
  valid s x = true -> valid s (padd u (su - 1)) = true ->
  1 <= k -> 1 <= su -> k + su < 2 ^ 31 ->
  exists m,
    merge_upper x k s = Done tt (set_cells s m)
    /\ chain (set_cells s m) first (pre ++ post)
    /\ (forall q, size_of_blk (m q)
                  = if q =? x then k + su
                    else if q =? padd u (su - 1) then k + su
                         else size_of_blk (cells s q))
    /\ (forall q, alloc_or_not (m q) = alloc_or_not (cells s q))
    /\ (forall q, next_free (m q)
                  = if q =? previous_free (cells s u) then next_free (cells s u)
                    else next_free (cells s q))
    /\ (forall q, previous_free (m q)
                  = if q =? next_free (cells s u) then previous_free (cells s u)
                    else previous_free (cells s q)).
Proof.
  intros u su Hc Hhd Hnd Hv Au Vx Vft Hk Hsu H31.
  assert (Hne : pre <> []) by (intros ->; discriminate).
  destruct (chain_at _ _ _ _ _ Hc Hne) as [Hp Hn].
  pose proof Hv as Hv'. rewrite Forall_forall in Hv'.
  assert (Vu : valid s u = true)
    by (apply Hv', in_or_app; right; left; reflexivity).
  assert (Hfin : In first pre)
    by (destruct pre as [| a p]; [discriminate |]; injection Hhd as ->; left; reflexivity).
  assert (Vb : valid s (previous_free (cells s u)) = true)
    by (rewrite Hp; apply Hv', in_or_app; left; apply last_in; assumption).
  assert (Va : valid s (next_free (cells s u)) = true).
  { rewrite Hn. destruct post as [| z post']; cbn [hd].
    - apply Hv', in_or_app. left. assumption.
    - apply Hv', in_or_app. right. right. left. reflexivity. }
  assert (Hw2 : wrap (k + su) = k + su) by (apply wrap_small; lia).
  assert (Hw3 : wrap (k + su - 1) = k + su - 1) by (apply wrap_small; lia).
  assert (Ht : trunc31 (k + su) = k + su) by (apply trunc31_small; lia).
  assert (E1 : padd x (k + su - 1) = padd u (su - 1))
    by (unfold u, padd, sizeof_HeadFoot; lia).
  destruct (takefromlist_fields s u Vu Vb Va) as (m1 & Hrun & Hsz1 & Hal1 & Hnx1 & Hpv1).
  unfold merge_upper. fold u. unfold bind at 1. run_load. rewrite Au. cbn [negb].
  unfold bind at 1. rewrite Hrun.
  unfold bind at 1. run_load. stateful.
  rewrite Hsz1. fold su. rewrite Hw2, Hw3, E1.
  unfold set_size. unfold bind at 1. run_store. stateful. run_store. stateful.
  eexists. split; [reflexivity |].
  split; [| repeat split; intros q; autorewrite with fields;
            rewrite ?Ht, ?Hsz1, ?Hal1, ?Hnx1, ?Hpv1; reflexivity].
  apply (chain_remove s _ first pre u post); try assumption;
    cbn [cells set_cells]; intros; autorewrite with fields;
    rewrite ?Hnx1, ?Hpv1, ?Hp, ?Hn.
  - destruct pre as [| a p]; [contradiction |]. injection Hhd as ->.
    cbn [tl app]. inversion Hnd; assumption.
  - rewrite Z.eqb_refl. reflexivity.
  - rewrite Z.eqb_refl. reflexivity.
  - destruct (Z.eqb_spec q (last pre u)); [contradiction | reflexivity].
  - destruct (Z.eqb_spec q (hd first post)); [contradiction | reflexivity].
Qed.

(** The merge with the upper neighbour, on a well-formed heap whose anchor
    [c] is a free block. *)
Lemma merge_upper_wf s T L c :
  heap_wf s T L -> freelist s = c -> In c T ->
  alloc_or_not (cells s c) = false ->
  exists s' T' L',
    merge_upper c (size_of_blk (cells s c)) s = Done tt s'
    /\ heap_wf s' T' L'
    /\ live_kept s s' T T' NULL
    /\ (freelist s' = c /\ In c T' /\ alloc_or_not (cells s' c) = false
        /\ size_of_blk (cells s c) <= size_of_blk (cells s' c))
    /\ mem_brk s' = mem_brk s /\ mem_start_brk s' = mem_start_brk s
    /\ mem_max_addr s' = mem_max_addr s /\ errno s' = errno s.
Proof.
  intros Hwf Hanchor Hc Hfree.
  pose proof Hwf as [Ha Hl Hm].
  destruct (arena_member _ _ _ Ha Hc) as (Vc & Vfc & Hlo & Hk & Hhi).
  set (k := size_of_blk (cells s c)) in *.
  set (u := padd c k).
  destruct (in_split _ _ Hc) as (pre & post & ET).
  pose proof (aw_tiles _ _ Ha) as Ht. rewrite ET in Ht.
  pose proof Ht as Ht0. apply tiling_at in Ht. destruct Ht as (Hpre & _ & Hpost).
  fold k u in Hpost.
  assert (Hskip : alloc_or_not (cells s u) = true -> valid s u = true ->
                  exists s' T' L',
                    merge_upper c k s = Done tt s' /\ heap_wf s' T' L'
                    /\ live_kept s s' T T' NULL
                    /\ (freelist s' = c /\ In c T'
                        /\ alloc_or_not (cells s' c) = false
                        /\ k <= size_of_blk (cells s' c))
                    /\ mem_brk s' = mem_brk s /\ mem_start_brk s' = mem_start_brk s
                    /\ mem_max_addr s' = mem_max_addr s /\ errno s' = errno s).
  { intros Hau Vu. exists s, T, L.
    rewrite (merge_upper_skip s c k Vu Hau).
    split; [reflexivity |]. split; [exact Hwf |].
    split; [apply live_kept_refl |].
    split; [repeat split; try assumption; fold k; lia |].
    repeat split; reflexivity. }
  destruct post as [| u' post'].
  - (* the trailing sentinel follows *)
    cbn in Hpost. apply Hskip.
    + rewrite Hpost. exact (aw_trail _ _ Ha).
    + rewrite Hpost. exact (proj2 (proj2 (arena_lead_valid _ _ Ha))).
  - destruct Hpost as (Eu & Hsu & Hpost'). subst u'.
    assert (HuT : In u T)
      by (rewrite ET; apply in_or_app; right; right; left; reflexivity).
    destruct (arena_member _ _ _ Ha HuT) as (Vu & Vfu & _ & Hsu' & Hhiu).
    destruct (alloc_or_not (cells s u)) eqn:Hau; [apply Hskip; auto |].
    set (su := size_of_blk (cells s u)) in *.
    assert (HuL : In u L) by (apply Hm; right; split; assumption).
    assert (Huc : u <> c) by (unfold u, padd, sizeof_HeadFoot; lia).
    pose proof (lw_anchor _ _ Hl) as Hhd. rewrite Hanchor in Hhd.
    pose proof (lw_nodup _ _ Hl) as Hnd.
    pose proof (lw_chain _ _ Hl) as Hch. rewrite Hanchor in Hch.
    destruct (in_split _ _ HuL) as (preL & postL & EL).
    assert (HpreL : hd_error preL = Some c).
    { rewrite EL in Hhd. destruct preL as [| a p]; [| exact Hhd].
      cbn in Hhd. injection Hhd as E. contradiction. }
    assert (Hvalid : Forall (fun y => valid s y = true) L).
    { apply Forall_forall. intros y Hy.
      apply (heap_ok_member_valid s L); [exact (heap_wf_ok _ _ _ Hwf) | exact Hy]. }
    assert (H31 : k + su < 2 ^ 31).
    { apply (arena_span s T c); [exact Ha | lia |].
      unfold u, padd, sizeof_HeadFoot in Hhiu. fold su in Hhiu. lia. }
    rewrite EL in Hch, Hnd, Hvalid.
    assert (Hnu : In (next_free (cells s u)) L).
    { rewrite <- EL in Hch.
      destruct (chain_next_in _ _ _ _ Hch HuL) as [H | H]; [exact H |].
      rewrite H, <- Hanchor. exact (heap_ok_anchor_in _ _ (heap_wf_ok _ _ _ Hwf)). }
    assert (Hpu : In (previous_free (cells s u)) L).
    { apply (chain_prev_in s L u); [exact (lw_chain _ _ Hl) | exact (lw_anchor _ _ Hl) |
        exact HuL]. }
    destruct (merge_upper_fields s c k c preL postL)
      as (m & Hrun & Hch' & Hsz & Hal & Hnx & Hpv); try assumption; try lia.
    fold u in Hnx, Hpv.
    fold u su in Hsz. change (padd u (su - 1)) with (foot s u) in Hsz.
    assert (Hfu : u <= foot s u < u + 24 * su)
      by (unfold foot, padd, sizeof_HeadFoot; fold su; lia).
    assert (Hcu : c + 24 * k = u) by (unfold u, padd, sizeof_HeadFoot; lia).
    set (s' := set_cells s m) in *.
    assert (Hsz_out : forall q, q < c \/ u + 24 * su <= q ->
               size_of_blk (cells s' q) = size_of_blk (cells s q)).
    { intros q Hq. cbn [s' cells set_cells]. rewrite Hsz.
      destruct (Z.eqb_spec q c); [lia |].
      destruct (Z.eqb_spec q (foot s u)); [lia | reflexivity]. }
    exists s', (pre ++ c :: post'), (preL ++ postL).
    split; [exact Hrun |].
    split; [| split; [| split; [| repeat split; reflexivity]]];
      [| intros x Hx _ Hax;
         assert (Hxc : x <> c) by (intros ->; rewrite Hfree in Hax; discriminate);
         assert (Hxu : x <> u) by (intros ->; rewrite Hau in Hax; discriminate);
         split;
         [ rewrite ET in Hx; apply in_app_or in Hx;
           destruct Hx as [Hx | [E | [E | Hx]]]; try congruence;
           apply in_or_app; cbn [In]; auto
         | intros q Hq;
           pose proof (live_outside s T x c q Ha Hx Hc Hxc Hq) as Ho1;
           pose proof (live_outside s T x u q Ha Hx HuT Hxu Hq) as Ho2;
           fold k in Ho1; fold su in Ho2;
           assert (HqL : ~ In q L)
             by (apply (live_not_listed s T L x q Ha); try assumption;
                 intros z Hz; apply Hm; exact Hz);
           cbn [s' cells set_cells]; apply HeadFoot_ext;
           [ rewrite Hpv;
             destruct (Z.eqb_spec q (next_free (cells s u))) as [E | _];
               [exfalso; apply HqL; rewrite E; exact Hnu | reflexivity]
           | rewrite Hnx;
             destruct (Z.eqb_spec q (previous_free (cells s u))) as [E | _];
               [exfalso; apply HqL; rewrite E; exact Hpu | reflexivity]
           | rewrite Hsz;
             destruct (Z.eqb_spec q c) as [E | _]; [lia |];
             destruct (Z.eqb_spec q (foot s u)) as [E | _]; [lia | reflexivity]
           | apply Hal ] ]
       | split; [exact Hanchor |];
         split; [apply in_or_app; right; left; reflexivity |];
         cbn [s' cells set_cells]; rewrite Hal, Hsz, Z.eqb_refl;
         split; [exact Hfree | lia]].
    assert (Hpre_lt : forall x, In x pre -> foot s x < c /\ x < c).
    { intros x Hx. pose proof (tiling_before _ _ _ _ _ _ _ Ht0 Hx).
      destruct (tiling_in _ _ _ _ _ Hpre Hx) as (_ & ? & _).
      unfold foot, padd, sizeof_HeadFoot. lia. }
    assert (Hpost_ge : forall x, In x post' -> u + 24 * su <= x).
    { intros x Hx. destruct (tiling_in _ _ _ _ _ Hpost' Hx) as (H & _).
      unfold padd, sizeof_HeadFoot in H. fold su in H. lia. }
    constructor.
    + constructor; cbn [s' mem_start_brk mem_max_addr mem_brk set_cells].
      * exact (aw_base _ _ Ha).
      * exact (aw_max _ _ Ha).
      * exact (aw_cap _ _ Ha).
      * exact (aw_brk _ _ Ha).
      * fold s'. rewrite Hsz_out by lia. exact (aw_lead_size _ _ Ha).
      * rewrite Hal. exact (aw_lead_head _ _ Ha).
      * rewrite Hal. exact (aw_lead_foot _ _ Ha).
      * fold s'. apply tiling_at. split; [| split].
        -- apply (tiling_ext s); [| exact Hpre]. intros x Hx.
           apply Hsz_out. left. apply Hpre_lt. exact Hx.
        -- cbn [s' cells set_cells]. rewrite Hsz, Z.eqb_refl. lia.
        -- cbn [s' cells set_cells]. rewrite Hsz, Z.eqb_refl. fold s'.
           replace (padd c (k + su)) with (padd u su)
             by (unfold u, padd, sizeof_HeadFoot; lia).
           apply (tiling_ext s); [| exact Hpost']. intros x Hx.
           apply Hsz_out. right. apply Hpost_ge. exact Hx.
      * rewrite Hal. exact (aw_trail _ _ Ha).
      * pose proof (aw_feet _ _ Ha) as Hf. rewrite Forall_forall in Hf.
        apply Forall_forall. intros x Hx.
        apply in_app_or in Hx. destruct Hx as [Hx | [<- | Hx]].
        -- assert (HxT : In x T) by (rewrite ET; apply in_or_app; left; exact Hx).
           destruct (Hpre_lt x Hx) as [Hf1 Hx1].
           assert (Ex : size_of_blk (cells s' x) = size_of_blk (cells s x))
             by (apply Hsz_out; lia).
           assert (Ef : foot s' x = foot s x) by (unfold foot; rewrite Ex; reflexivity).
           unfold footer_ok. rewrite Ef, Ex, Hsz_out by lia.
           cbn [s' cells set_cells]. rewrite !Hal. exact (Hf x HxT).
        -- assert (Ef : foot s' c = foot s u).
           { unfold foot. cbn [s' cells set_cells]. rewrite Hsz, Z.eqb_refl.
             fold su. unfold u, padd, sizeof_HeadFoot. lia. }
           unfold footer_ok. rewrite Ef. cbn [s' cells set_cells].
           rewrite !Hsz, !Hal, !Z.eqb_refl.
           destruct (Z.eqb_spec (foot s u) c); [lia |].
           split; [reflexivity | intros _; exact Hfree].
        -- assert (HxT : In x T)
             by (rewrite ET; apply in_or_app; right; right; right; exact Hx).
           pose proof (Hpost_ge x Hx) as Hx1.
           destruct (arena_member _ _ _ Ha HxT) as (_ & _ & _ & Hsx & _).
           assert (Ex : size_of_blk (cells s' x) = size_of_blk (cells s x))
             by (apply Hsz_out; lia).
           assert (Ef : foot s' x = foot s x) by (unfold foot; rewrite Ex; reflexivity).
           assert (Hfx : x <= foot s x) by (unfold foot, padd, sizeof_HeadFoot; lia).
           unfold footer_ok. rewrite Ef, Ex, Hsz_out by lia.
           cbn [s' cells set_cells]. rewrite !Hal. exact (Hf x HxT).
    + constructor; cbn [s' freelist set_cells]; rewrite ?Hanchor.
      * destruct preL; [discriminate | exact HpreL].
      * exact (NoDup_remove_1 _ _ _ Hnd).
      * exact Hch'.
    + intros x. cbn [s' mem_start_brk cells set_cells]. rewrite Hal.
      pose proof (NoDup_remove_2 _ _ _ Hnd) as HuL'.
      pose proof (tiling_nodup _ _ _ _ (aw_tiles _ _ Ha)) as HndT.
      rewrite ET in HndT.
      assert (HuT' : ~ In u (pre ++ c :: post')).
      { change (pre ++ c :: u :: post') with (pre ++ [c] ++ u :: post') in HndT.
        rewrite app_assoc in HndT. apply NoDup_remove_2 in HndT.
        rewrite <- app_assoc in HndT. exact HndT. }
      assert (HinT : In x T <-> In x (pre ++ c :: post') \/ x = u).
      { rewrite ET, !in_app_iff. cbn [In]. split; intros; intuition auto. }
      assert (HinL : In x L <-> In x (preL ++ postL) \/ x = u).
      { rewrite EL, !in_app_iff. cbn [In]. split; intros; intuition auto. }
      specialize (Hm x). rewrite HinT, HinL in Hm.
      split.
      * intros Hx. destruct (proj1 Hm (or_introl Hx)) as [E | [[HxT | E] Hfx]]; auto.
        subst x. contradiction.
      * intros [E | [HxT Hfx]].
        -- destruct (proj2 Hm (or_introl E)) as [H | H]; [exact H | lia].
        -- destruct (proj2 Hm (or_intror (conj (or_introl HxT) Hfx))) as [H | H];
             [exact H |]. subst x. contradiction.
Qed.

(** The first part of [returnfreeblocktolist], for a block [b] of the
    tiling that is not on the list: afterwards the heap is well formed, the
    anchor is a free block - [b], or the lower neighbour that absorbed it -
    and the merge with the upper neighbour is left to run. *)
Lemma release_front_wf s T L b :
  arena_wf s T -> list_wf s L -> listed s T L b -> In b T ->
  exists s1 T1 L1 c,
    returnfreeblocktolist b s = merge_upper c (size_of_blk (cells s1 c)) s1
    /\ heap_wf s1 T1 L1 /\ live_kept s s1 T T1 b
    /\ freelist s1 = c /\ In c T1
    /\ alloc_or_not (cells s1 c) = false
    /\ (c <= b
        /\ b + 24 * size_of_blk (cells s b)
           <= c + 24 * size_of_blk (cells s1 c))
    /\ mem_brk s1 = mem_brk s /\ mem_start_brk s1 = mem_start_brk s
    /\ mem_max_addr s1 = mem_max_addr s /\ errno s1 = errno s.
Proof.
  intros Ha Hl Hm Hb. pose proof Hm as Hlisted. unfold listed in Hm.
  destruct (arena_member _ _ _ Ha Hb) as (Vb & Vfb & Hlo & Hh & Hhi).
  set (h := size_of_blk (cells s b)) in *.
  change (foot s b) with (padd b (h - 1)) in Vfb.
  assert (Vp : valid s (padd b (-1)) = true).
  { replace (padd b (-1)) with (b + 24 * (-1)) by (unfold padd, sizeof_HeadFoot; lia).
    apply valid_shift; [exact Vb | lia |].
    apply valid_iff in Vb. lia. }
  assert (Hfb : b <= padd b (h - 1) < b + 24 * h)
    by (unfold padd, sizeof_HeadFoot; lia).
  destruct (in_split _ _ Hb) as (pre & post & ET).
  pose proof (aw_tiles _ _ Ha) as Ht. rewrite ET in Ht.
  pose proof (lw_anchor _ _ Hl) as Hhd.
  pose proof (lw_nodup _ _ Hl) as Hnd.
  pose proof (lw_chain _ _ Hl) as Hch.
  assert (HbL : ~ In b L).
  { intros Hin. apply Hm in Hin. destruct Hin as [E | (_ & Hne & _)]; [lia | auto]. }
  destruct (alloc_or_not (cells s (padd b (-1)))) eqn:Ap.
  - (* the lower neighbour is allocated: the block is linked in *)
    destruct L as [| f0 t]; [discriminate |]. injection Hhd as Ef. subst f0.
    set (f := freelist s) in *.
    assert (Vf : valid s f = true)
      by (apply (listed_valid s T (f :: t) b); [exact Ha | exact Hlisted | left; reflexivity]).
    assert (Vaf : valid s (next_free (cells s f)) = true).
    { destruct (chain_next_in _ _ _ _ Hch (or_introl eq_refl)) as [H | H].
      - apply (listed_valid s T (f :: t) b); assumption.
      - rewrite H. exact Vf. }
    destruct (release_front_insert s b) as (m & Hrun & Hsz & Hal & Hnx & Hpv);
      try assumption.
    fold h in Hrun, Hal. fold f in Hnx, Hpv.
    set (s1 := set_cells (set_anchor s b) m) in *.
    assert (Hab : alloc_or_not (cells s1 b) = false)
      by (cbn [s1 cells set_cells]; rewrite Hal, Z.eqb_refl; reflexivity).
    assert (Hlive : live_kept s s1 T T b).
    { intros x Hx Hne Hax. split; [exact Hx |]. intros q Hq.
      pose proof (live_outside s T x b q Ha Hx Hb Hne Hq) as Ho. fold h in Ho.
      assert (HqL : ~ In q (f :: t)).
      { apply (live_not_listed s T (f :: t) x q Ha); try assumption.
        intros z Hz. apply Hm in Hz. tauto. }
      cbn [s1 cells set_cells]. apply HeadFoot_ext.
      - rewrite Hpv.
        destruct (Z.eqb_spec q (next_free (cells s f))) as [E | _].
        + exfalso. apply HqL. rewrite E.
          destruct (chain_next_in _ _ _ _ Hch (or_introl eq_refl)) as [H | H];
            [exact H | rewrite H; left; reflexivity].
        + destruct (Z.eqb_spec q b); [lia | reflexivity].
      - rewrite Hnx.
        destruct (Z.eqb_spec q f) as [E | _];
          [exfalso; apply HqL; left; auto |].
        destruct (Z.eqb_spec q b); [lia | reflexivity].
      - apply Hsz.
      - rewrite Hal. destruct (Z.eqb_spec q b); [lia |].
        destruct (Z.eqb_spec q (padd b (h - 1))); [lia | reflexivity]. }
    exists s1, T, (b :: t ++ [f]), b.
    split; [cbn [s1 cells set_cells]; rewrite Hsz; exact Hrun |].
    split; [| split; [exact Hlive | split; [reflexivity | split; [exact Hb |
      split; [exact Hab |
      split; [cbn [s1 cells set_cells]; rewrite Hsz; fold h; lia |
              repeat split; reflexivity]]]]]].
    constructor.
    + apply (arena_retag s s1 T b Ha Hb); try reflexivity.
      * intros q. apply Hsz.
      * intros q H1 H2. cbn [s1 cells set_cells]. rewrite Hal.
        destruct (Z.eqb_spec q b); [contradiction |].
        destruct (Z.eqb_spec q (padd b (h - 1))); [contradiction | reflexivity].
      * intros _. exact Hab.
    + constructor.
      * reflexivity.
      * constructor; [| apply nodup_snoc; exact Hnd].
        intros Hin. apply HbL. apply in_app_or in Hin.
        destruct Hin as [Hin | [<- | []]]; [right; exact Hin | left; reflexivity].
      * cbn [s1 freelist set_cells set_anchor].
        apply (chain_insert s s1 b t Hch Hnd HbL); assumption.
    + intros x. cbn [s1 mem_start_brk cells set_cells set_anchor].
      assert (HinL : In x (b :: t ++ [f]) <-> x = b \/ In x (f :: t)).
      { cbn [In]. rewrite in_app_iff. cbn [In]. split; intros; intuition auto. }
      rewrite HinL, Hm. rewrite Hal. split.
      * intros [-> | [E | (Hx & Hne & Hfx)]].
        -- right. rewrite Z.eqb_refl. auto.
        -- left. exact E.
        -- right. split; [exact Hx |].
           destruct (Z.eqb_spec x b); [reflexivity |].
           destruct (Z.eqb_spec x (padd b (h - 1))); [reflexivity | exact Hfx].
      * intros [E | (Hx & Hfx)]; [right; left; exact E |].
        destruct (Z.eqb_spec x b) as [E | Hne]; [left; exact E |].
        right. right. split; [exact Hx |]. split; [exact Hne |].
        destruct (tiling_other _ _ _ _ _ _ (aw_tiles _ _ Ha) Hb Hx Hne) as [Hx1 _].
        fold h in Hx1.
        destruct (Z.eqb_spec x (padd b (h - 1))); [lia | exact Hfx].
  - (* the lower neighbour is free: it absorbs the block *)
    assert (Hpre : pre <> []).
    { intros ->. cbn [app tiling] in Ht. destruct Ht as (E & _).
      rewrite E in Ap.
      replace (padd (padd (mem_start_brk s) 4) (-1)) with (padd (mem_start_brk s) 3)
        in Ap by (unfold padd, sizeof_HeadFoot; lia).
      rewrite (aw_lead_foot _ _ Ha) in Ap. discriminate. }
    destruct (exists_last Hpre) as (pre' & x & ->).
    rewrite <- app_assoc in ET, Ht. cbn [app] in ET, Ht.
    pose proof Ht as Ht0.
    apply tiling_at in Ht. destruct Ht as (Hpre' & Hsx & Hrest).
    destruct Hrest as (Exb & _ & Hpost). rewrite <- Exb in Hpost. fold h in Hpost.
    set (sx := size_of_blk (cells s x)) in *.
    assert (HxT : In x T)
      by (rewrite ET; apply in_or_app; right; left; reflexivity).
    destruct (arena_member _ _ _ Ha HxT) as (Vx & _ & Hlox & Hsx' & _).
    pose proof (aw_feet _ _ Ha) as Hf. rewrite Forall_forall in Hf.
    destruct (Hf x HxT) as [Hfs Hfa].
    assert (Efx : foot s x = padd b (-1))
      by (unfold foot; fold sx; unfold padd, sizeof_HeadFoot in *; lia).
    rewrite Efx in Hfs, Hfa. fold sx in Hfs.
    assert (Elow : padd b (- size_of_blk (cells s (padd b (-1)))) = x)
      by (rewrite Hfs; unfold padd, sizeof_HeadFoot in *; lia).
    assert (Hxfree : alloc_or_not (cells s x) = false) by (apply Hfa; exact Ap).
    assert (Hxb : x + 24 * sx = b) by (unfold padd, sizeof_HeadFoot in Exb; lia).
    assert (H31 : h + sx < 2 ^ 31).
    { apply (arena_span s T x); [exact Ha | lia | lia]. }
    destruct (release_front_merge s b) as (m & Hrun & Hsz & Hal & Hnx & Hpv);
      try assumption; rewrite ?Elow, ?Hfs; try assumption; try lia; try reflexivity.
    fold h in Hrun, Hsz, Hal. rewrite Elow, Hfs in Hrun, Hsz.
    set (s1 := set_cells (set_anchor s x) m) in *.
    assert (Hsz_out : forall q, q < x \/ b + 24 * h <= q ->
               size_of_blk (cells s1 q) = size_of_blk (cells s q)).
    { intros q Hq. cbn [s1 cells set_cells]. rewrite Hsz.
      destruct (Z.eqb_spec q x); [lia |].
      destruct (Z.eqb_spec q (padd b (h - 1))); [lia | reflexivity]. }
    assert (Hal_out : forall q, q < b \/ b + 24 * h <= q ->
               alloc_or_not (cells s1 q) = alloc_or_not (cells s q)).
    { intros q Hq. cbn [s1 cells set_cells]. rewrite Hal.
      destruct (Z.eqb_spec q b); [lia |].
      destruct (Z.eqb_spec q (padd b (h - 1))); [lia | reflexivity]. }
    assert (Hsx1 : size_of_blk (cells s1 x) = h + sx)
      by (cbn [s1 cells set_cells]; rewrite Hsz, Z.eqb_refl; reflexivity).
    assert (HxL : In x L).
    { apply Hm. right. split; [exact HxT |]. split; [lia | exact Hxfree]. }
    destruct (list_turn s L x Hch Hhd Hnd HxL) as (L1 & Hch1 & Hhd1 & Hnd1 & HL1).
    assert (Hpre_lt : forall z, In z pre' -> foot s z < x /\ z < x).
    { intros z Hz. pose proof (tiling_before _ _ _ _ _ _ _ Ht0 Hz).
      destruct (tiling_in _ _ _ _ _ Hpre' Hz) as (_ & ? & _).
      unfold foot, padd, sizeof_HeadFoot. lia. }
    assert (Hpost_ge : forall z, In z post -> b + 24 * h <= z).
    { intros z Hz. destruct (tiling_in _ _ _ _ _ Hpost Hz) as (H & _).
      unfold padd, sizeof_HeadFoot in H. lia. }
    assert (Hlive : live_kept s s1 T (pre' ++ x :: post) b).
    { intros z Hz Hne Haz.
      assert (Hzx : z <> x) by (intros ->; rewrite Hxfree in Haz; discriminate).
      split.
      - pose proof Hz as Hz'. rewrite ET in Hz'. apply in_app_or in Hz'.
        destruct Hz' as [Hz' | [E | [E | Hz']]]; try congruence;
          apply in_or_app; cbn [In]; auto.
      - intros q Hq.
        pose proof (live_outside s T z b q Ha Hz Hb Hne Hq) as Ho1. fold h in Ho1.
        pose proof (live_outside s T z x q Ha Hz HxT Hzx Hq) as Ho2. fold sx in Ho2.
        cbn [s1 cells set_cells]. apply HeadFoot_ext.
        + apply Hpv.
        + apply Hnx.
        + rewrite Hsz. destruct (Z.eqb_spec q x); [lia |].
          destruct (Z.eqb_spec q (padd b (h - 1))); [lia | reflexivity].
        + rewrite Hal. destruct (Z.eqb_spec q b); [lia |].
          destruct (Z.eqb_spec q (padd b (h - 1))); [lia | reflexivity]. }
    exists s1, (pre' ++ x :: post), L1, x.
    split; [rewrite Hsx1; exact Hrun |].
    split; [| split; [exact Hlive | split; [reflexivity |
      split; [apply in_or_app; right; left; reflexivity |
      split; [rewrite Hal_out by lia; exact Hxfree |
      split; [rewrite Hsx1; fold h; lia | repeat split; reflexivity]]]]]].
    constructor.
    + constructor; cbn [s1 mem_start_brk mem_max_addr mem_brk set_cells set_anchor];
        fold s1.
      * exact (aw_base _ _ Ha).
      * exact (aw_max _ _ Ha).
      * exact (aw_cap _ _ Ha).
      * exact (aw_brk _ _ Ha).
      * rewrite Hsz_out by lia. exact (aw_lead_size _ _ Ha).
      * rewrite Hal_out by lia. exact (aw_lead_head _ _ Ha).
      * rewrite Hal_out by (unfold padd, sizeof_HeadFoot; lia).
        exact (aw_lead_foot _ _ Ha).
      * apply tiling_at. split; [| split].
        -- apply (tiling_ext s); [| exact Hpre']. intros z Hz.
           apply Hsz_out. left. apply Hpre_lt. exact Hz.
        -- rewrite Hsx1. lia.
        -- rewrite Hsx1.
           replace (padd x (h + sx)) with (padd b h)
             by (unfold padd, sizeof_HeadFoot; lia).
           apply (tiling_ext s); [| exact Hpost]. intros z Hz.
           apply Hsz_out. right. apply Hpost_ge. exact Hz.
      * rewrite Hal_out by lia. exact (aw_trail _ _ Ha).
      * apply Forall_forall. intros z Hz.
        apply in_app_or in Hz. destruct Hz as [Hz | [<- | Hz]].
        -- assert (HzT : In z T) by (rewrite ET; apply in_or_app; left; exact Hz).
           destruct (Hpre_lt z Hz) as [Hf1 Hz1].
           assert (Ez : size_of_blk (cells s1 z) = size_of_blk (cells s z))
             by (apply Hsz_out; lia).
           assert (Ef : foot s1 z = foot s z) by (unfold foot; rewrite Ez; reflexivity).
           unfold footer_ok. rewrite Ef, Ez, Hsz_out, !Hal_out by lia.
           exact (Hf z HzT).
        -- assert (Ef : foot s1 x = padd b (h - 1))
             by (unfold foot; rewrite Hsx1; unfold padd, sizeof_HeadFoot; lia).
           unfold footer_ok. rewrite Ef, Hsx1.
           rewrite (Hal_out x) by lia.
           cbn [s1 cells set_cells]. rewrite Hsz, Z.eqb_refl.
           destruct (Z.eqb_spec (padd b (h - 1)) x); [lia |].
           split; [reflexivity | intros _; exact Hxfree].
        -- assert (HzT : In z T)
             by (rewrite ET; apply in_or_app; right; right; right; exact Hz).
           pose proof (Hpost_ge z Hz) as Hz1.
           destruct (arena_member _ _ _ Ha HzT) as (_ & _ & _ & Hsz' & _).
           assert (Ez : size_of_blk (cells s1 z) = size_of_blk (cells s z))
             by (apply Hsz_out; lia).
           assert (Ef : foot s1 z = foot s z) by (unfold foot; rewrite Ez; reflexivity).
           assert (Hfz : z <= foot s z) by (unfold foot, padd, sizeof_HeadFoot; lia).
           unfold footer_ok. rewrite Ef, Ez, Hsz_out, !Hal_out by lia.
           exact (Hf z HzT).
    + constructor; cbn [s1 freelist set_cells set_anchor].
      * exact Hhd1.
      * exact Hnd1.
      * apply (chain_ext s); [exact Hch1 | | |]; intros; cbn [cells set_cells]; auto.
    + intros z. cbn [s1 mem_start_brk set_cells set_anchor]. fold s1.
      rewrite HL1, Hm.
      pose proof (tiling_nodup _ _ _ _ (aw_tiles _ _ Ha)) as HndT.
      rewrite ET in HndT.
      assert (HbT' : ~ In b (pre' ++ x :: post)).
      { change (pre' ++ x :: b :: post) with (pre' ++ [x] ++ b :: post) in HndT.
        rewrite app_assoc in HndT. apply NoDup_remove_2 in HndT.
        rewrite <- app_assoc in HndT. exact HndT. }
      assert (HinT : In z T <-> In z (pre' ++ x :: post) \/ z = b).
      { rewrite ET, !in_app_iff. cbn [In]. split; intros; intuition auto. }
      rewrite HinT.
      assert (Hsame : In z (pre' ++ x :: post) ->
                 alloc_or_not (cells s1 z) = alloc_or_not (cells s z)).
      { intros Hz. apply Hal_out. apply in_app_or in Hz.
        destruct Hz as [Hz | [<- | Hz]].
        - left. destruct (Hpre_lt z Hz). lia.
        - left. lia.
        - right. apply Hpost_ge. exact Hz. }
      split.
      * intros [E | ([Hz | E] & Hne & Hfz)]; [left; exact E | | contradiction].
        right. split; [exact Hz |]. rewrite Hsame by exact Hz. exact Hfz.
      * intros [E | (Hz & Hfz)]; [left; exact E |]. right.
        split; [left; exact Hz |]. split; [intros ->; contradiction |].
        rewrite <- Hsame by exact Hz. exact Hfz.
Qed.

(** Releasing a block of the tiling that is not on the list leaves a
    well-formed heap, whose anchor is the free block that holds the units
    of the released one. *)
Lemma release_wf s T L b :
  arena_wf s T -> list_wf s L -> listed s T L b -> In b T ->
  exists s' T' L',
    returnfreeblocktolist b s = Done tt s' /\ heap_wf s' T' L'
    /\ live_kept s s' T T' b
    /\ (In (freelist s') T' /\ alloc_or_not (cells s' (freelist s')) = false
        /\ freelist s' <= b
        /\ b + 24 * size_of_blk (cells s b)
           <= freelist s' + 24 * size_of_blk (cells s' (freelist s')))
    /\ mem_brk s' = mem_brk s /\ mem_start_brk s' = mem_start_brk s
    /\ mem_max_addr s' = mem_max_addr s /\ errno s' = errno s.
Proof.
  intros Ha Hl Hm Hb.
  destruct (release_front_wf s T L b Ha Hl Hm Hb)
    as (s1 & T1 & L1 & c & Hrun & Hwf1 & Hlive1 & Hc & HcT & Hfree & (Hcb & Hsz)
        & E1 & E2 & E3 & E4).
  destruct (merge_upper_wf s1 T1 L1 c Hwf1 Hc HcT Hfree)
    as (s' & T' & L' & Hrun' & Hwf' & Hlive2 & (Hc' & HcT' & Hfree' & Hsz')
        & F1 & F2 & F3 & F4).
  exists s', T', L'. rewrite Hrun, Hrun', Hc'.
  split; [reflexivity |]. split; [exact Hwf' |].
  split.
  { apply (live_kept_trans s s1 s' T T1 T' b NULL Ha Hlive1 Hlive2).
    intros x Hx _ _. destruct (arena_member _ _ _ Ha Hx) as (_ & _ & Hlo & _).
    pose proof (aw_base _ _ Ha). unfold NULL. lia. }
  split; [split; [exact HcT' | split; [exact Hfree' | split; lia]] |].
  repeat split; congruence.
Qed.

Lemma tiling_tiles s l :
  forall b e,
    tiling s b l e -> (forall x, In x l -> valid s x = true) -> tiles s b l.
Proof.
  induction l as [| x t IH]; intros b e Ht Hv; [exact I |].
  destruct Ht as (-> & Hsz & Ht). cbn [tiles].
  split; [reflexivity |]. split; [apply Hv; left; reflexivity |].
  split; [exact Hsz |]. apply (IH _ _ Ht). intros y Hy. apply Hv. right. exact Hy.
Qed.

Lemma heap_wf_set_err s T L e : heap_wf s T L -> heap_wf (set_err s e) T L.
Proof.
  intros [Ha Hl Hm]. constructor.
  - destruct Ha. constructor; try assumption.
    apply (tiling_ext s); [reflexivity | assumption].
  - destruct Hl. constructor; try assumption.
    apply (chain_ext s); [assumption | | |]; reflexivity.
  - exact Hm.
Qed.

(** The blocks from the bottom of the arena on, the leading sentinel first,
    as the walk of [allocatedblock] meets them. *)
Lemma heap_wf_tiles s T L : heap_wf s T L -> tiles s (mem_start_brk s) (mem_start_brk s :: T).
Proof.
  intros [Ha _ _]. cbn [tiles]. split; [reflexivity |].
  split; [exact (proj1 (arena_lead_valid _ _ Ha)) |].
  rewrite (aw_lead_size _ _ Ha). split; [unfold blocks; lia |].
  apply (tiling_tiles s T _ _ (aw_tiles _ _ Ha)).
  intros x Hx. exact (proj1 (arena_member _ _ _ Ha Hx)).
Qed.

(** ** Growth keeps the heap well formed *)

Lemma grow_wf s T L r :
  heap_wf s T L -> 1 <= r -> grow_units r * 24 < 2 ^ 64 ->
  refused s r = false ->
  exists s' T' L',
    increaseheapsize r s = Done (freelist s') s' /\ heap_wf s' T' L'
    /\ live_kept s s' T T' NULL
    /\ In (freelist s') T'
    /\ alloc_or_not (cells s' (freelist s')) = false
    /\ grow_units r <= size_of_blk (cells s' (freelist s'))
    /\ mem_brk s' = mem_brk s + 24 * grow_units r
    /\ mem_start_brk s' = mem_start_brk s
    /\ mem_max_addr s' = mem_max_addr s /\ errno s' = errno s.
Proof.
  intros Hwf Hr Hnw Hg. pose proof Hwf as [Ha Hl Hm].
  pose proof (arena_extent _ _ Ha) as Hext.
  destruct (arena_lead_valid _ _ Ha) as (Vlo & _ & Vtr).
  pose proof (aw_cap _ _ Ha) as Hcap. pose proof (aw_max _ _ Ha) as Hmax.
  pose proof (aw_brk _ _ Ha) as Hbrk. pose proof (aw_base _ _ Ha) as Hbase.
  set (h := grow_units r) in *.
  assert (Hh : 171 <= h /\ r <= h) by (subst h; destruct (grow_units_cases r); lia).
  assert (Hcb : conv_bytes h = 24 * h).
  { unfold conv_bytes, sizeof_HeadFoot. rewrite wrap_small by lia. lia. }
  unfold refused in Hg. apply negb_false_iff in Hg. fold h in Hg. rewrite Hcb in Hg.
  apply Z.leb_le in Hg.
  set (lo := mem_start_brk s) in *. set (B := mem_brk s) in *.
  assert (H31 : h < 2 ^ 31) by lia.
  assert (Hw1 : wrap (h - 1) = h - 1) by (apply wrap_small; lia).
  assert (Ht1 : trunc31 h = h) by (apply trunc31_small; lia).
  assert (Ht0 : trunc31 1 = 1) by reflexivity.
  rewrite increaseheapsize_eq. cbv zeta. fold h. rewrite Hcb.
  unfold bind at 1, mem_sbrk. fold B.
  destruct (Z.leb_spec (B + 24 * h) (mem_max_addr s)) as [_ | ?]; [| lia].
  destruct (Z.eqb_spec B SBRK_FAILED) as [E | _];
    [unfold SBRK_FAILED in E; lia |].
  set (s0 := set_brk s (B + 24 * h)).
  set (t := padd B (-1)).
  assert (Et : t = B - 24) by (unfold t, padd, sizeof_HeadFoot; lia).
  rewrite Hw1.
  assert (Vt : valid s0 t = true).
  { apply valid_set_brk; [rewrite Et; exact Vtr | fold B; lia]. }
  assert (Vf : valid s0 (padd t (h - 1)) = true).
  { replace (padd t (h - 1)) with (t + 24 * (h - 1))
      by (unfold padd, sizeof_HeadFoot; lia).
    apply valid_shift; [exact Vt | |]; subst s0; stateful; fold lo; lia. }
  assert (Vn : valid s0 (padd t h) = true).
  { replace (padd t h) with (t + 24 * h) by (unfold padd, sizeof_HeadFoot; lia).
    apply valid_shift; [exact Vt | |]; subst s0; stateful; fold lo; lia. }
  unfold set_size, set_alloc.
  do 6 (unfold bind at 1; run_store; stateful).
  match goal with |- context [set_cells s0 ?m] => set (m1 := m) end.
  set (s1 := set_cells s0 m1).
  assert (Hft : t < padd t (h - 1) < padd t h)
    by (unfold padd, sizeof_HeadFoot; lia).
  assert (Tsz : forall q, q < t -> size_of_blk (m1 q) = size_of_blk (cells s q)).
  { intros q Hq. subst m1. autorewrite with fields. addr_eqs. reflexivity. }
  assert (Tal : forall q, q < t -> alloc_or_not (m1 q) = alloc_or_not (cells s q)).
  { intros q Hq. subst m1. autorewrite with fields. addr_eqs. reflexivity. }
  assert (Tnx : forall q, next_free (m1 q) = next_free (cells s q)).
  { intros q. subst m1. autorewrite with fields. reflexivity. }
  assert (Tpv : forall q, previous_free (m1 q) = previous_free (cells s q)).
  { intros q. subst m1. autorewrite with fields. reflexivity. }
  assert (Hst : size_of_blk (m1 t) = h).
  { subst m1. autorewrite with fields. addr_eqs. assumption. }
  assert (Hsf : size_of_blk (m1 (padd t (h - 1))) = h).
  { subst m1. autorewrite with fields. addr_eqs. assumption. }
  assert (Hat : alloc_or_not (m1 t) = false).
  { subst m1. autorewrite with fields. addr_eqs. reflexivity. }
  assert (Han : alloc_or_not (m1 (padd t h)) = true).
  { subst m1. autorewrite with fields. addr_eqs. reflexivity. }
  clearbody m1.
  assert (HT_lt : forall x, In x T -> x < t /\ foot s x < t).
  { intros x Hx. destruct (arena_member _ _ _ Ha Hx) as (_ & _ & _ & Hsx & Hhi).
    fold B in Hhi. unfold foot, padd, sizeof_HeadFoot. lia. }
  assert (Ha1 : arena_wf s1 (T ++ [t])).
  { constructor; cbn [s1 s0 mem_start_brk mem_max_addr mem_brk set_cells set_brk cells];
      fold lo.
    - exact Hbase.
    - exact Hmax.
    - exact Hcap.
    - lia.
    - rewrite Tsz by lia. exact (aw_lead_size _ _ Ha).
    - rewrite Tal by lia. exact (aw_lead_head _ _ Ha).
    - rewrite Tal by (unfold padd, sizeof_HeadFoot; lia).
      exact (aw_lead_foot _ _ Ha).
    - apply tiling_app. exists t. split.
      + apply (tiling_ext s).
        * intros x Hx. cbn [cells set_cells]. apply Tsz. apply HT_lt. exact Hx.
        * rewrite Et. exact (aw_tiles _ _ Ha).
      + cbn [tiling s1 cells set_cells]. rewrite Hst.
        split; [reflexivity |]. split; [lia |].
        unfold padd, sizeof_HeadFoot in *. lia.
    - replace (B + 24 * h - 24) with (padd t h)
        by (unfold padd, sizeof_HeadFoot in *; lia).
      exact Han.
    - pose proof (aw_feet _ _ Ha) as Hf. rewrite Forall_forall in Hf.
      apply Forall_forall. intros x Hx.
      apply in_app_or in Hx. destruct Hx as [Hx | [<- | []]].
      + destruct (HT_lt x Hx) as [Hx1 Hx2].
        assert (Ex : size_of_blk (cells s1 x) = size_of_blk (cells s x))
          by (apply Tsz; exact Hx1).
        assert (Ef : foot s1 x = foot s x) by (unfold foot; rewrite Ex; reflexivity).
        unfold footer_ok. rewrite Ef, Ex. cbn [s1 cells set_cells].
        rewrite Tsz, !Tal by assumption. exact (Hf x Hx).
      + unfold footer_ok, foot. cbn [s1 cells set_cells].
        rewrite Hst, Hsf, Hat. split; [reflexivity | reflexivity]. }
  assert (Hl1 : list_wf s1 L).
  { constructor; cbn [s1 s0 freelist set_cells set_brk].
    - exact (lw_anchor _ _ Hl).
    - exact (lw_nodup _ _ Hl).
    - apply (chain_ext s); [exact (lw_chain _ _ Hl) | | |];
        intros; cbn [cells set_cells]; auto. }
  assert (Hlisted : listed s1 (T ++ [t]) L t).
  { intros x. cbn [s1 s0 mem_start_brk cells set_cells set_brk]. rewrite Hm.
    fold lo. split.
    - intros [E | [Hx Hfx]]; [left; exact E |]. right.
      destruct (HT_lt x Hx) as [Hx1 _].
      split; [apply in_or_app; left; exact Hx |]. split; [lia |].
      rewrite Tal by exact Hx1. exact Hfx.
    - intros [E | (Hx & Hne & Hfx)]; [left; exact E |]. right.
      apply in_app_or in Hx. destruct Hx as [Hx | [E | []]]; [| congruence].
      split; [exact Hx |]. rewrite <- Tal by (apply HT_lt; exact Hx). exact Hfx. }
  assert (HtT : In t (T ++ [t])) by (apply in_or_app; right; left; reflexivity).
  destruct (release_wf s1 (T ++ [t]) L t Ha1 Hl1 Hlisted HtT)
    as (s' & T' & L' & Hrun & Hwf' & Hlive2 & (HcT & Hfree & Hc1 & Hc2)
        & E1 & E2 & E3 & E4).
  cbn [s1 cells set_cells] in Hc2. rewrite Hst in Hc2.
  assert (Hlive1 : live_kept s s1 T (T ++ [t]) NULL).
  { intros x Hx _ Hax. split; [apply in_or_app; left; exact Hx |].
    intros q Hq. destruct (arena_member _ _ _ Ha Hx) as (_ & _ & _ & _ & Hhi).
    fold B in Hhi. cbn [s1 cells set_cells].
    apply HeadFoot_ext; [apply Tpv | apply Tnx | apply Tsz; lia | apply Tal; lia]. }
  fold s1. unfold bind, get_freelist. rewrite Hrun.
  exists s', T', L'.
  split; [reflexivity |]. split; [exact Hwf' |].
  split.
  { apply (live_kept_trans s s1 s' T (T ++ [t]) T' NULL t Ha Hlive1 Hlive2).
    intros x Hx _ _. destruct (HT_lt x Hx). lia. }
  split; [exact HcT |].
  split; [exact Hfree |]. split; [lia |].
  rewrite E1, E2, E3, E4. repeat split.
Qed.

(** ** The calls keep the heap well formed *)

(** First-fit placement on a well-formed heap, in full: the heap stays well
    formed, no block in use is touched, and the block returned was not in
    use before. *)
Lemma first_fit_wf fuel s T L r :
  heap_wf s T L -> (length L + 1 <= fuel)%nat ->
  1 <= r -> grow_units r * 24 < 2 ^ 64 ->
  exists p s' T' L',
    pick_free_block_from_list_first_fit fuel r s = Done p s'
    /\ heap_wf s' T' L'
    /\ live_kept s s' T T' NULL
    /\ mem_start_brk s' = mem_start_brk s
    /\ mem_max_addr s' = mem_max_addr s
    /\ mem_brk s <= mem_brk s'
    /\ errno s' = errno s
    /\ (if no_room s L r then p = NULL /\ s' = s
        else In p T' /\ ~ (In p T /\ alloc_or_not (cells s p) = true)
             /\ alloc_or_not (cells s' p) = true
             /\ r <= size_of_blk (cells s' p)).
Proof.
  intros Hwf Hfuel Hr Hnw. pose proof (heap_wf_ok _ _ _ Hwf) as Hok.
  unfold no_room. rewrite find_existsb.
  pose proof (wf_arena _ _ _ Hwf) as Ha.
  assert (Hg : r <= grow_units r) by (destruct (grow_units_cases r); lia).
  destruct (find (fits s r) L) as [y |] eqn:Hfind.
  - rewrite (first_fit_found s L r fuel y Hok ltac:(lia) Hfind).
    destruct (find_fits_some _ _ _ _ Hfind) as (Hin & Hfit & Hfree).
    assert (HyT : In y T).
    { apply (wf_members _ _ _ Hwf) in Hin. destruct Hin as [-> | [H _]]; [| exact H].
      rewrite (aw_lead_head _ _ Ha) in Hfree. discriminate. }
    destruct (place_wf s T L r y Hwf HyT Hfree ltac:(lia) Hfit)
      as (p & s' & T' & L' & Hrun & Hwf' & Hlive & Hnew & Hp & Hal & Hsz
          & E1 & E2 & E3 & E4).
    exists p, s', T', L'.
    split; [exact Hrun |]. split; [exact Hwf' |]. split; [exact Hlive |].
    split; [exact E2 |]. split; [exact E3 |]. split; [lia |]. split; [exact E4 |].
    cbn [negb andb]. auto.
  - rewrite (first_fit_none s L r fuel Hok ltac:(lia) Hfind).
    destruct (fuel - length L)%nat as [| k] eqn:Ek; [lia |].
    unfold grow_and_retry. unfold bind at 1.
    destruct (refused s r) eqn:Href.
    + rewrite (grow_refused s r Href). rewrite Z.eqb_refl.
      exists NULL, s, T, L.
      split; [reflexivity |]. split; [exact Hwf |].
      split; [apply live_kept_refl |].
      split; [reflexivity |]. split; [reflexivity |]. split; [lia |].
      split; [reflexivity |]. cbn [negb andb]. split; reflexivity.
    + destruct (grow_wf s T L r Hwf ltac:(lia) Hnw Href)
        as (s1 & T1 & L1 & Hrun & Hwf1 & Hlive1 & Hc & Hfree & Hsz
            & E1 & E2 & E3 & E4).
      rewrite Hrun.
      pose proof (wf_arena _ _ _ Hwf1) as Ha1.
      destruct (arena_member _ _ _ Ha1 Hc) as (Vc & _ & Hlo & _).
      pose proof (aw_base _ _ Ha1).
      destruct (Z.eqb_spec (freelist s1) NULL) as [E | _]; [unfold NULL in E; lia |].
      cbn [fit_loop]. unfold bind at 1. rewrite (load_ok _ _ Vc).
      destruct (Z.leb_spec r (size_of_blk (cells s1 (freelist s1)))) as [_ | ?];
        [| lia].
      rewrite Hfree. cbn [negb andb].
      destruct (place_wf s1 T1 L1 r (freelist s1) Hwf1 Hc Hfree ltac:(lia) ltac:(lia))
        as (p & s' & T' & L' & Hrun' & Hwf' & Hlive2 & Hnew & Hp & Hal & Hsz'
            & F1 & F2 & F3 & F4).
      assert (Hlive : live_kept s s' T T' NULL).
      { apply (live_kept_trans s s1 s' T T1 T' NULL NULL Ha Hlive1 Hlive2).
        intros x _ Hne _. exact Hne. }
      exists p, s', T', L'.
      split; [exact Hrun' |]. split; [exact Hwf' |]. split; [exact Hlive |].
      split; [congruence |]. split; [congruence |].
      split; [pose proof (grow_units_cases r); lia |].
      split; [congruence |].
      cbn [negb andb]. split; [exact Hp |]. split; [| split; assumption].
      intros [HpT Hpa]. apply Hnew.
      assert (Hpn : p <> NULL).
      { destruct (arena_member _ _ _ Ha HpT) as (_ & _ & Hlop & _).
        pose proof (aw_base _ _ Ha). unfold NULL. lia. }
      destruct (Hlive1 p HpT Hpn Hpa) as [HpT1 Hc1]. split; [exact HpT1 |].
      destruct (arena_member _ _ _ Ha HpT) as (_ & _ & _ & Hsp & _).
      rewrite Hc1 by lia. exact Hpa.
Qed.

(** [mm_malloc] on a well-formed heap, in full. *)
Lemma mm_malloc_wf fuel s T L n :
  heap_wf s T L -> (length L + 1 <= fuel)%nat ->
  grow_units (request_units n) * 24 < 2 ^ 64 ->
  exists p s' T' L',
    mm_malloc fuel n s = Done p s' /\ heap_wf s' T' L'
    /\ live_kept s s' T T' NULL
    /\ mem_start_brk s' = mem_start_brk s
    /\ mem_max_addr s' = mem_max_addr s
    /\ mem_brk s <= mem_brk s'
    /\ ((p = NULL /\ s' = set_err s ENOMEM)
        \/ (In (padd p (-1)) T'
            /\ ~ (In (padd p (-1)) T
                  /\ alloc_or_not (cells s (padd p (-1))) = true)
            /\ alloc_or_not (cells s' (padd p (-1))) = true
            /\ request_units n <= size_of_blk (cells s' (padd p (-1)))
            /\ errno s' = errno s)).
Proof.
  intros Hwf Hfuel Hnw. pose proof (heap_wf_ok _ _ _ Hwf) as Hok.
  pose proof (request_units_min n) as Hr.
  destruct (first_fit_wf fuel s T L (request_units n) Hwf Hfuel ltac:(lia) Hnw)
    as (p & s' & T' & L' & Hrun & Hwf' & Hlive & E1 & E2 & E3 & E4 & Hres).
  rewrite (mm_malloc_eq s L fuel n Hok). unfold bind at 1. rewrite Hrun.
  destruct (no_room s L (request_units n));
    [destruct Hres as [-> ->] | destruct Hres as (Hp & Hnew & Hal & Hsz)].
  - rewrite Z.eqb_refl. unfold bind, set_errno, ret.
    exists NULL, (set_err s ENOMEM), T, L.
    split; [reflexivity |]. split; [apply heap_wf_set_err; exact Hwf |].
    split; [intros x Hx _ _; split; [exact Hx | reflexivity] |].
    split; [reflexivity |]. split; [reflexivity |]. split; [cbn; lia |].
    left. split; reflexivity.
  - pose proof (wf_arena _ _ _ Hwf') as Ha'.
    destruct (arena_member _ _ _ Ha' Hp) as (_ & _ & Hlo & _).
    pose proof (aw_base _ _ Ha').
    destruct (Z.eqb_spec p NULL) as [E | _]; [unfold NULL in E; lia |].
    exists (padd p 1), s', T', L'. rewrite padd_back.
    split; [reflexivity |]. split; [exact Hwf' |]. split; [exact Hlive |].
    split; [exact E1 |]. split; [exact E2 |]. split; [exact E3 |].
    right. auto.
Qed.

(** X20. [mm_malloc] keeps the heap well formed. On a well-formed heap, for a
    request whose size in bytes does not wrap around, [mm_malloc] returns and
    leaves a well-formed heap in an arena that has the same base and limit and
    has not shrunk. Either it returns null and has changed nothing but
    [errno], now [ENOMEM]; or the unit below the returned pointer is the
    header of a block of the tiling that is marked allocated and has at least
    the units asked for, and [errno] is untouched. *)
Theorem malloc_keeps_heap_wf fuel s T L n :
  heap_wf s T L -> (length L + 1 <= fuel)%nat ->
  grow_units (request_units n) * 24 < 2 ^ 64 ->
  exists p s' T' L',
    mm_malloc fuel n s = Done p s' /\ heap_wf s' T' L'
    /\ mem_start_brk s' = mem_start_brk s
    /\ mem_max_addr s' = mem_max_addr s
    /\ mem_brk s <= mem_brk s'
    /\ ((p = NULL /\ s' = set_err s ENOMEM)
        \/ (In (padd p (-1)) T'
            /\ alloc_or_not (cells s' (padd p (-1))) = true
            /\ request_units n <= size_of_blk (cells s' (padd p (-1)))
            /\ errno s' = errno s)).
Proof.
  intros Hwf Hfuel Hnw.
  destruct (mm_malloc_wf fuel s T L n Hwf Hfuel Hnw)
    as (p & s' & T' & L' & Hrun & Hwf' & _ & E1 & E2 & E3 & Hres).
  exists p, s', T', L'. split; [exact Hrun |]. split; [exact Hwf' |].
  split; [exact E1 |]. split; [exact E2 |]. split; [exact E3 |].
  destruct Hres as [H | (H1 & _ & H2)]; [left; exact H | right; auto].
Qed.

(** X21. [mm_malloc] hands out fresh memory and touches no block in use. The
    block it returns was not an allocated block before the call, and every
    block that was allocated before the call is a block afterwards as before,
    with each of its units - header, payload and footer - unchanged. *)
Theorem malloc_spares_live_blocks fuel s T L n :
  heap_wf s T L -> (length L + 1 <= fuel)%nat ->
  grow_units (request_units n) * 24 < 2 ^ 64 ->
  exists p s' T' L',
    mm_malloc fuel n s = Done p s' /\ heap_wf s' T' L'
    /\ (p <> NULL ->
        ~ (In (padd p (-1)) T /\ alloc_or_not (cells s (padd p (-1))) = true))
    /\ forall x,
         In x T -> alloc_or_not (cells s x) = true ->
         In x T'
         /\ forall q, x <= q < x + 24 * size_of_blk (cells s x) ->
                      cells s' q = cells s q.
Proof.
  intros Hwf Hfuel Hnw.
  destruct (mm_malloc_wf fuel s T L n Hwf Hfuel Hnw)
    as (p & s' & T' & L' & Hrun & Hwf' & Hlive & _ & _ & _ & Hres).
  exists p, s', T', L'. split; [exact Hrun |]. split; [exact Hwf' |].
  split.
  - intros Hp. destruct Hres as [[E _] | (_ & H & _)]; [contradiction | exact H].
  - intros x Hx Hal. apply (Hlive x Hx); [| exact Hal].
    destruct (arena_member _ _ _ (wf_arena _ _ _ Hwf) Hx) as (_ & _ & Hlo & _).
    pose proof (aw_base _ _ (wf_arena _ _ _ Hwf)). unfold NULL. lia.
Qed.

(** [mm_free] of a pointer between the sentinels, in full. *)
Lemma mm_free_wf fuel s T L p :
  heap_wf s T L -> (length T + 2 <= fuel)%nat ->
  mem_start_brk s + 96 <= p < mem_brk s - 24 ->
  exists b s' T' L',
    In b T /\ b <= p < b + 24 * size_of_blk (cells s b)
    /\ mm_free fuel p s = Done tt s' /\ heap_wf s' T' L'
    /\ live_kept s s' T T' b
    /\ mem_brk s' = mem_brk s /\ mem_start_brk s' = mem_start_brk s
    /\ mem_max_addr s' = mem_max_addr s
    /\ (if alloc_or_not (cells s b)
        then errno s' = errno s
             /\ alloc_or_not (cells s' (freelist s')) = false
             /\ freelist s' <= b
             /\ b + 24 * size_of_blk (cells s b)
                <= freelist s' + 24 * size_of_blk (cells s' (freelist s'))
        else s' = set_err s EFAULT).
Proof.
  intros Hwf Hfuel Hp. pose proof Hwf as [Ha Hl Hm].
  pose proof (aw_base _ _ Ha) as Hbase.
  destruct (tiling_cover s T _ _ p (aw_tiles _ _ Ha)) as (pre & b & post & ET & Hb);
    [unfold padd, sizeof_HeadFoot; lia |].
  assert (HbT : In b T) by (rewrite ET; apply in_or_app; right; left; reflexivity).
  destruct (arena_member _ _ _ Ha HbT) as (Vb & _ & Hlo & Hh & Hhi).
  pose proof (heap_wf_tiles _ _ _ Hwf) as Htl. rewrite ET in Htl.
  assert (Hlen : (length (mem_start_brk s :: pre) + 1 <= fuel)%nat).
  { rewrite ET, length_app in Hfuel. cbn [length] in *. lia. }
  pose proof (allocatedblock_tiles s (mem_start_brk s :: pre) b post p fuel
                Hbase Htl Hb ltac:(lia) Hlen) as Hid.
  unfold mm_free.
  destruct (Z.eqb_spec p NULL) as [E | _]; [unfold NULL in E; lia |].
  cbn [negb]. unfold bind. rewrite Hid.
  destruct (alloc_or_not (cells s b)) eqn:Hal.
  - destruct (Z.eqb_spec b NULL) as [E | _]; [unfold NULL in E; lia |].
    assert (Hlisted : listed s T L b).
    { intros x. rewrite Hm. split.
      - intros [E | [Hx Hfx]]; [left; exact E |]. right.
        split; [exact Hx |]. split; [| exact Hfx].
        intros ->. rewrite Hal in Hfx. discriminate.
      - intros [E | (Hx & _ & Hfx)]; [left; exact E | right; auto]. }
    destruct (release_wf s T L b Ha Hl Hlisted HbT)
      as (s' & T' & L' & Hrun & Hwf' & Hlive & (_ & Hfree & Hc1 & Hc2)
          & E1 & E2 & E3 & E4).
    exists b, s', T', L'. rewrite Hal. split; [exact HbT |].
    split; [unfold padd, sizeof_HeadFoot in Hb; lia |].
    split; [exact Hrun |]. split; [exact Hwf' |]. split; [exact Hlive |].
    split; [exact E1 |]. split; [exact E2 |]. split; [exact E3 |].
    split; [exact E4 |]. split; [exact Hfree |]. split; [exact Hc1 | exact Hc2].
  - rewrite Z.eqb_refl. unfold set_errno.
    exists b, (set_err s EFAULT), T, L. rewrite Hal. split; [exact HbT |].
    split; [unfold padd, sizeof_HeadFoot in Hb; lia |].
    split; [reflexivity |]. split; [apply heap_wf_set_err; exact Hwf |].
    split; [intros x Hx _ _; split; [exact Hx | reflexivity] |].
    repeat split.
Qed.

(** X22. [mm_free] keeps the heap well formed. For any pointer between the two
    sentinels - whether or not it was handed out by [mm_malloc] - [mm_free]
    returns and leaves a well-formed heap in the same arena. The pointer lies
    in the units of a block of the tiling, and what happens is decided by that
    block. When its header says free, nothing but [errno] changes, which
    becomes [EFAULT]. When its header says allocated, the block is released:
    [errno] is untouched, and the units of the block lie in the block at the
    anchor, which is free. *)
Theorem free_keeps_heap_wf fuel s T L p :
  heap_wf s T L -> (length T + 2 <= fuel)%nat ->
  mem_start_brk s + 96 <= p < mem_brk s - 24 ->
  exists s' T' L',
    mm_free fuel p s = Done tt s' /\ heap_wf s' T' L'
    /\ mem_brk s' = mem_brk s /\ mem_start_brk s' = mem_start_brk s
    /\ mem_max_addr s' = mem_max_addr s
    /\ (exists b, In b T /\ b <= p < b + 24 * size_of_blk (cells s b))
    /\ forall b,
         In b T -> b <= p < b + 24 * size_of_blk (cells s b) ->
         if alloc_or_not (cells s b)
         then errno s' = errno s
              /\ alloc_or_not (cells s' (freelist s')) = false
              /\ freelist s' <= b
              /\ b + 24 * size_of_blk (cells s b)
                 <= freelist s' + 24 * size_of_blk (cells s' (freelist s'))
         else s' = set_err s EFAULT.
Proof.
  intros Hwf Hfuel Hp.
  destruct (mm_free_wf fuel s T L p Hwf Hfuel Hp)
    as (b & s' & T' & L' & HbT & Hb & Hrun & Hwf' & _ & E1 & E2 & E3 & Hres).
  exists s', T', L'. split; [exact Hrun |]. split; [exact Hwf' |].
  split; [exact E1 |]. split; [exact E2 |]. split; [exact E3 |].
  split; [exists b; split; assumption |].
  intros b' Hb'T Hb'.
  assert (E : b' = b).
  { pose proof (wf_arena _ _ _ Hwf) as Ha.
    destruct (tiling_sep _ _ _ _ _ _ (aw_tiles _ _ Ha) Hb'T HbT) as [E | [H | H]];
      [exact E | lia | lia]. }
  subst b'. exact Hres.
Qed.

(** X23. [mm_free] touches no other block in use. Whatever pointer between the
    sentinels it is given, every allocated block that does not hold the
    pointer is a block afterwards as before, and each of its units - header,
    payload and footer - is unchanged. *)
Theorem free_spares_live_blocks fuel s T L p :
  heap_wf s T L -> (length T + 2 <= fuel)%nat ->
  mem_start_brk s + 96 <= p < mem_brk s - 24 ->
  exists s' T' L',
    mm_free fuel p s = Done tt s' /\ heap_wf s' T' L'
    /\ forall x,
         In x T -> alloc_or_not (cells s x) = true ->
         ~ (x <= p < x + 24 * size_of_blk (cells s x)) ->
         In x T'
         /\ forall q, x <= q < x + 24 * size_of_blk (cells s x) ->
                      cells s' q = cells s q.
Proof.
  intros Hwf Hfuel Hp.
  destruct (mm_free_wf fuel s T L p Hwf Hfuel Hp)
    as (b & s' & T' & L' & HbT & Hb & Hrun & Hwf' & Hlive & _).
  exists s', T', L'. split; [exact Hrun |]. split; [exact Hwf' |].
  intros x Hx Hal Hnot. apply (Hlive x Hx); [| exact Hal].
  intros ->. contradiction.
Qed.

(** ** Resizing keeps the heap well formed and moves the payload *)

(** Stores that stay strictly between the header and the footer of a block
    in use keep the heap well formed. *)
Lemma heap_wf_payload s s' T L p :
  heap_wf s T L -> In p T -> alloc_or_not (cells s p) = true ->
  mem_start_brk s' = mem_start_brk s -> mem_max_addr s' = mem_max_addr s ->
  mem_brk s' = mem_brk s -> freelist s' = freelist s ->
  (forall q, q <= p \/ foot s p <= q -> cells s' q = cells s q) ->
  heap_wf s' T L.
Proof.
  intros [Ha Hl Hm] Hp Hal E1 E2 E3 E4 Hout.
  destruct (arena_member _ _ _ Ha Hp) as (_ & _ & Hlo & Hsz & Hhi).
  assert (Hfp : p <= foot s p < p + 24 * size_of_blk (cells s p))
    by (unfold foot, padd, sizeof_HeadFoot; lia).
  assert (Hx : forall x, In x T ->
                 cells s' x = cells s x
                 /\ foot s' x = foot s x
                 /\ cells s' (foot s x) = cells s (foot s x)).
  { intros x Hx.
    assert (H1 : cells s' x = cells s x /\ cells s' (foot s x) = cells s (foot s x)).
    { destruct (Z.eq_dec x p) as [-> | Hne].
      - split; apply Hout; lia.
      - destruct (tiling_other _ _ _ _ _ _ (aw_tiles _ _ Ha) Hp Hx Hne) as [Hx1 Hx2].
        split; apply Hout; lia. }
    destruct H1 as [H1 H2]. split; [exact H1 |]. split; [| exact H2].
    unfold foot. rewrite H1. reflexivity. }
  assert (HL : forall x, In x L -> cells s' x = cells s x).
  { intros x HxL. apply Hm in HxL. destruct HxL as [-> | [HxT _]].
    - apply Hout. lia.
    - apply Hx. exact HxT. }
  constructor.
  - constructor; rewrite ?E1, ?E2, ?E3.
    + exact (aw_base _ _ Ha).
    + exact (aw_max _ _ Ha).
    + exact (aw_cap _ _ Ha).
    + exact (aw_brk _ _ Ha).
    + rewrite Hout by lia. exact (aw_lead_size _ _ Ha).
    + rewrite Hout by lia. exact (aw_lead_head _ _ Ha).
    + rewrite Hout by (unfold padd, sizeof_HeadFoot; lia).
      exact (aw_lead_foot _ _ Ha).
    + apply (tiling_ext s); [| exact (aw_tiles _ _ Ha)].
      intros x HxT. rewrite (proj1 (Hx x HxT)). reflexivity.
    + rewrite Hout by lia. exact (aw_trail _ _ Ha).
    + pose proof (aw_feet _ _ Ha) as Hf. rewrite Forall_forall in Hf.
      apply Forall_forall. intros x HxT.
      destruct (Hx x HxT) as (H1 & H2 & H3).
      unfold footer_ok. rewrite H2, H3, H1. exact (Hf x HxT).
  - pose proof (lw_anchor _ _ Hl) as Hhd.
    constructor; rewrite ?E4.
    + exact Hhd.
    + exact (lw_nodup _ _ Hl).
    + apply (chain_ext s); [exact (lw_chain _ _ Hl) | | |].
      * intros x HxL. rewrite (HL x HxL). reflexivity.
      * intros x HxL. rewrite (HL x); [reflexivity |].
        destruct L; [destruct HxL | right; exact HxL].
      * rewrite (HL (freelist s)); [reflexivity |].
        destruct L as [| a t]; [discriminate |]. injection Hhd as ->.
        left. reflexivity.
  - intros x. rewrite E1, Hm. split.
    + intros [E | [HxT Hf]]; [left; exact E |]. right. split; [exact HxT |].
      rewrite (proj1 (Hx x HxT)). exact Hf.
    + intros [E | [HxT Hf]]; [left; exact E |]. right. split; [exact HxT |].
      rewrite <- (proj1 (Hx x HxT)). exact Hf.
Qed.

(** [memcpy] of [k] whole units between two ranges on the grid of the
    arena that do not overlap: the units of the destination take the
    contents of the source, and nothing else changes. *)
Lemma memcpy_units splice s dst src k :
  valid s dst = true -> valid s src = true -> 0 <= k ->
  src + 24 * k <= mem_brk s -> dst + 24 * k <= mem_brk s ->
  src + 24 * k <= dst \/ dst + 24 * k <= src ->
  exists s',
    memcpy splice dst src (24 * k) s = Done tt s'
    /\ mem_start_brk s' = mem_start_brk s /\ mem_max_addr s' = mem_max_addr s
    /\ mem_brk s' = mem_brk s /\ freelist s' = freelist s /\ errno s' = errno s
    /\ (forall i, 0 <= i < k -> cells s' (padd dst i) = cells s (padd src i))
    /\ (forall q, q < dst \/ dst + 24 * k <= q -> cells s' q = cells s q).
Proof.
  intros Vd Vs Hk Hs Hd Hno. unfold memcpy.
  destruct (Z.eqb_spec (24 * k) 0) as [E | Hnz].
  - exists s. repeat split; try reflexivity. intros i Hi. lia.
  - apply valid_iff in Vd. apply valid_iff in Vs.
    destruct Vd as (Vd1 & Vd2 & Vd3). destruct Vs as (Vs1 & Vs2 & Vs3).
    assert (C : in_arena s src (24 * k) && in_arena s dst (24 * k)
                && ((src + 24 * k <=? dst) || (dst + 24 * k <=? src))
                && ((dst - mem_start_brk s) mod sizeof_HeadFoot =? 0)
                && (24 * k mod sizeof_HeadFoot =? 0) = true).
    { unfold in_arena, sizeof_HeadFoot.
      repeat (apply andb_true_iff; split); try (apply Z.leb_le; lia).
      - apply orb_true_iff. destruct Hno; [left | right]; apply Z.leb_le; lia.
      - apply Z.eqb_eq. exact Vd3.
      - apply Z.eqb_eq. rewrite Z.mul_comm. apply Z_mod_mult. }
    rewrite C. eexists. split; [reflexivity |].
    cbn [mem_start_brk mem_max_addr mem_brk freelist errno cells set_cells].
    repeat split.
    + intros i Hi. unfold padd, sizeof_HeadFoot.
      replace (dst + i * 24 - dst) with (i * 24) by lia.
      rewrite Z_mod_mult, Z.eqb_refl.
      destruct (Z.leb_spec dst (dst + i * 24)); [| lia].
      destruct (Z.ltb_spec (dst + i * 24) (dst + 24 * k)); [| lia].
      cbn [andb]. unfold peek, sizeof_HeadFoot.
      replace (src + i * 24 - mem_start_brk s)
        with (src - mem_start_brk s + i * 24) by lia.
      rewrite Z_mod_plus_full, Vs3. reflexivity.
    + intros q Hq.
      destruct (Z.leb_spec dst q); destruct (Z.ltb_spec q (dst + 24 * k));
        cbn [andb]; try reflexivity. lia.
Qed.

Lemma live_kept_weaken s s' T T' b :
  arena_wf s T -> live_kept s s' T T' NULL -> live_kept s s' T T' b.
Proof.
  intros Ha H x Hx _ Hal. apply (H x Hx); [| exact Hal].
  destruct (arena_member _ _ _ Ha Hx) as (_ & _ & Hlo & _).
  pose proof (aw_base _ _ Ha). unfold NULL. lia.
Qed.

(** [mm_realloc] of the payload pointer of a block in use, in full. *)
Lemma mm_realloc_wf splice fuel s T L b n :
  let p := padd b 1 in
  let have := size_of_blk (cells s b) in
  let need := wrap (headchunksize n + 2) in
  heap_wf s T L -> In b T -> alloc_or_not (cells s b) = true -> 2 <= have ->
  (length T + 2 <= fuel)%nat -> (length L + 1 <= fuel)%nat ->
  grow_units need * 24 < 2 ^ 64 ->
  exists q s' T' L',
    mm_realloc splice fuel p n s = Done q s' /\ heap_wf s' T' L'
    /\ live_kept s s' T T' b
    /\ (need <= have -> q = p /\ s' = s)
    /\ (have < need ->
        if no_room s L need
        then q = NULL /\ s' = s
        else q <> NULL
             /\ In (padd q (-1)) T'
             /\ alloc_or_not (cells s' (padd q (-1))) = true
             /\ need <= size_of_blk (cells s' (padd q (-1)))
             /\ (forall i, 0 <= i < have - 2 ->
                           cells s' (padd q i) = cells s (padd p i))
             /\ alloc_or_not (cells s' (freelist s')) = false
             /\ freelist s' <= b
             /\ b + 24 * have
                <= freelist s' + 24 * size_of_blk (cells s' (freelist s'))
             /\ errno s' = errno s).
Proof.
  intros p have need Hwf Hb Hal Hhave HfuelT HfuelL Hnw.
  pose proof Hwf as [Ha Hl Hm].
  pose proof (aw_base _ _ Ha) as Hbase.
  destruct (arena_member _ _ _ Ha Hb) as (Vb & Vfb & Hlo & Hsz & Hhi).
  fold have in Hsz, Hhi.
  assert (Hp : b <= p < padd b have) by (unfold p, padd, sizeof_HeadFoot; lia).
  (* identification *)
  destruct (in_split _ _ Hb) as (pre & post & ET).
  pose proof (heap_wf_tiles _ _ _ Hwf) as Htl. rewrite ET in Htl.
  assert (Hlen : (length (mem_start_brk s :: pre) + 1 <= fuel)%nat).
  { rewrite ET, length_app in HfuelT. cbn [length] in *. lia. }
  assert (Hpb : mem_start_brk s < p < mem_brk s - 1)
    by (unfold padd, sizeof_HeadFoot in Hp; lia).
  pose proof (allocatedblock_tiles s (mem_start_brk s :: pre) b post p fuel
                Hbase Htl Hp Hpb Hlen) as Hid.
  rewrite Hal in Hid.
  unfold mm_realloc.
  destruct (Z.eqb_spec p NULL) as [E | _]; [unfold NULL in E; lia |].
  unfold bind at 1. rewrite Hid.
  destruct (Z.eqb_spec b NULL) as [E | HbN]; [unfold NULL in E; lia |].
  unfold bind at 1. rewrite (load_ok _ _ Vb). fold have need.
  destruct (Z.geb_spec have need) as [Hfit | Hgrow].
  - (* the block is large enough *)
    exists p, s, T, L. split; [reflexivity |]. split; [exact Hwf |].
    split; [apply live_kept_refl |]. split; [auto | lia].
  - destruct (first_fit_wf fuel s T L need Hwf HfuelL ltac:(lia) Hnw)
      as (p1 & s1 & T1 & L1 & Hrun1 & Hwf1 & Hlive1 & E1 & E2 & E3 & E4 & Hres).
    unfold bind at 1. rewrite Hrun1.
    destruct (no_room s L need);
      [destruct Hres as [-> ->] | destruct Hres as (Hp1 & Hnew & Hal1 & Hsz1)].
    + (* no memory: nothing has changed *)
      rewrite Z.eqb_refl.
      exists NULL, s, T, L. split; [reflexivity |]. split; [exact Hwf |].
      split; [apply live_kept_refl |]. split; [lia |]. intros _. auto.
    + pose proof (wf_arena _ _ _ Hwf1) as Ha1.
      destruct (arena_member _ _ _ Ha1 Hp1) as (Vp1 & Vfp1 & Hlo1 & Hs1 & Hhi1).
      pose proof (aw_base _ _ Ha1) as Hbase1.
      destruct (Z.eqb_spec p1 NULL) as [E | _]; [unfold NULL in E; lia |].
      set (big := size_of_blk (cells s1 p1)) in *.
      (* the old block is as it was *)
      destruct (Hlive1 b Hb HbN Hal) as [Hb1 Hcb].
      fold have in Hcb.
      assert (Ecb : cells s1 b = cells s b) by (apply Hcb; lia).
      assert (Hal_b1 : alloc_or_not (cells s1 b) = true) by (rewrite Ecb; exact Hal).
      assert (Hsz_b1 : size_of_blk (cells s1 b) = have) by (rewrite Ecb; reflexivity).
      assert (Hne : p1 <> b) by (intros ->; apply Hnew; auto).
      assert (Hsep : p1 + 24 * big <= b \/ b + 24 * have <= p1).
      { destruct (tiling_sep _ _ _ _ _ _ (aw_tiles _ _ Ha1) Hp1 Hb1) as [E | H];
          [contradiction |]. fold big in H. rewrite Hsz_b1 in H. exact H. }
      (* the copy *)
      assert (Hw1 : wrap (have - 2) = have - 2) by (apply wrap_small; lia).
      assert (Hcb1 : conv_bytes (have - 2) = 24 * (have - 2)).
      { unfold conv_bytes, sizeof_HeadFoot. rewrite wrap_small by lia. lia. }
      rewrite Hw1, Hcb1.
      assert (Vdst : valid s1 (padd p1 1) = true).
      { replace (padd p1 1) with (p1 + 24 * 1) by (unfold padd, sizeof_HeadFoot; lia).
        apply valid_shift; [exact Vp1 | lia | lia]. }
      assert (Vsrc : valid s1 p = true).
      { destruct (arena_member _ _ _ Ha1 Hb1) as (Vb1 & _).
        replace p with (b + 24 * 1) by (unfold p, padd, sizeof_HeadFoot; lia).
        apply valid_shift; [exact Vb1 | lia | lia]. }
      destruct (memcpy_units splice s1 (padd p1 1) p (have - 2) Vdst Vsrc)
        as (s2 & Hrun2 & F1 & F2 & F3 & F4 & F5 & Hcopy & Hout2);
        try (unfold p, padd, sizeof_HeadFoot; lia).
      unfold bind at 1. rewrite Hrun2.
      assert (Hwf2 : heap_wf s2 T1 L1).
      { apply (heap_wf_payload s1 s2 T1 L1 p1 Hwf1 Hp1 Hal1 F1 F2 F3 F4).
        intros q Hq. apply Hout2. unfold foot in Hq. fold big in Hq.
        unfold padd, sizeof_HeadFoot in *. lia. }
      assert (Hlive2 : live_kept s1 s2 T1 T1 p1).
      { intros x Hx Hxne Hax. split; [exact Hx |]. intros q Hq.
        apply Hout2.
        pose proof (live_outside s1 T1 x p1 q Ha1 Hx Hp1 Hxne Hq) as Ho.
        fold big in Ho. unfold padd, sizeof_HeadFoot. lia. }
      (* the release of the old block *)
      assert (Ecb2 : cells s2 b = cells s1 b).
      { apply Hout2. unfold padd, sizeof_HeadFoot. lia. }
      assert (Hlisted : listed s2 T1 L1 b).
      { intros x. rewrite (wf_members _ _ _ Hwf2). split.
        - intros [E | [Hx Hfx]]; [left; exact E |]. right.
          split; [exact Hx |]. split; [| exact Hfx].
          intros ->. rewrite Ecb2, Hal_b1 in Hfx. discriminate.
        - intros [E | (Hx & _ & Hfx)]; [left; exact E | right; auto]. }
      destruct (release_wf s2 T1 L1 b (wf_arena _ _ _ Hwf2) (wf_list _ _ _ Hwf2)
                  Hlisted Hb1)
        as (s3 & T3 & L3 & Hrun3 & Hwf3 & Hlive3 & (_ & Hfree3 & Hc1 & Hc2)
            & G1 & G2 & G3 & G4).
      rewrite Ecb2, Hsz_b1 in Hc2.
      unfold bind at 1. rewrite Hrun3. unfold ret.
      (* the new block after the release *)
      assert (Ep1 : cells s2 p1 = cells s1 p1).
      { apply Hout2. unfold padd, sizeof_HeadFoot. lia. }
      destruct (Hlive3 p1 Hp1 Hne) as [Hp3 Hc3]; [rewrite Ep1; exact Hal1 |].
      rewrite Ep1 in Hc3. fold big in Hc3.
      exists (padd p1 1), s3, T3, L3. rewrite padd_back.
      split; [reflexivity |]. split; [exact Hwf3 |].
      split.
      { apply (live_kept_trans s s2 s3 T T1 T3 b b Ha); [| exact Hlive3 | auto].
        apply (live_kept_trans s s1 s2 T T1 T1 b p1 Ha);
          [apply live_kept_weaken; assumption | exact Hlive2 |].
        intros x Hx _ Hax ->. apply Hnew. auto. }
      split; [lia |]. intros _.
      split; [unfold padd, sizeof_HeadFoot, NULL; lia |].
      split; [exact Hp3 |].
      split; [rewrite Hc3, Ep1 by lia; exact Hal1 |].
      split; [rewrite Hc3, Ep1 by lia; exact Hsz1 |].
      split.
      { intros i Hi.
        rewrite Hc3 by (unfold padd, sizeof_HeadFoot; lia).
        rewrite (Hcopy i Hi). apply Hcb. unfold p, padd, sizeof_HeadFoot. lia. }
      split; [exact Hfree3 |]. split; [exact Hc1 |]. split; [exact Hc2 |].
      congruence.
Qed.

(** X24. [mm_realloc] of the payload pointer of a block in use, on a
    well-formed heap and for a new size whose units, in bytes, do not wrap
    around. The call returns and leaves a well-formed heap. When the block has
    the units the new size needs, the pointer comes back and nothing has
    changed. Otherwise, when no member of the free list fits and the provider
    refuses the growth, the result is null and nothing has changed, not even
    [errno]; and when a member fits or the provider grants the growth, the
    result is not null: it is the payload of a block in use of at least the
    units needed, whose payload starts with the payload of the old block, unit
    for unit, and the units of the old block now lie in the block at the
    anchor, which is free. *)
Theorem realloc_moves_payload splice fuel s T L b n :
  let p := padd b 1 in
  let have := size_of_blk (cells s b) in
  let need := wrap (headchunksize n + 2) in
  heap_wf s T L -> In b T -> alloc_or_not (cells s b) = true -> 2 <= have ->
  (length T + 2 <= fuel)%nat -> (length L + 1 <= fuel)%nat ->
  grow_units need * 24 < 2 ^ 64 ->
  exists q s' T' L',
    mm_realloc splice fuel p n s = Done q s' /\ heap_wf s' T' L'
    /\ (need <= have -> q = p /\ s' = s)
    /\ (have < need ->
        if no_room s L need
        then q = NULL /\ s' = s
        else q <> NULL
             /\ In (padd q (-1)) T'
             /\ alloc_or_not (cells s' (padd q (-1))) = true
             /\ need <= size_of_blk (cells s' (padd q (-1)))
             /\ (forall i, 0 <= i < have - 2 ->
                           cells s' (padd q i) = cells s (padd p i))
             /\ alloc_or_not (cells s' (freelist s')) = false
             /\ freelist s' <= b
             /\ b + 24 * have
                <= freelist s' + 24 * size_of_blk (cells s' (freelist s'))
             /\ errno s' = errno s).
Proof.
  intros p have need Hwf Hb Hal Hhave HfuelT HfuelL Hnw.
  destruct (mm_realloc_wf splice fuel s T L b n Hwf Hb Hal Hhave HfuelT HfuelL Hnw)
    as (q & s' & T' & L' & Hrun & Hwf' & _ & H1 & H2).
  exists q, s', T', L'. split; [exact Hrun |]. split; [exact Hwf' |].
  split; [exact H1 | exact H2].
Qed.

(** X25. [mm_realloc] touches no other block in use: every allocated block
    other than the one that is resized is a block afterwards as before, and
    each of its units is unchanged. *)
Theorem realloc_spares_live_blocks splice fuel s T L b n :
  heap_wf s T L -> In b T -> alloc_or_not (cells s b) = true ->
  2 <= size_of_blk (cells s b) ->
  (length T + 2 <= fuel)%nat -> (length L + 1 <= fuel)%nat ->
  grow_units (wrap (headchunksize n + 2)) * 24 < 2 ^ 64 ->
  exists q s' T' L',
    mm_realloc splice fuel (padd b 1) n s = Done q s' /\ heap_wf s' T' L'
    /\ forall x,
         In x T -> x <> b -> alloc_or_not (cells s x) = true ->
         In x T'
         /\ forall q, x <= q < x + 24 * size_of_blk (cells s x) ->
                      cells s' q = cells s q.
Proof.
  intros Hwf Hb Hal Hhave HfuelT HfuelL Hnw.
  destruct (mm_realloc_wf splice fuel s T L b n Hwf Hb Hal Hhave HfuelT HfuelL Hnw)
    as (q & s' & T' & L' & Hrun & Hwf' & Hlive & _).
  exists q, s', T', L'. split; [exact Hrun |]. split; [exact Hwf' | exact Hlive].
Qed.

(** ** The bootstrap is well formed *)

(** X26. The bootstrap heap is well formed. [mm_init] on an uninitialised
    allocator, and [mm_reset] from any state, leave a well-formed heap with no
    block between the two sentinels and the leading sentinel alone on the free
    list. *)
Theorem bootstrap_heap_wf s :
  provider_ok s ->
  (freelist s = NULL ->
   exists s', mm_init s = Done tt s' /\ heap_wf s' [] [mem_start_brk s])
  /\ (exists s', mm_reset s = Done tt s' /\ heap_wf s' [] [mem_start_brk s]).
Proof.
  intros Hp.
  assert (Hre : exists s',
             restart (set_brk s (mem_start_brk s)) = Done tt s'
             /\ heap_wf s' [] [mem_start_brk s]).
  { destruct (restart_ok (set_brk s (mem_start_brk s)) Hp eq_refl)
      as (s' & Hrun & Hok & E1 & E2 & E3 & E4 & _ & Hs0 & Ha0 & _ & Ha3 & _ & Ha4 & _).
    cbn [mem_start_brk mem_max_addr set_brk] in *.
    destruct Hp as (Hlo & Hroom & Hmax & Hcap).
    exists s'. split; [exact Hrun |]. constructor.
    - constructor; rewrite ?E1, ?E2, ?E3; try lia.
      + exact Hs0.
      + exact Ha0.
      + exact Ha3.
      + cbn [tiling]. unfold padd, sizeof_HeadFoot. lia.
      + replace (mem_start_brk s + 120 - 24) with (mem_start_brk s + 96) by lia.
        exact Ha4.
      + constructor.
    - constructor.
      + exact (ok_anchor _ _ Hok).
      + exact (ok_nodup _ _ Hok).
      + exact (ok_chain _ _ Hok).
    - intros x. rewrite E1. cbn [In]. split.
      + intros [<- | []]. left. reflexivity.
      + intros [-> | [[] _]]. left. reflexivity. }
  destruct Hre as (s' & Hrun & Hwf). split.
  - intros Hf. exists s'. split; [| exact Hwf].
    unfold mm_init, bind, get_freelist. rewrite Hf, Z.eqb_refl.
    unfold mem_init. exact Hrun.
  - exists s'. split; [| exact Hwf].
    unfold mm_reset. unfold bind at 1, get_freelist.
    destruct (Z.eqb_spec (freelist s) NULL) as [Hf | Hf].
    + unfold mm_init, bind, get_freelist. rewrite Hf, Z.eqb_refl.
      unfold mem_init. exact Hrun.
    + unfold bind, mem_reset_brk. exact Hrun.
Qed.

Lemma bootstrap_heap_wf_witness :
  exists s', mm_reset scattered = Done tt s' /\ heap_wf s' [] [65536].
Proof.
  destruct (bootstrap_heap_wf scattered) as [_ (s' & Hrun & Hwf)].
  - unfold provider_ok. vm_compute. repeat split; intro; discriminate.
  - exists s'. split; [exact Hrun | exact Hwf].
Defined.

(** ** Well-formed heaps at hand *)

Ltac concrete_heap_wf :=
  constructor;
  [ constructor;
    [ zcmp | zcmp | zcmp | zcmp
    | vm_compute; reflexivity | vm_compute; reflexivity | vm_compute; reflexivity
    | vm_compute; repeat split; first [reflexivity | intro; discriminate]
    | vm_compute; reflexivity
    | repeat (constructor;
              [unfold footer_ok; split;
               [vm_compute; reflexivity | vm_compute; intro; discriminate || reflexivity] |]);
      constructor ]
  | constructor;
    [ vm_compute; reflexivity | concrete_nodup | vm_compute; repeat split; reflexivity ]
  | intros x; split;
    [ cbn [In]; intros H;
      repeat (destruct H as [H | H];
              [subst x;
               first [ left; vm_compute; reflexivity
                     | right; split; [cbn [In]; tauto | vm_compute; reflexivity] ] |]);
      destruct H
    | intros [H | [H Hf]];
      [ subst x; vm_compute; tauto
      | cbn [In] in H;
        repeat (destruct H as [H | H];
                [subst x;
                 first [ cbn [In]; tauto
                       | vm_compute in Hf; discriminate Hf ] |]);
        destruct H ] ] ].

Lemma fresh_heap_wf : heap_wf fresh [] [65536].
Proof. concrete_heap_wf. Qed.

Lemma quad_heap_wf :
  heap_wf quad [65632; 69352; 69448; 69544; 69640] [65632; 65536].
Proof. concrete_heap_wf. Qed.

Lemma malloc_keeps_heap_wf_witness :
  exists p s' T' L',
    mm_malloc FUEL 100 quad = Done p s' /\ heap_wf s' T' L'.
Proof.
  destruct (malloc_keeps_heap_wf FUEL quad [65632; 69352; 69448; 69544; 69640]
              [65632; 65536] 100)
    as (p & s' & T' & L' & Hrun & Hwf & _).
  - exact quad_heap_wf.
  - vm_compute. repeat constructor.
  - vm_compute. reflexivity.
  - exists p, s', T', L'. split; [exact Hrun | exact Hwf].
Defined.

Lemma free_keeps_heap_wf_witness :
  exists s' T' L',
    mm_free FUEL 69600 quad = Done tt s' /\ heap_wf s' T' L'
    /\ errno s' = errno quad
    /\ alloc_or_not (cells s' (freelist s')) = false
    /\ freelist s' <= 69544.
Proof.
  destruct (free_keeps_heap_wf FUEL quad [65632; 69352; 69448; 69544; 69640]
              [65632; 65536] 69600)
    as (s' & T' & L' & Hrun & Hwf & _ & _ & _ & _ & Hres).
  - exact quad_heap_wf.
  - vm_compute. repeat constructor.
  - vm_compute. split; [intro; discriminate | reflexivity].
  - exists s', T', L'. split; [exact Hrun |]. split; [exact Hwf |].
    specialize (Hres 69544).
    assert (E : alloc_or_not (cells quad 69544) = true) by (vm_compute; reflexivity).
    rewrite E in Hres.
    destruct Hres as (H1 & H2 & H3 & _).
    + cbn [In]. tauto.
    + vm_compute. split; [intro; discriminate | reflexivity].
    + split; [exact H1 |]. split; [exact H2 | exact H3].
Defined.

Lemma malloc_spares_live_blocks_witness :
  exists p s',
    mm_malloc FUEL 100 quad = Done p s'
    /\ forall q, 69544 <= q < 69544 + 24 * 4 -> cells s' q = cells quad q.
Proof.
  destruct (malloc_spares_live_blocks FUEL quad
              [65632; 69352; 69448; 69544; 69640] [65632; 65536] 100)
    as (p & s' & T' & L' & Hrun & _ & _ & Hlive).
  - exact quad_heap_wf.
  - vm_compute. repeat constructor.
  - vm_compute. reflexivity.
  - exists p, s'. split; [exact Hrun |].
    destruct (Hlive 69544) as [_ Hc].
    + cbn [In]. tauto.
    + vm_compute. reflexivity.
    + assert (E : size_of_blk (cells quad 69544) = 4) by (vm_compute; reflexivity).
      rewrite E in Hc. exact Hc.
Defined.

Lemma free_spares_live_blocks_witness :
  exists s',
    mm_free FUEL 69600 quad = Done tt s'
    /\ forall q, 69640 <= q < 69640 + 24 * 4 -> cells s' q = cells quad q.
Proof.
  destruct (free_spares_live_blocks FUEL quad
              [65632; 69352; 69448; 69544; 69640] [65632; 65536] 69600)
    as (s' & T' & L' & Hrun & _ & Hlive).
  - exact quad_heap_wf.
  - vm_compute. repeat constructor.
  - vm_compute. split; [intro; discriminate | reflexivity].
  - exists s'. split; [exact Hrun |].
    assert (E : size_of_blk (cells quad 69640) = 4) by (vm_compute; reflexivity).
    destruct (Hlive 69640) as [_ Hc].
    + cbn [In]. tauto.
    + vm_compute. reflexivity.
    + rewrite E. lia.
    + rewrite E in Hc. exact Hc.
Defined.

Lemma tight_heap_wf : heap_wf tight [65632; 69616] [65632; 65536].
Proof. concrete_heap_wf. Qed.

Lemma realloc_moves_payload_witness :
  (exists q s' T' L',
     mm_realloc (fun _ a _ => a) FUEL (padd 69544 1) 200 quad = Done q s'
     /\ heap_wf s' T' L' /\ q <> NULL
     /\ alloc_or_not (cells s' (padd q (-1))) = true
     /\ (forall i, 0 <= i < 2 ->
                   cells s' (padd q i) = cells quad (padd (padd 69544 1) i)))
  /\ mm_realloc (fun _ a _ => a) FUEL (padd 69616 1) 10000 tight
     = Done NULL tight.
Proof.
  split.
  - pose proof (realloc_moves_payload (fun _ a _ => a) FUEL quad
                  [65632; 69352; 69448; 69544; 69640] [65632; 65536] 69544 200)
      as H.
    cbv zeta in H.
    assert (E1 : size_of_blk (cells quad 69544) = 4) by (vm_compute; reflexivity).
    assert (E2 : wrap (headchunksize 200 + 2) = 11) by (vm_compute; reflexivity).
    assert (E3 : no_room quad [65632; 65536] 11 = false)
      by (vm_compute; reflexivity).
    rewrite E1, E2, E3 in H.
    destruct H as (q & s' & T' & L' & Hrun & Hwf & _ & Hmove).
    + exact quad_heap_wf.
    + cbn [In]. tauto.
    + vm_compute. reflexivity.
    + vm_compute. intro; discriminate.
    + vm_compute. repeat constructor.
    + vm_compute. repeat constructor.
    + vm_compute. reflexivity.
    + destruct Hmove as (Hq & _ & Hal & _ & Hcopy & _); [reflexivity |].
      exists q, s', T', L'. split; [exact Hrun |]. split; [exact Hwf |].
      split; [exact Hq |]. split; [exact Hal | exact Hcopy].
  - pose proof (realloc_moves_payload (fun _ a _ => a) FUEL tight
                  [65632; 69616] [65632; 65536] 69616 10000) as H.
    cbv zeta in H.
    assert (E1 : size_of_blk (cells tight 69616) = 5) by (vm_compute; reflexivity).
    assert (E2 : wrap (headchunksize 10000 + 2) = 419) by (vm_compute; reflexivity).
    assert (E3 : no_room tight [65632; 65536] 419 = true)
      by (vm_compute; reflexivity).
    rewrite E1, E2, E3 in H.
    destruct H as (q & s' & T' & L' & Hrun & _ & _ & Hfail).
    + exact tight_heap_wf.
    + cbn [In]. tauto.
    + vm_compute. reflexivity.
    + vm_compute. intro; discriminate.
    + vm_compute. repeat constructor.
    + vm_compute. repeat constructor.
    + vm_compute. reflexivity.
    + destruct Hfail as [-> ->]; [reflexivity |]. exact Hrun.
Defined.

Lemma realloc_spares_live_blocks_witness :
  exists q s',
    mm_realloc (fun _ a _ => a) FUEL (padd 69544 1) 200 quad = Done q s'
    /\ forall u, 69640 <= u < 69640 + 24 * 4 -> cells s' u = cells quad u.
Proof.
  destruct (realloc_spares_live_blocks (fun _ a _ => a) FUEL quad
              [65632; 69352; 69448; 69544; 69640] [65632; 65536] 69544 200)
    as (q & s' & T' & L' & Hrun & _ & Hlive).
  - exact quad_heap_wf.
  - cbn [In]. tauto.
  - vm_compute. reflexivity.
  - vm_compute. intro; discriminate.
  - vm_compute. repeat constructor.
  - vm_compute. repeat constructor.
  - vm_compute. reflexivity.
  - exists q, s'. split; [exact Hrun |].
    assert (E : size_of_blk (cells quad 69640) = 4) by (vm_compute; reflexivity).
    destruct (Hlive 69640) as [_ Hc].
    + cbn [In]. tauto.
    + discriminate.
    + vm_compute. reflexivity.
    + rewrite E in Hc. exact Hc.
Defined.
